(** * Cache-backed collectors of the country directory

    A shallow embedding of [src/collectors/collector.py] and of the parts of
    [src/collectors/models.py] it relies on.  Coroutines are modelled as
    computations over an explicit world (cache files, directories, clock and
    two ghost logs); Python exceptions are an error result. *)

From Stdlib Require Import ZArith List String Ascii Bool Lia.
From stdpp Require Import base gmap strings list.
From Stdlib Require DecimalString DecimalZ DecimalPos.

Set Warnings "-register-all".

Local Open Scope string_scope.
Local Open Scope Z_scope.

(** ** Python values

    What [json.loads] produces and [json.dumps] consumes.  A float is kept as
    a decimal literal [m * 10^e]; only its truth value is ever inspected. *)

Definition float : Type := Z * Z.

Inductive pyval : Type :=
| PyNone
| PyBool (b : bool)
| PyInt (z : Z)
| PyFloat (f : float)
| PyStr (s : string)
| PyList (l : list pyval)
| PyDict (kvs : list (string * pyval)).

(** [bool(v)], the test behind [if result:]. *)
Definition py_truthy (v : pyval) : bool :=
  match v with
  | PyNone => false
  | PyBool b => b
  | PyInt z => negb (z =? 0)
  | PyFloat f => negb (fst f =? 0)
  | PyStr s => negb (String.eqb s EmptyString)
  | PyList l => match l with [] => false | _ :: _ => true end
  | PyDict kvs => match kvs with [] => false | _ :: _ => true end
  end.

(** ** Exceptions and results *)

Inductive exn : Type :=
| FileNotFoundError   (* [open(path, "r")] on a path that does not exist *)
| JSONDecodeError     (* [json.loads] on text that is not JSON *)
| KeyError
| IndexError
| TypeError
| ValidationError     (* raised by a pydantic model constructor *)
| ClientError.        (* transport failure inside a remote client *)

Inductive outcome (A : Type) : Type :=
| Return (a : A)
| Raise (e : exn).
Arguments Return {A} a.
Arguments Raise {A} e.

(** ** Subscripting and iteration *)

Fixpoint assoc (key : string) (kvs : list (string * pyval)) : option pyval :=
  match kvs with
  | [] => None
  | (k, v) :: rest => if String.eqb k key then Some v else assoc key rest
  end.

Fixpoint chars (s : string) : list string :=
  match s with
  | EmptyString => []
  | String c s' => String c EmptyString :: chars s'
  end.

(** [seq[i]] for a Python sequence: negative indices count from the end. *)
Definition py_index {A} (l : list A) (i : Z) : outcome A :=
  let n := Z.of_nat (length l) in
  if (0 <=? i) && (i <? n) then
    match nth_error l (Z.to_nat i) with Some x => Return x | None => Raise IndexError end
  else if (- n <=? i) && (i <? 0) then
    match nth_error l (Z.to_nat (n + i)) with Some x => Return x | None => Raise IndexError end
  else Raise IndexError.

(** [v["key"]] *)
Definition getitem_str (v : pyval) (key : string) : outcome pyval :=
  match v with
  | PyDict kvs => match assoc key kvs with Some x => Return x | None => Raise KeyError end
  | _ => Raise TypeError
  end.

(** [v[i]] for an integer [i]; a dict loaded from JSON has no integer key. *)
Definition getitem_int (v : pyval) (i : Z) : outcome pyval :=
  match v with
  | PyList l => py_index l i
  | PyStr s => match py_index (chars s) i with
               | Return c => Return (PyStr c)
               | Raise e => Raise e
               end
  | PyDict _ => Raise KeyError
  | _ => Raise TypeError
  end.

(** [for item in v] *)
Definition py_iter (v : pyval) : outcome (list pyval) :=
  match v with
  | PyList l => Return l
  | PyDict kvs => Return (map (fun kv => PyStr (fst kv)) kvs)
  | PyStr s => Return (map PyStr (chars s))
  | _ => Raise TypeError
  end.

(** ** Strings

    [str.lower()] on ASCII text: the letters A to Z are mapped to a to z and
    every other character is kept. *)

Definition lower_ascii (c : ascii) : ascii :=
  let n := nat_of_ascii c in
  if ((65 <=? n) && (n <=? 90))%nat then ascii_of_nat (n + 32) else c.

Fixpoint lower (s : string) : string :=
  match s with
  | EmptyString => EmptyString
  | String c s' => String (lower_ascii c) (lower s')
  end.

(** ** Cache files

    The text of a cache file is either the serialisation of a value or text
    that [json.loads] rejects (the empty text among them). *)

Inductive content : Type :=
| Dumped (v : pyval)
| RawText (s : string).

Definition json_dumps (v : pyval) : content := Dumped v.

Definition json_loads (c : content) : outcome pyval :=
  match c with
  | Dumped v => Return v
  | RawText _ => Raise JSONDecodeError
  end.

(** [bool(content)] for the text read from a file. *)
Definition content_truthy (c : content) : bool :=
  match c with
  | Dumped _ => true
  | RawText s => negb (String.eqb s EmptyString)
  end.

Record file : Type := File { mtime : Z; data : content }.

(** ** Locations (models.py) *)

Record LocationDTO : Type := Location {
  country : string;
  capital : string;
  alpha2code : string
}.

#[global] Instance LocationDTO_eq_dec : EqDecision LocationDTO.
Proof. solve_decision. Defined.

(** ** The world *)

Inductive category : Type := Country | CurrencyRates | Weather | News.

#[global] Instance category_eq_dec : EqDecision category.
Proof. solve_decision. Defined.

Inductive request : Type :=
| GetCountries
| GetRates
| GetWeather (q : string)
| GetNews (country_name : string).

(** Ghost events recorded by the orchestrator around each collector. *)
Inductive event : Type :=
| Invoked (c : category) (locations : option (list LocationDTO))
| Completed (c : category) (result : option (list LocationDTO))
| Failed (c : category) (e : exn).

Record World : Type := mkWorld {
  files : gmap string file;      (* path -> cache file *)
  dirs : gset string;            (* directories that exist *)
  clock : Z;                     (* current time, seconds; it stands still
                                    during a call *)
  calls : list (string * request); (* ghost: remote calls made, newest last,
                                      each with the cache path it was for *)
  trace : list event             (* ghost: orchestrator events, newest last *)
}.

Definition set_files (w : World) (fs : gmap string file) : World :=
  mkWorld fs (dirs w) (clock w) (calls w) (trace w).
Definition set_dirs (w : World) (ds : gset string) : World :=
  mkWorld (files w) ds (clock w) (calls w) (trace w).
Definition set_clock (w : World) (t : Z) : World :=
  mkWorld (files w) (dirs w) t (calls w) (trace w).
Definition set_calls (w : World) (cs : list (string * request)) : World :=
  mkWorld (files w) (dirs w) (clock w) cs (trace w).
Definition set_trace (w : World) (tr : list event) : World :=
  mkWorld (files w) (dirs w) (clock w) (calls w) tr.

(** ** Coroutines: state and exceptions *)

Definition M (A : Type) : Type := World -> World * outcome A.

Definition ret {A} (a : A) : M A := fun w => (w, Return a).
Definition raise {A} (e : exn) : M A := fun w => (w, Raise e).
Definition bind {A B} (m : M A) (k : A -> M B) : M B :=
  fun w => match m w with
           | (w', Return a) => k a w'
           | (w', Raise e) => (w', Raise e)
           end.
Definition lift {A} (o : outcome A) : M A := fun w => (w, o).

Notation "x <- m ; k" := (bind m (fun x => k))
  (at level 20, m at level 100, k at level 200, only parsing).
Notation "m ;;; k" := (bind m (fun _ => k))
  (at level 100, k at level 200, only parsing, right associativity).

(** [if c: body] without an [else]. *)
Definition when (c : bool) (body : M unit) : M unit :=
  if c then body else ret tt.

(** [for x in xs: body] *)
Fixpoint for_each {A} (xs : list A) (body : A -> M unit) : M unit :=
  match xs with
  | [] => ret tt
  | x :: rest => body x ;;; for_each rest body
  end.

(** A generator expression consumed in order. *)
Fixpoint map_m {A B} (f : A -> M B) (xs : list A) : M (list B) :=
  match xs with
  | [] => ret []
  | x :: rest => y <- f x; ys <- map_m f rest; ret (y :: ys)
  end.

(** ** File-system primitives (aiofiles) *)

(** [async with aiofiles.open(path, mode="r") as file: await file.read()] *)
Definition file_read (path : string) : M content :=
  fun w => match files w !! path with
           | Some f => (w, Return (data f))
           | None => (w, Raise FileNotFoundError)
           end.

(** [async with aiofiles.open(path, mode="w") as file: await file.write(s)]:
    the file now holds [s] and was last modified now. *)
Definition file_write (path : string) (s : content) : M unit :=
  fun w => (set_files w (<[path := File (clock w) s]> (files w)), Return tt).

(** [aiofiles.os.path.exists] *)
Definition path_exists (path : string) : M bool :=
  fun w => (w, Return (bool_decide (path ∈ dirs w) || bool_decide (is_Some (files w !! path)))).

(** [aiofiles.os.mkdir]; the cache root is taken to exist. *)
Definition mkdir (path : string) : M unit :=
  fun w => (set_dirs w ({[path]} ∪ dirs w), Return tt).

(** ** Settings, remote clients, pydantic

    [settings.py], the clients other than the news client and pydantic itself
    are not among the sources; they are parameters of the development. *)

Class Settings : Type := {
  MEDIA_PATH : string;
  CACHE_TTL_COUNTRY : Z;
  CACHE_TTL_CURRENCY_RATES : Z;
  CACHE_TTL_NEWS : Z;
  CACHE_TTL_WEATHER : Z
}.

(** A client answers with a value ([None] for a response that is not 200 OK,
    see [NewsClient._request]) or raises.  The answer may depend on the number
    of remote calls made before. *)
Class Clients : Type := {
  get_countries : nat -> outcome pyval;
  get_rates : nat -> outcome pyval;
  get_weather : nat -> string -> outcome pyval;
  get_news : nat -> string -> outcome pyval
}.

(** The field validators of pydantic: the validated value, or [None] when the
    field is rejected. *)
Class Pydantic : Type := {
  validate_str : pyval -> option string;
  validate_int : pyval -> option Z;
  validate_float : pyval -> option float;
  validate_datetime : pyval -> option Z
}.

(** Awaiting a client method: the call is logged with the cache path it
    serves. *)
Definition remote (path : string) (req : request) (answer : nat -> outcome pyval) : M pyval :=
  fun w => (set_calls w (calls w ++ [(path, req)]), answer (length (calls w))).

(** ** Cache store *)

Module CacheStore.

(** Modelled from the spec: [exists(key)] of the cache store (section 4.1),
    whose code ([collectors/base.py]) is not among the sources: true if a
    payload has ever been written for the key. *)
Definition exists_ (w : World) (key : string) : bool :=
  bool_decide (is_Some (files w !! key)).

(** Modelled from the spec: [age(key)] of the cache store, not among the
    sources: the time elapsed since the payload was last written, undefined
    when there is none. *)
Definition age (w : World) (key : string) : option Z :=
  match files w !! key with
  | Some f => Some (clock w - mtime f)
  | None => None
  end.

(** Modelled from the spec: [isStale(key, ttl)] of the cache store, not among
    the sources: true if [!exists(key)] or [age(key) >= ttl]. *)
Definition isStale (w : World) (key : string) (ttl : Z) : bool :=
  negb (exists_ w key) ||
  match age w key with
  | Some a => bool_decide (ttl <= a)
  | None => true
  end.

End CacheStore.

(** Modelled from the spec: [BaseCollector.cache_invalid] of
    [collectors/base.py], which is not among the sources.  It applies the
    staleness predicate to the collector's file path and TTL. *)
Definition cache_invalid (path : string) (ttl : Z) : M bool :=
  fun w => (w, Return (CacheStore.isStale w path ttl)).

(** ** Data transfer objects (models.py) *)

(** [frozenset(...)] and [set(...)]: equal elements are kept once.  The
    iteration order of a Python set is unspecified; the list fixes one. *)
Definition frozenset {A} `{EqDecision A} (xs : list A) : list A := remove_dups xs.

Section Models.
Context `{Pydantic}.

(** [LocationDTO(country=.., capital=.., alpha2code=..)]: three [str] fields,
    the last with [min_length=2, max_length=2]. *)
Definition LocationDTO_new (country capital alpha2code : pyval) : outcome LocationDTO :=
  match validate_str country, validate_str capital, validate_str alpha2code with
  | Some c, Some k, Some a =>
      if ((2 <=? String.length a) && (String.length a <=? 2))%nat
      then Return (Location c k a)
      else Raise ValidationError
  | _, _, _ => Raise ValidationError
  end.

Record NewsDTO : Type := mkNewsDTO {
  news_source : string;
  news_author : string;
  news_published_at : Z;
  news_title : string;
  news_description : string
}.

(** [NewsDTO.validate_author] *)
Definition validate_author (value : option string) : string :=
  match value with
  | None => "unknown"
  | Some s => if String.eqb s EmptyString then "unknown" else s
  end.

(** The field [author: Union[str, None]]: [None] is allowed, anything else
    must pass as a [str]; the class validator then runs on the result. *)
Definition author_field (v : pyval) : option string :=
  match v with
  | PyNone => Some (validate_author None)
  | _ => match validate_str v with
         | Some s => Some (validate_author (Some s))
         | None => None
         end
  end.

(** [NewsDTO(source=.., author=.., published_at=.., title=.., description=..)] *)
Definition NewsDTO_new (source author published_at title description : pyval)
  : outcome NewsDTO :=
  match validate_str source, author_field author, validate_datetime published_at,
        validate_str title, validate_str description with
  | Some s, Some a, Some p, Some t, Some d => Return (mkNewsDTO s a p t d)
  | _, _, _, _, _ => Raise ValidationError
  end.

Record WeatherInfoDTO : Type := mkWeatherInfoDTO {
  weather_date_time : Z;
  weather_utc_timezone : Z;
  weather_temp : float;
  weather_pressure : Z;
  weather_humidity : Z;
  weather_wind_speed : float;
  weather_description : string;
  weather_visibility : Z
}.

Definition WeatherInfoDTO_new
  (date_time utc_timezone temp pressure humidity wind_speed description visibility : pyval)
  : outcome WeatherInfoDTO :=
  match validate_datetime date_time, validate_int utc_timezone, validate_float temp,
        validate_int pressure, validate_int humidity, validate_float wind_speed,
        validate_str description, validate_int visibility with
  | Some dt, Some tz, Some t, Some p, Some h, Some ws, Some d, Some v =>
      Return (mkWeatherInfoDTO dt tz t p h ws d v)
  | _, _, _, _, _, _, _, _ => Raise ValidationError
  end.

Record CurrencyRatesDTO : Type := mkCurrencyRatesDTO {
  rates_base : string;
  rates_date : string;
  rates_rates : list (string * float)
}.

(** The field [rates: dict[str, float]]. *)
Definition rates_field (v : pyval) : option (list (string * float)) :=
  match v with
  | PyDict kvs => mapM (fun kv => match validate_float (snd kv) with
                                  | Some f => Some (fst kv, f)
                                  | None => None
                                  end) kvs
  | _ => None
  end.

Definition CurrencyRatesDTO_new (base date rates : pyval) : outcome CurrencyRatesDTO :=
  match validate_str base, validate_str date, rates_field rates with
  | Some b, Some d, Some r => Return (mkCurrencyRatesDTO b d r)
  | _, _, _ => Raise ValidationError
  end.

End Models.

Record CurrencyInfoDTO : Type := mkCurrencyInfoDTO { currency_code : string }.

Record LanguagesInfoDTO : Type := mkLanguagesInfoDTO {
  language_name : string;
  language_native_name : string
}.

#[global] Instance CurrencyInfoDTO_eq_dec : EqDecision CurrencyInfoDTO.
Proof. solve_decision. Defined.
#[global] Instance LanguagesInfoDTO_eq_dec : EqDecision LanguagesInfoDTO.
Proof. solve_decision. Defined.

Record CountryDTO : Type := mkCountryDTO {
  country_capital : string;
  country_capital_latitude : float;
  country_capital_longitude : float;
  country_alpha2code : string;
  country_alt_spellings : list string;
  country_currencies : list CurrencyInfoDTO;
  country_flag : string;
  country_languages : list LanguagesInfoDTO;
  country_name : string;
  country_population : Z;
  country_area : option float;
  country_subregion : string;
  country_timezones : list string
}.

Section CountryModels.
Context `{Pydantic}.

(** [CurrencyInfoDTO(code=..)] *)
Definition CurrencyInfoDTO_new (code : pyval) : outcome CurrencyInfoDTO :=
  match validate_str code with
  | Some c => Return (mkCurrencyInfoDTO c)
  | None => Raise ValidationError
  end.

(** A field of type [list[str]]. *)
Definition str_list_field (v : pyval) : option (list string) :=
  match v with
  | PyList l => mapM validate_str l
  | _ => None
  end.

(** An element of the field [languages: set[LanguagesInfoDTO]], given as a
    dict with the two fields of the model. *)
Definition language_item (v : pyval) : option LanguagesInfoDTO :=
  match v with
  | PyDict kvs =>
      match assoc "name" kvs, assoc "native_name" kvs with
      | Some n, Some nn =>
          match validate_str n, validate_str nn with
          | Some n', Some nn' => Some (mkLanguagesInfoDTO n' nn')
          | _, _ => None
          end
      | _, _ => None
      end
  | _ => None
  end.

Definition languages_field (v : pyval) : option (list LanguagesInfoDTO) :=
  match v with
  | PyList l => frozenset <$> mapM language_item l
  | _ => None
  end.

(** The field [area: Optional[float]]. *)
Definition area_field (v : pyval) : option (option float) :=
  match v with
  | PyNone => Some None
  | _ => Some <$> validate_float v
  end.

Definition CountryDTO_new
  (name capital capital_latitude capital_longitude alpha2code alt_spellings : pyval)
  (currencies : list CurrencyInfoDTO)
  (flag area languages population subregion timezones : pyval) : outcome CountryDTO :=
  match validate_str capital, validate_float capital_latitude,
        validate_float capital_longitude, validate_str alpha2code,
        str_list_field alt_spellings, validate_str flag, languages_field languages,
        validate_str name, validate_int population, area_field area,
        validate_str subregion, str_list_field timezones with
  | Some c, Some lat, Some lon, Some a2, Some alt, Some fl, Some langs,
    Some n, Some pop, Some ar, Some sub, Some tz =>
      Return (mkCountryDTO c lat lon a2 alt currencies fl langs n pop ar sub tz)
  | _, _, _, _, _, _, _, _, _, _, _, _ => Raise ValidationError
  end.

End CountryModels.

(** ** Collectors (collector.py) *)

Module CountryCollector.
Section Defs.
Context `{Settings} `{Clients} `{Pydantic}.

Definition get_file_path : string := MEDIA_PATH +:+ "/country.json".

Definition get_cache_ttl : Z := CACHE_TTL_COUNTRY.

(** One element of the generator inside [frozenset(...)]. *)
Definition location_of_item (item : pyval) : M LocationDTO :=
  name <- lift (getitem_str item "name");
  capital <- lift (getitem_str item "capital");
  alpha2code <- lift (getitem_str item "alpha2code");
  lift (LocationDTO_new name capital alpha2code).

(** The part of [collect] after the refresh: the cache is read back and
    turned into locations. *)
Definition read_back : M (option (list LocationDTO)) :=
  content <- file_read get_file_path;
  result <- lift (json_loads content);
  if py_truthy result then
    items <- lift (py_iter result);
    locations <- map_m location_of_item items;
    ret (Some (frozenset locations))
  else ret None.

Definition collect : M (option (list LocationDTO)) :=
  (invalid <- cache_invalid get_file_path get_cache_ttl;
   when invalid (
     result <- remote get_file_path GetCountries get_countries;
     when (py_truthy result) (file_write get_file_path (json_dumps result)))) ;;;
  read_back.

Definition currency_of_item (currency : pyval) : M CurrencyInfoDTO :=
  code <- lift (getitem_str currency "code");
  lift (CurrencyInfoDTO_new code).

Definition country_of_item (item : pyval) : M CountryDTO :=
  name <- lift (getitem_str item "name");
  capital <- lift (getitem_str item "capital");
  latitude <- lift (getitem_str item "latitude");
  longitude <- lift (getitem_str item "longitude");
  alpha2code <- lift (getitem_str item "alpha2code");
  alt_spellings <- lift (getitem_str item "alt_spellings");
  currencies <- lift (getitem_str item "currencies");
  currencies <- lift (py_iter currencies);
  currencies <- map_m currency_of_item currencies;
  flag <- lift (getitem_str item "flag");
  area <- lift (getitem_str item "area");
  languages <- lift (getitem_str item "languages");
  population <- lift (getitem_str item "population");
  subregion <- lift (getitem_str item "subregion");
  timezones <- lift (getitem_str item "timezones");
  lift (CountryDTO_new name capital latitude longitude alpha2code alt_spellings
          (frozenset currencies) flag area languages population subregion timezones).

Definition read : M (option (list CountryDTO)) :=
  content <- file_read get_file_path;
  if content_truthy content then
    items <- lift (json_loads content);
    items <- lift (py_iter items);
    result_list <- map_m country_of_item items;
    ret (Some result_list)
  else ret None.

End Defs.
End CountryCollector.

Module CurrencyRatesCollector.
Section Defs.
Context `{Settings} `{Clients} `{Pydantic}.

Definition get_file_path : string := MEDIA_PATH +:+ "/currency_rates.json".

Definition get_cache_ttl : Z := CACHE_TTL_CURRENCY_RATES.

Definition collect : M unit :=
  invalid <- cache_invalid get_file_path get_cache_ttl;
  when invalid (
    result <- remote get_file_path GetRates get_rates;
    when (py_truthy result) (file_write get_file_path (json_dumps result))).

Definition read : M (option CurrencyRatesDTO) :=
  content <- file_read get_file_path;
  if content_truthy content then
    result <- lift (json_loads content);
    base <- lift (getitem_str result "base");
    date <- lift (getitem_str result "date");
    rates <- lift (getitem_str result "rates");
    dto <- lift (CurrencyRatesDTO_new base date rates);
    ret (Some dto)
  else ret None.

End Defs.
End CurrencyRatesCollector.

(** [for location in locations] when the argument may be [None]. *)
Definition iter_locations (locations : option (list LocationDTO)) : outcome (list LocationDTO) :=
  match locations with
  | Some ls => Return ls
  | None => Raise TypeError
  end.

Module WeatherCollector.
Section Defs.
Context `{Settings} `{Clients} `{Pydantic}.

Definition get_file_path (filename : string) : string :=
  MEDIA_PATH +:+ "/weather/" +:+ filename +:+ ".json".

Definition get_cache_ttl : Z := CACHE_TTL_WEATHER.

(** [f"{location.capital}_{location.alpha2code}".lower()] *)
Definition filename_of (location : LocationDTO) : string :=
  lower (capital location +:+ "_" +:+ alpha2code location).

(** The body of the loop over the locations. *)
Definition collect_location (location : LocationDTO) : M unit :=
  let filename := filename_of location in
  invalid <- cache_invalid (get_file_path filename) get_cache_ttl;
  when invalid (
    result <- remote (get_file_path filename)
                (GetWeather (capital location +:+ "," +:+ alpha2code location))
                (fun n => get_weather n (capital location +:+ "," +:+ alpha2code location));
    when (py_truthy result) (file_write (get_file_path filename) (json_dumps result))).

Definition collect (locations : option (list LocationDTO)) : M unit :=
  let target_dir_path := MEDIA_PATH +:+ "/weather" in
  (present <- path_exists target_dir_path;
   when (negb present) (mkdir target_dir_path)) ;;;
  locations <- lift (iter_locations locations);
  for_each locations collect_location.

Definition read (location : LocationDTO) : M (option WeatherInfoDTO) :=
  let filename := filename_of location in
  content <- file_read (get_file_path filename);
  result <- lift (json_loads content);
  if py_truthy result then
    dt <- lift (getitem_str result "dt");
    timezone <- lift (getitem_str result "timezone");
    main <- lift (getitem_str result "main");
    temp <- lift (getitem_str main "temp");
    main <- lift (getitem_str result "main");
    pressure <- lift (getitem_str main "pressure");
    main <- lift (getitem_str result "main");
    humidity <- lift (getitem_str main "humidity");
    wind <- lift (getitem_str result "wind");
    speed <- lift (getitem_str wind "speed");
    weather <- lift (getitem_str result "weather");
    weather0 <- lift (getitem_int weather 0);
    description <- lift (getitem_str weather0 "description");
    visibility <- lift (getitem_str result "visibility");
    dto <- lift (WeatherInfoDTO_new dt timezone temp pressure humidity speed
                   description visibility);
    ret (Some dto)
  else ret None.

End Defs.
End WeatherCollector.

Module NewsCollector.
Section Defs.
Context `{Settings} `{Clients} `{Pydantic}.

Definition get_file_path (filename : string) : string :=
  MEDIA_PATH +:+ "/news/" +:+ filename +:+ ".json".

Definition get_cache_ttl : Z := CACHE_TTL_NEWS.

(** [f"{location.country}".lower()] *)
Definition filename_of (location : LocationDTO) : string :=
  lower (country location).

(** The body of the loop over the locations. *)
Definition collect_location (location : LocationDTO) : M unit :=
  let filename := filename_of location in
  invalid <- cache_invalid (get_file_path filename) get_cache_ttl;
  when invalid (
    result <- remote (get_file_path filename) (GetNews (country location))
                (fun n => get_news n (country location));
    when (py_truthy result) (file_write (get_file_path filename) (json_dumps result))).

Definition collect (locations : option (list LocationDTO)) : M unit :=
  let target_dir_path := MEDIA_PATH +:+ "/news" in
  (present <- path_exists target_dir_path;
   when (negb present) (mkdir target_dir_path)) ;;;
  locations <- lift (iter_locations locations);
  for_each locations collect_location.

(** The decoding of one article into a [NewsDTO]. *)
Definition decode_article (article : pyval) : outcome NewsDTO :=
  match getitem_str article "source" with
  | Raise e => Raise e
  | Return source =>
  match getitem_str source "name" with
  | Raise e => Raise e
  | Return name =>
  match getitem_str article "author" with
  | Raise e => Raise e
  | Return author =>
  match getitem_str article "publishedAt" with
  | Raise e => Raise e
  | Return publishedAt =>
  match getitem_str article "title" with
  | Raise e => Raise e
  | Return title =>
  match getitem_str article "description" with
  | Raise e => Raise e
  | Return description =>
      NewsDTO_new name author publishedAt title description
  end end end end end end.

Definition read (location : LocationDTO) (number : Z) : M (option NewsDTO) :=
  let filename := filename_of location in
  content <- file_read (get_file_path filename);
  result <- lift (json_loads content);
  if py_truthy result then
    articles <- lift (getitem_str result "articles");
    article <- lift (getitem_int articles number);
    dto <- lift (decode_article article);
    ret (Some dto)
  else ret None.

End Defs.
End NewsCollector.

(** ** Orchestrator *)

Module Collectors.
Section Defs.
Context `{Settings} `{Clients} `{Pydantic}.

(** Ghost: a collector call bracketed by its events. *)
Definition invoke {A} (c : category) (arg : option (list LocationDTO))
  (result_of : A -> option (list LocationDTO)) (m : M A) : M A :=
  fun w =>
    match m (set_trace w (trace w ++ [Invoked c arg])) with
    | (w', Return a) => (set_trace w' (trace w' ++ [Completed c (result_of a)]), Return a)
    | (w', Raise e) => (set_trace w' (trace w' ++ [Failed c e]), Raise e)
    end.

(** [asyncio.gather(CurrencyRatesCollector().collect(), CountryCollector().collect())].
    The two coroutines work on different files; they are run here one after
    the other.  [gather] does not cancel the sibling of a coroutine that
    raises: in this schedule the sibling runs to its end, and the first
    exception then reaches the caller. *)
Definition gather : M (unit * option (list LocationDTO)) :=
  fun w =>
    let (w1, r0) := invoke CurrencyRates None (fun _ => None) CurrencyRatesCollector.collect w in
    let (w2, r1) := invoke Country None id CountryCollector.collect w1 in
    match r0, r1 with
    | Return a, Return b => (w2, Return (a, b))
    | Raise e, _ => (w2, Raise e)
    | Return _, Raise e => (w2, Raise e)
    end.

(** [try: ... finally: loop.close()]: nothing is caught. *)
Definition collect : M unit :=
  results <- gather;
  invoke Weather (snd results) (fun _ => None) (WeatherCollector.collect (snd results)) ;;;
  invoke News (snd results) (fun _ => None) (NewsCollector.collect (snd results)) ;;;
  ret tt.

End Defs.
End Collectors.

(** ** Instances used to evaluate the code on concrete inputs *)

Module Examples.

Definition settings : Settings := {|
  MEDIA_PATH := "media";
  CACHE_TTL_COUNTRY := 31536000;
  CACHE_TTL_CURRENCY_RATES := 86400;
  CACHE_TTL_NEWS := 3600;
  CACHE_TTL_WEATHER := 10700
|}.

(** Every provider answers with a status other than 200 OK. *)
Definition absent_clients : Clients := {|
  get_countries := fun _ => Return PyNone;
  get_rates := fun _ => Return PyNone;
  get_weather := fun _ _ => Return PyNone;
  get_news := fun _ _ => Return PyNone
|}.

Definition aland_item : pyval :=
  PyDict [("name", PyStr "Aland"); ("capital", PyStr "Mariehamn");
          ("alpha2code", PyStr "AX")].

Definition article (author : pyval) : pyval :=
  PyDict [("source", PyDict [("id", PyNone); ("name", PyStr "ABC News")]);
          ("author", author);
          ("title", PyStr "PolyMet mine in Minnesota");
          ("description", PyStr "sample text");
          ("publishedAt", PyInt 1677291760)].

Definition news_payload (articles : list pyval) : pyval :=
  PyDict [("status", PyStr "ok"); ("articles", PyList articles)].

(** Every provider answers 200 OK with a non-empty document. *)
Definition ok_clients : Clients := {|
  get_countries := fun _ => Return (PyList [aland_item]);
  get_rates := fun _ => Return (PyDict [("base", PyStr "RUB"); ("date", PyStr "2022-09-14");
                                        ("rates", PyDict [("EUR", PyFloat (16503, -6))])]);
  get_weather := fun _ _ => Return (PyDict [("visibility", PyInt 10000)]);
  get_news := fun _ _ => Return (news_payload [article (PyStr "STEVE KARNOWSKI")])
|}.

(** Validators that accept a value of the annotated type as it is, and an
    integer POSIX timestamp for a [datetime]. *)
Definition exact_pydantic : Pydantic := {|
  validate_str := fun v => match v with PyStr s => Some s | _ => None end;
  validate_int := fun v => match v with PyInt z => Some z | _ => None end;
  validate_float := fun v => match v with
                             | PyFloat f => Some f
                             | PyInt z => Some (z, 0)
                             | _ => None
                             end;
  validate_datetime := fun v => match v with PyInt z => Some z | _ => None end
|}.

Definition empty_world (now : Z) : World := mkWorld ∅ ∅ now [] [].

Definition aland : LocationDTO := Location "Aland" "Mariehamn" "AX".

(** A world whose only cache file is the news file of "Aland", written at
    time 0 and holding [payload]; the clock shows [now]. *)
Definition news_world (payload : content) (now : Z) : World :=
  mkWorld {["media/news/aland.json" := File 0 payload]} {["media/news"]} now [] [].

(** The currency provider cannot be reached; the others answer. *)
Definition no_rates_clients : Clients := {|
  get_countries := fun _ => Return (PyList [aland_item]);
  get_rates := fun _ => Raise ClientError;
  get_weather := fun _ _ => Return (PyDict [("visibility", PyInt 10000)]);
  get_news := fun _ _ => Return (news_payload [article (PyStr "STEVE KARNOWSKI")])
|}.

Definition rates_payload : pyval :=
  PyDict [("base", PyStr "RUB"); ("date", PyStr "2022-09-14");
          ("rates", PyDict [("EUR", PyFloat (16503, -6))])].

Definition weather_payload : pyval :=
  PyDict [("dt", PyInt 1677332220); ("timezone", PyInt 3600);
          ("main", PyDict [("temp", PyFloat (1392, -2)); ("pressure", PyInt 1023);
                           ("humidity", PyInt 54)]);
          ("wind", PyDict [("speed", PyFloat (463, -2))]);
          ("weather", PyList [PyDict [("description", PyStr "scattered clouds")]]);
          ("visibility", PyInt 10000)].

(** A cache root that holds an entry of every category for "Aland", all
    written at time 0; the clock shows [now]. *)
Definition full_world (now : Z) : World :=
  mkWorld
    (<["media/country.json" := File 0 (Dumped (PyList [aland_item]))]>
       (<["media/currency_rates.json" := File 0 (Dumped rates_payload)]>
          (<["media/weather/mariehamn_ax.json" := File 0 (Dumped weather_payload)]>
             {["media/news/aland.json" :=
                 File 0 (Dumped (news_payload [article (PyStr "STEVE KARNOWSKI")]))]})))
    ({["media/weather"]} ∪ {["media/news"]}) now [] [].

(** Providers that answer with the documents above. *)
Definition full_clients : Clients := {|
  get_countries := fun _ => Return (PyList [aland_item]);
  get_rates := fun _ => Return rates_payload;
  get_weather := fun _ _ => Return weather_payload;
  get_news := fun _ _ => Return (news_payload [article (PyStr "STEVE KARNOWSKI")])
|}.

Definition sweden : LocationDTO := Location "Sweden" "Stockholm" "SE".

(** The weather and news providers know "Aland" only. *)
Definition partial_clients : Clients := {|
  get_countries := fun _ => Return PyNone;
  get_rates := fun _ => Return PyNone;
  get_weather := fun _ q =>
    if String.eqb q "Mariehamn,AX" then Return weather_payload else Return PyNone;
  get_news := fun _ c =>
    if String.eqb c "Aland" then Return weather_payload else Return PyNone
|}.

(** A cache root whose country file holds an empty list, written at time 0. *)
Definition no_countries_world (now : Z) : World :=
  mkWorld {["media/country.json" := File 0 (Dumped (PyList []))]} ∅ now [] [].

Definition aland_country_item : pyval :=
  PyDict [("name", PyStr "Aland Islands"); ("capital", PyStr "Mariehamn");
          ("latitude", PyFloat (2055, -2)); ("longitude", PyFloat (1344, -2));
          ("alpha2code", PyStr "AX");
          ("alt_spellings", PyList [PyStr "AX"; PyStr "Aaland"]);
          ("currencies", PyList [PyDict [("code", PyStr "EUR")]; PyDict [("code", PyStr "EUR")]]);
          ("flag", PyStr "http://assets.promptapi.com/flags/AX.svg");
          ("area", PyFloat (15550, -1));
          ("languages", PyList [PyDict [("name", PyStr "Swedish");
                                        ("native_name", PyStr "svenska")]]);
          ("population", PyInt 28875);
          ("subregion", PyStr "Northern Europe");
          ("timezones", PyList [PyStr "UTC+02:00"])].

Definition aland_country : CountryDTO :=
  mkCountryDTO "Mariehamn" (2055, -2) (1344, -2) "AX" ["AX"; "Aaland"]
    [mkCurrencyInfoDTO "EUR"] "http://assets.promptapi.com/flags/AX.svg"
    [mkLanguagesInfoDTO "Swedish" "svenska"] "Aland Islands" 28875 (Some (15550, -1))
    "Northern Europe" ["UTC+02:00"].

(** A cache root whose country file holds the full description of "Aland". *)
Definition country_world (now : Z) : World :=
  mkWorld {["media/country.json" := File 0 (Dumped (PyList [aland_country_item]))]} ∅ now [] [].

End Examples.

(** ** Auxiliary notions for the statements *)

(** The state in which [key] was written at time [clock w] and the clock now
    shows [t]. *)
Definition written_then_checked (w : World) (key : string) (payload : content) (t : Z) : World :=
  set_clock (fst (file_write key payload w)) t.

(** The refresh step that each collector spells out: ask the staleness
    predicate, call the provider when stale, write a non-empty answer. *)
Definition refresh (path : string) (ttl : Z) (req : request)
  (answer : nat -> outcome pyval) : M unit :=
  invalid <- cache_invalid path ttl;
  when invalid (
    result <- remote path req answer;
    when (py_truthy result) (file_write path (json_dumps result))).

(** A computation that leaves the world as it found it. *)
Definition observer {A} (m : M A) : Prop := forall w, fst (m w) = w.

(** The remote calls made for one cache path. *)
Definition calls_for (path : string) (cs : list (string * request)) : list (string * request) :=
  filter (fun c => fst c = path) cs.

(** An answer that is returned (not raised) and is empty: [None], an empty
    document. *)
Definition empty_answer (o : outcome pyval) : Prop :=
  exists v, o = Return v /\ py_truthy v = false.

(** An answer that is returned and is not empty. *)
Definition good_answer (o : outcome pyval) : Prop :=
  exists v, o = Return v /\ py_truthy v = true.

(** The prologue of [WeatherCollector.collect] and [NewsCollector.collect]:
    the target directory is created if it does not exist yet. *)
Definition ensure_dir (target_dir_path : string) : M unit :=
  present <- path_exists target_dir_path;
  when (negb present) (mkdir target_dir_path).

(** A computation whose result does not depend on the world and which leaves
    the world as it is. *)
Definition constant {A} (m : M A) : Prop := exists o, forall w, m w = (w, o).

(** The event that closes a collector call. *)
Definition done_event {A} (c : category) (result_of : A -> option (list LocationDTO))
  (o : outcome A) : event :=
  match o with
  | Return a => Completed c (result_of a)
  | Raise e => Failed c e
  end.

(** The second stage of [Collectors.collect], given the result of the
    Country collector. *)
Definition second_stage `{Settings} `{Clients} (r : option (list LocationDTO)) : M unit :=
  Collectors.invoke Weather r (fun _ => None) (WeatherCollector.collect r) ;;;
  Collectors.invoke News r (fun _ => None) (NewsCollector.collect r) ;;;
  ret tt.

(** The world after two calls of [m] in a row, the second at time [t']. *)
Definition twice {A} (m : M A) (t' : Z) (w : World) : World :=
  fst (m (set_clock (fst (m w)) t')).

(** Since the calls logged in [base], every cache path has been asked for at
    most once, and a path that has been asked for holds an entry written at
    time [c0] or later. *)
Definition asked_at_most_once (c0 : Z) (base : list (string * request)) (w : World) : Prop :=
  forall p,
    length (calls_for p (calls w)) = length (calls_for p base) \/
    (length (calls_for p (calls w)) = S (length (calls_for p base)) /\
     exists f, files w !! p = Some f /\ c0 <= mtime f).

(** A computation that maintains [asked_at_most_once] and the clock while the
    clock shows a time within [ttl] of [c0]. *)
Definition asks_once {A} (ttl : Z) (m : M A) : Prop :=
  forall c0 base w,
    c0 <= clock w < c0 + ttl ->
    asked_at_most_once c0 base w ->
    asked_at_most_once c0 base (fst (m w)) /\ clock (fst (m w)) = clock w.

(** Durable storage only grows from [a] to [b]: every cache file and every
    directory of [a] is still there in [b]. *)
Definition grows (a b : World) : Prop :=
  (forall p, is_Some (files a !! p) -> is_Some (files b !! p)) /\ dirs a ⊆ dirs b.

(** The cached item [item] decodes to the location [l]: it has the three
    entries, and they pass the validation of [LocationDTO]. *)
Definition item_location `{Pydantic} (item : pyval) (l : LocationDTO) : Prop :=
  exists name capital alpha2code,
    getitem_str item "name" = Return name /\
    getitem_str item "capital" = Return capital /\
    getitem_str item "alpha2code" = Return alpha2code /\
    LocationDTO_new name capital alpha2code = Return l.

(** ** Renderer (renderer.py) *)

(** [str(n)] for an integer: the decimal numeral, with a leading minus
    sign for a negative number. *)
Definition py_str_int (n : Z) : string :=
  DecimalString.NilZero.string_of_int (Z.to_int n).

(** [int(s)] for a decimal numeral. *)
Definition py_int (s : string) : option Z :=
  option_map Z.of_int (DecimalString.NilZero.int_of_string s).

(** The grouping of the format specification [","]: a comma in front of
    every group of three digits counted from the right. *)
Fixpoint group_thousands (digits : string) : string :=
  match digits with
  | EmptyString => EmptyString
  | String c rest =>
      String c
        (if ((0 <? String.length rest) && (String.length rest mod 3 =? 0))%nat
         then String "," (group_thousands rest)
         else group_thousands rest)
  end.

(** ["{:,}".format(n)]: the sign stays in front of the grouped digits. *)
Definition format_comma (n : Z) : string :=
  match Z.to_int n with
  | Decimal.Pos d => group_thousands (DecimalString.NilZero.string_of_uint d)
  | Decimal.Neg d => String "-" (group_thousands (DecimalString.NilZero.string_of_uint d))
  end.

(** [s.replace(old, new)] for patterns of one character. *)
Fixpoint replace_char (old new : ascii) (s : string) : string :=
  match s with
  | EmptyString => EmptyString
  | String c rest =>
      String (if Ascii.eqb c old then new else c) (replace_char old new rest)
  end.

(** The text without the occurrences of [x]. *)
Fixpoint remove_char (x : ascii) (s : string) : string :=
  match s with
  | EmptyString => EmptyString
  | String c rest =>
      if Ascii.eqb c x then remove_char x rest else String c (remove_char x rest)
  end.

Fixpoint count_char (x : ascii) (s : string) : nat :=
  match s with
  | EmptyString => 0%nat
  | String c rest => ((if Ascii.eqb c x then 1 else 0) + count_char x rest)%nat
  end.

Module Renderer.

(** ["{:,}".format(population).replace(",", ".")] *)
Definition _format_population (population : Z) : string :=
  replace_char "," "." (format_comma population).

End Renderer.

(** A decimal digit. *)
Definition is_digit (c : ascii) : bool :=
  ((48 <=? nat_of_ascii c) && (nat_of_ascii c <=? 57))%nat.

Fixpoint all_digits (s : string) : bool :=
  match s with
  | EmptyString => true
  | String c rest => is_digit c && all_digits rest
  end.

(** ** News client (clients/news.py) *)

Module NewsClient.
Section Defs.

(** [API_KEY_NEWSPORTAL] of [settings.py], which is not among the sources. *)
Variable API_KEY_NEWSPORTAL : string.

(** The HTTP layer: what [session.get(endpoint)] yields for the n-th remote
    call, a status with the outcome of [response.json()], or a transport
    error. *)
Variable http : nat -> string -> outcome (Z * outcome pyval).

Definition get_base_url : string := "https://newsapi.org/v2/everything".

(** [HTTPStatus.OK] *)
Definition OK : Z := 200.

Definition _request (n : nat) (endpoint : string) : outcome pyval :=
  match http n endpoint with
  | Raise e => Raise e
  | Return (status, json) => if status =? OK then json else Return PyNone
  end.

Definition endpoint_of (country : string) : string :=
  get_base_url +:+ "?q=" +:+ country +:+ "&sortBy=publishedAt&apiKey=" +:+ API_KEY_NEWSPORTAL.

Definition get_news (n : nat) (country : string) : outcome pyval :=
  _request n (endpoint_of country).

End Defs.
End NewsClient.

Module NewsExamples.

(** A server that answers every request with status 404 and an error
    document. *)
Definition not_found (n : nat) (endpoint : string) : outcome (Z * outcome pyval) :=
  Return (404, Return (PyDict [("status", PyStr "error")])).

Definition not_found_clients : Clients := {|
  get_countries := fun _ => Return PyNone;
  get_rates := fun _ => Return PyNone;
  get_weather := fun _ _ => Return PyNone;
  get_news := NewsClient.get_news "key" not_found
|}.

End NewsExamples.

(** * Properties *)

(** ** Running computations *)

Lemma bind_run {A B} (m : M A) (k : A -> M B) (w : World) :
  bind m k w = match m w with
               | (w', Return a) => k a w'
               | (w', Raise e) => (w', Raise e)
               end.
Proof. reflexivity. Qed.

Ltac run :=
  repeat (unfold bind, ret, raise, lift, when, cache_invalid, remote, file_write,
          file_read, path_exists, mkdir in *; cbn [fst snd files dirs clock calls trace
          set_files set_dirs set_calls set_trace set_clock] in *).

(** ** The staleness predicate *)

Lemma isStale_absent (w : World) (key : string) (ttl : Z) :
  files w !! key = None -> CacheStore.isStale w key ttl = true.
Proof.
  intros E. unfold CacheStore.isStale, CacheStore.exists_, CacheStore.age.
  rewrite E. rewrite bool_decide_eq_false_2; [reflexivity | by intros [? ?]].
Qed.

Lemma isStale_present (w : World) (key : string) (ttl : Z) (f : file) :
  files w !! key = Some f ->
  CacheStore.isStale w key ttl = bool_decide (mtime f + ttl <= clock w).
Proof.
  intros E. unfold CacheStore.isStale, CacheStore.exists_, CacheStore.age.
  rewrite E. rewrite bool_decide_eq_true_2 by eauto. cbn.
  apply bool_decide_ext. lia.
Qed.

Lemma isStale_iff (w : World) (key : string) (ttl : Z) :
  CacheStore.isStale w key ttl = true <->
  CacheStore.exists_ w key = false \/
  exists a, CacheStore.age w key = Some a /\ ttl <= a.
Proof.
  unfold CacheStore.exists_, CacheStore.age.
  destruct (files w !! key) as [f|] eqn:E.
  - rewrite (isStale_present _ _ _ _ E), bool_decide_eq_true.
    split.
    + intros Hle. right. exists (clock w - mtime f). split; [reflexivity | lia].
    + intros [Hex | (a & Ha & Hle)].
      * rewrite bool_decide_eq_false in Hex. exfalso. apply Hex. eauto.
      * inversion Ha; subst. lia.
  - rewrite (isStale_absent _ _ _ E). split; [| reflexivity].
    intros _. left. apply bool_decide_eq_false. by intros [? ?].
Qed.

Lemma isStale_written (w : World) (key : string) (payload : content) (ttl t : Z) :
  CacheStore.isStale (written_then_checked w key payload t) key ttl
  = bool_decide (clock w + ttl <= t).
Proof.
  rewrite (isStale_present _ _ _ (File (clock w) payload)); [reflexivity |].
  unfold written_then_checked; run. apply lookup_insert_eq.
Qed.

(** ** The refresh step *)

Lemma refresh_run (path : string) (ttl : Z) (req : request)
  (answer : nat -> outcome pyval) (w : World) :
  refresh path ttl req answer w =
  if CacheStore.isStale w path ttl then
    let w1 := set_calls w (calls w ++ [(path, req)]) in
    match answer (length (calls w)) with
    | Return v =>
        if py_truthy v
        then (set_files w1 (<[path := File (clock w) (json_dumps v)]> (files w)), Return tt)
        else (w1, Return tt)
    | Raise e => (w1, Raise e)
    end
  else (w, Return tt).
Proof.
  unfold refresh; run.
  destruct (CacheStore.isStale w path ttl); [| reflexivity].
  destruct (answer (length (calls w))) as [v|e]; [| reflexivity].
  destruct (py_truthy v); reflexivity.
Qed.

Lemma refresh_calls (path : string) (ttl : Z) (req : request)
  (answer : nat -> outcome pyval) (w : World) :
  calls (fst (refresh path ttl req answer w)) =
  if CacheStore.isStale w path ttl then (calls w ++ [(path, req)])%list else calls w.
Proof.
  rewrite refresh_run.
  destruct (CacheStore.isStale w path ttl); [| reflexivity].
  destruct (answer (length (calls w))) as [v|e]; [| reflexivity].
  destruct (py_truthy v); reflexivity.
Qed.

Lemma refresh_clock (path : string) (ttl : Z) (req : request)
  (answer : nat -> outcome pyval) (w : World) :
  clock (fst (refresh path ttl req answer w)) = clock w.
Proof.
  rewrite refresh_run.
  destruct (CacheStore.isStale w path ttl); [| reflexivity].
  destruct (answer (length (calls w))) as [v|e]; [| reflexivity].
  destruct (py_truthy v); reflexivity.
Qed.

Lemma refresh_trace (path : string) (ttl : Z) (req : request)
  (answer : nat -> outcome pyval) (w : World) :
  trace (fst (refresh path ttl req answer w)) = trace w.
Proof.
  rewrite refresh_run.
  destruct (CacheStore.isStale w path ttl); [| reflexivity].
  destruct (answer (length (calls w))) as [v|e]; [| reflexivity].
  destruct (py_truthy v); reflexivity.
Qed.

Lemma refresh_dirs (path : string) (ttl : Z) (req : request)
  (answer : nat -> outcome pyval) (w : World) :
  dirs (fst (refresh path ttl req answer w)) = dirs w.
Proof.
  rewrite refresh_run.
  destruct (CacheStore.isStale w path ttl); [| reflexivity].
  destruct (answer (length (calls w))) as [v|e]; [| reflexivity].
  destruct (py_truthy v); reflexivity.
Qed.

(** Only the entry of [path] can change. *)
Lemma refresh_other (path : string) (ttl : Z) (req : request)
  (answer : nat -> outcome pyval) (w : World) (p : string) :
  p <> path -> files (fst (refresh path ttl req answer w)) !! p = files w !! p.
Proof.
  intros Hne. rewrite refresh_run.
  destruct (CacheStore.isStale w path ttl); [| reflexivity].
  destruct (answer (length (calls w))) as [v|e]; [| reflexivity].
  destruct (py_truthy v); [| reflexivity].
  cbn. by rewrite lookup_insert_ne.
Qed.

(** An empty answer changes no file and raises nothing. *)
Lemma refresh_empty (path : string) (ttl : Z) (req : request)
  (answer : nat -> outcome pyval) (w : World) :
  empty_answer (answer (length (calls w))) ->
  files (fst (refresh path ttl req answer w)) = files w /\
  snd (refresh path ttl req answer w) = Return tt.
Proof.
  intros (v & Hv & Hf). rewrite refresh_run.
  destruct (CacheStore.isStale w path ttl); [| done].
  rewrite Hv, Hf. done.
Qed.

(** ** Observers *)

Lemma observer_ret {A} (a : A) : observer (ret a).
Proof. intros w. reflexivity. Qed.

Lemma observer_lift {A} (o : outcome A) : observer (lift o).
Proof. intros w. reflexivity. Qed.

Lemma observer_file_read (path : string) : observer (file_read path).
Proof. intros w. unfold file_read. destruct (files w !! path); reflexivity. Qed.

Lemma observer_bind {A B} (m : M A) (k : A -> M B) :
  observer m -> (forall a, observer (k a)) -> observer (bind m k).
Proof.
  intros Hm Hk w. unfold bind. specialize (Hm w).
  destruct (m w) as [w' [a|e]]; cbn in Hm; subst w'; [apply Hk | reflexivity].
Qed.

Lemma observer_map_m {A B} (f : A -> M B) (xs : list A) :
  (forall x, observer (f x)) -> observer (map_m f xs).
Proof.
  intros Hf. induction xs as [|x xs IH]; cbn [map_m].
  - apply observer_ret.
  - apply observer_bind; [apply Hf |]. intros y.
    apply observer_bind; [apply IH |]. intros ys. apply observer_ret.
Qed.

Lemma observer_if {A} (b : bool) (m1 m2 : M A) :
  observer m1 -> observer m2 -> observer (if b then m1 else m2).
Proof. destruct b; auto. Qed.

Create HintDb observe.
#[global] Hint Resolve observer_ret observer_lift observer_file_read observer_map_m : observe.

Ltac observe :=
  repeat first
    [ apply observer_bind; [| intros ?]
    | apply observer_if
    | solve [auto with observe] ].

Section Observers.
Context `{Settings} `{Clients} `{Pydantic}.

Lemma observer_location_of_item (item : pyval) :
  observer (CountryCollector.location_of_item item).
Proof. unfold CountryCollector.location_of_item. observe. Qed.

Lemma observer_read_back : observer CountryCollector.read_back.
Proof.
  unfold CountryCollector.read_back. observe.
  apply observer_map_m, observer_location_of_item.
Qed.

Lemma observer_currency_of_item (c : pyval) :
  observer (CountryCollector.currency_of_item c).
Proof. unfold CountryCollector.currency_of_item. observe. Qed.

Lemma observer_country_of_item (item : pyval) :
  observer (CountryCollector.country_of_item item).
Proof.
  unfold CountryCollector.country_of_item. observe.
  apply observer_map_m, observer_currency_of_item.
Qed.

Lemma observer_country_read : observer CountryCollector.read.
Proof.
  unfold CountryCollector.read. observe.
  apply observer_map_m, observer_country_of_item.
Qed.

Lemma observer_currency_read : observer CurrencyRatesCollector.read.
Proof. unfold CurrencyRatesCollector.read. observe. Qed.

Lemma observer_weather_read (l : LocationDTO) : observer (WeatherCollector.read l).
Proof. unfold WeatherCollector.read. observe. Qed.

Lemma observer_news_read (l : LocationDTO) (number : Z) :
  observer (NewsCollector.read l number).
Proof. unfold NewsCollector.read. observe. Qed.

End Observers.

(** ** Each collector spells out the same refresh step *)

Section RefreshSteps.
Context `{Settings} `{Clients} `{Pydantic}.

Lemma currency_collect_refresh :
  CurrencyRatesCollector.collect =
  refresh CurrencyRatesCollector.get_file_path CurrencyRatesCollector.get_cache_ttl
    GetRates get_rates.
Proof. reflexivity. Qed.

Lemma country_collect_refresh :
  CountryCollector.collect =
  (refresh CountryCollector.get_file_path CountryCollector.get_cache_ttl
     GetCountries get_countries ;;; CountryCollector.read_back).
Proof. reflexivity. Qed.

Lemma weather_location_refresh (l : LocationDTO) :
  WeatherCollector.collect_location l =
  refresh (WeatherCollector.get_file_path (WeatherCollector.filename_of l))
    WeatherCollector.get_cache_ttl
    (GetWeather (capital l +:+ "," +:+ alpha2code l))
    (fun n => get_weather n (capital l +:+ "," +:+ alpha2code l)).
Proof. reflexivity. Qed.

Lemma news_location_refresh (l : LocationDTO) :
  NewsCollector.collect_location l =
  refresh (NewsCollector.get_file_path (NewsCollector.filename_of l))
    NewsCollector.get_cache_ttl
    (GetNews (country l)) (fun n => get_news n (country l)).
Proof. reflexivity. Qed.

(** What [CountryCollector.collect] leaves behind is what its refresh step
    leaves behind: reading the cache back changes nothing. *)
Lemma country_collect_world (w : World) :
  fst (CountryCollector.collect w) =
  fst (refresh CountryCollector.get_file_path CountryCollector.get_cache_ttl
         GetCountries get_countries w).
Proof.
  rewrite country_collect_refresh, bind_run.
  destruct (refresh _ _ _ _ w) as [w' [[]|e]]; [| reflexivity].
  apply observer_read_back.
Qed.

End RefreshSteps.

(** C1: the staleness predicate is true exactly when the key was never written
    or its age is at least the TTL; a key written at time T with TTL d is
    fresh at every check before T+d and stale from T+d on; and every collector
    asks its provider exactly when this predicate holds of its key. *)
Theorem staleness_predicate `{Settings} `{Clients} `{Pydantic}
  (w : World) (key : string) (payload : content) (d t : Z) (l : LocationDTO) :
  (CacheStore.isStale w key d = true <->
   CacheStore.exists_ w key = false \/
   exists a, CacheStore.age w key = Some a /\ d <= a) /\
  (t < clock w + d ->
   CacheStore.isStale (written_then_checked w key payload t) key d = false) /\
  (clock w + d <= t ->
   CacheStore.isStale (written_then_checked w key payload t) key d = true) /\
  calls (fst (CountryCollector.collect w)) =
    (if CacheStore.isStale w CountryCollector.get_file_path CACHE_TTL_COUNTRY
     then calls w ++ [(CountryCollector.get_file_path, GetCountries)]
     else calls w)%list /\
  calls (fst (CurrencyRatesCollector.collect w)) =
    (if CacheStore.isStale w CurrencyRatesCollector.get_file_path CACHE_TTL_CURRENCY_RATES
     then calls w ++ [(CurrencyRatesCollector.get_file_path, GetRates)]
     else calls w)%list /\
  calls (fst (WeatherCollector.collect_location l w)) =
    (if CacheStore.isStale w (WeatherCollector.get_file_path (WeatherCollector.filename_of l))
          CACHE_TTL_WEATHER
     then calls w ++ [(WeatherCollector.get_file_path (WeatherCollector.filename_of l),
                       GetWeather (capital l +:+ "," +:+ alpha2code l))]
     else calls w)%list /\
  calls (fst (NewsCollector.collect_location l w)) =
    (if CacheStore.isStale w (NewsCollector.get_file_path (NewsCollector.filename_of l))
          CACHE_TTL_NEWS
     then calls w ++ [(NewsCollector.get_file_path (NewsCollector.filename_of l),
                       GetNews (country l))]
     else calls w)%list.
Proof.
  split; [apply isStale_iff |].
  split; [intros Hlt; rewrite isStale_written; apply bool_decide_eq_false; lia |].
  split; [intros Hle; rewrite isStale_written; apply bool_decide_eq_true; lia |].
  split; [rewrite country_collect_world; apply refresh_calls |].
  split; [rewrite currency_collect_refresh; apply refresh_calls |].
  split; [rewrite weather_location_refresh | rewrite news_location_refresh];
    apply refresh_calls.
Qed.

Lemma staleness_predicate_witness :
  CacheStore.isStale
    (written_then_checked (Examples.empty_world 1000) "k" (RawText EmptyString) 999) "k" 60 = false /\
  CacheStore.isStale
    (written_then_checked (Examples.empty_world 1000) "k" (RawText EmptyString) 1060) "k" 60 = true.
Proof.
  split.
  - apply (proj1 (proj2 (@staleness_predicate Examples.settings Examples.absent_clients
             Examples.exact_pydantic (Examples.empty_world 1000) "k" (RawText EmptyString) 60 999
             Examples.aland))).
    cbn. lia.
  - apply (proj1 (proj2 (proj2 (@staleness_predicate Examples.settings Examples.absent_clients
             Examples.exact_pydantic (Examples.empty_world 1000) "k" (RawText EmptyString) 60 1060
             Examples.aland)))).
    cbn. lia.
Defined.

(** ** Reading a key that was never written *)

Lemma file_read_absent (path : string) (w : World) :
  files w !! path = None -> file_read path w = (w, Raise FileNotFoundError).
Proof. intros E. unfold file_read. by rewrite E. Qed.

(** C5: for a key that was never written the staleness predicate is true for
    every TTL, and [read] of each collector raises the error of a missing
    cache file ([FileNotFoundError], the code's form of CacheMissing): it
    returns no value, and the world, the log of remote calls included, is as
    before. *)
Theorem read_never_written `{Settings} `{Pydantic}
  (w : World) (key : string) (ttl : Z) (l : LocationDTO) (number : Z) :
  (files w !! key = None -> CacheStore.isStale w key ttl = true) /\
  (files w !! CountryCollector.get_file_path = None ->
   CountryCollector.read w = (w, Raise FileNotFoundError)) /\
  (files w !! CurrencyRatesCollector.get_file_path = None ->
   CurrencyRatesCollector.read w = (w, Raise FileNotFoundError)) /\
  (files w !! WeatherCollector.get_file_path (WeatherCollector.filename_of l) = None ->
   WeatherCollector.read l w = (w, Raise FileNotFoundError)) /\
  (files w !! NewsCollector.get_file_path (NewsCollector.filename_of l) = None ->
   NewsCollector.read l number w = (w, Raise FileNotFoundError)).
Proof.
  split; [apply isStale_absent |].
  repeat split; intros E.
  - unfold CountryCollector.read. rewrite bind_run, (file_read_absent _ _ E). reflexivity.
  - unfold CurrencyRatesCollector.read. rewrite bind_run, (file_read_absent _ _ E). reflexivity.
  - unfold WeatherCollector.read. cbv zeta. rewrite bind_run, (file_read_absent _ _ E). reflexivity.
  - unfold NewsCollector.read. cbv zeta. rewrite bind_run, (file_read_absent _ _ E). reflexivity.
Qed.

Lemma read_never_written_witness :
  let w := Examples.empty_world 0 in
  CacheStore.isStale w "media/weather/mariehamn_ax.json" (-5) = true /\
  @CountryCollector.read Examples.settings Examples.exact_pydantic w
    = (w, Raise FileNotFoundError) /\
  @CurrencyRatesCollector.read Examples.settings Examples.exact_pydantic w
    = (w, Raise FileNotFoundError) /\
  @WeatherCollector.read Examples.settings Examples.exact_pydantic Examples.aland w
    = (w, Raise FileNotFoundError) /\
  @NewsCollector.read Examples.settings Examples.exact_pydantic Examples.aland 0 w
    = (w, Raise FileNotFoundError).
Proof.
  pose proof (@read_never_written Examples.settings Examples.exact_pydantic
                (Examples.empty_world 0) "media/weather/mariehamn_ax.json" (-5)
                Examples.aland 0) as (H1 & H2 & H3 & H4 & H5).
  cbv zeta.
  split; [apply H1; reflexivity |].
  split; [apply H2; reflexivity |].
  split; [apply H3; reflexivity |].
  split; [apply H4; reflexivity | apply H5; reflexivity].
Defined.

(** ** Loops over locations *)

(** A relation between worlds that every iteration maintains is maintained
    by the loop, also when an iteration raises. *)
Lemma for_each_maintains {A} (R : World -> World -> Prop) (xs : list A)
  (body : A -> M unit) :
  (forall w, R w w) ->
  (forall w1 w2 w3, R w1 w2 -> R w2 w3 -> R w1 w3) ->
  (forall x w, In x xs -> R w (fst (body x w))) ->
  forall w, R w (fst (for_each xs body w)).
Proof.
  intros Hrefl Htrans. induction xs as [|x xs IH]; intros Hbody w; cbn [for_each].
  - apply Hrefl.
  - rewrite bind_run. pose proof (Hbody x w (or_introl eq_refl)) as Hx.
    destruct (body x w) as [w' [[]|e]]; cbn in Hx; [| exact Hx].
    eapply Htrans; [exact Hx |]. apply IH. intros y w0 Hy. apply Hbody. by right.
Qed.

(** A loop whose iterations all return does return. *)
Lemma for_each_returns {A} (xs : list A) (body : A -> M unit) :
  (forall x w, In x xs -> snd (body x w) = Return tt) ->
  forall w, snd (for_each xs body w) = Return tt.
Proof.
  induction xs as [|x xs IH]; intros Hbody w; cbn [for_each]; [reflexivity |].
  rewrite bind_run. pose proof (Hbody x w (or_introl eq_refl)) as Hx.
  destruct (body x w) as [w' [[]|e]]; cbn in Hx; [| discriminate].
  apply IH. intros y w0 Hy. apply Hbody. by right.
Qed.

Lemma ensure_dir_run (d : string) (w : World) :
  ensure_dir d w =
  (if bool_decide (d ∈ dirs w) || bool_decide (is_Some (files w !! d))
   then w else set_dirs w ({[d]} ∪ dirs w), Return tt).
Proof.
  unfold ensure_dir; run.
  destruct (bool_decide (d ∈ dirs w) || bool_decide (is_Some (files w !! d))); reflexivity.
Qed.

Lemma ensure_dir_files (d : string) (w : World) : files (fst (ensure_dir d w)) = files w.
Proof. rewrite ensure_dir_run. cbn. by destruct (_ || _). Qed.

Lemma ensure_dir_calls (d : string) (w : World) : calls (fst (ensure_dir d w)) = calls w.
Proof. rewrite ensure_dir_run. cbn. by destruct (_ || _). Qed.

Lemma ensure_dir_clock (d : string) (w : World) : clock (fst (ensure_dir d w)) = clock w.
Proof. rewrite ensure_dir_run. cbn. by destruct (_ || _). Qed.

Lemma ensure_dir_trace (d : string) (w : World) : trace (fst (ensure_dir d w)) = trace w.
Proof. rewrite ensure_dir_run. cbn. by destruct (_ || _). Qed.

Section Loops.
Context `{Settings} `{Clients}.

Lemma weather_collect_run (ls : option (list LocationDTO)) (w : World) :
  WeatherCollector.collect ls w =
  let w0 := fst (ensure_dir (MEDIA_PATH +:+ "/weather") w) in
  match ls with
  | Some ls => for_each ls WeatherCollector.collect_location w0
  | None => (w0, Raise TypeError)
  end.
Proof.
  unfold WeatherCollector.collect. cbv zeta. fold (ensure_dir (MEDIA_PATH +:+ "/weather")).
  rewrite bind_run, ensure_dir_run. cbn [fst]. destruct ls; reflexivity.
Qed.

Lemma news_collect_run (ls : option (list LocationDTO)) (w : World) :
  NewsCollector.collect ls w =
  let w0 := fst (ensure_dir (MEDIA_PATH +:+ "/news") w) in
  match ls with
  | Some ls => for_each ls NewsCollector.collect_location w0
  | None => (w0, Raise TypeError)
  end.
Proof.
  unfold NewsCollector.collect. cbv zeta. fold (ensure_dir (MEDIA_PATH +:+ "/news")).
  rewrite bind_run, ensure_dir_run. cbn [fst]. destruct ls; reflexivity.
Qed.

(** A path that is the key of none of the locations keeps its entry. *)
Lemma weather_collect_other (ls : list LocationDTO) (w : World) (p : string) :
  (forall l, In l ls -> WeatherCollector.get_file_path (WeatherCollector.filename_of l) <> p) ->
  files (fst (WeatherCollector.collect (Some ls) w)) !! p = files w !! p.
Proof.
  intros Hp. rewrite weather_collect_run. cbv zeta.
  rewrite <- (ensure_dir_files (MEDIA_PATH +:+ "/weather") w).
  generalize (fst (ensure_dir (MEDIA_PATH +:+ "/weather") w)). intros w0. symmetry.
  apply (for_each_maintains (fun a b => files a !! p = files b !! p)); [done | congruence |].
  intros l w1 Hl. rewrite weather_location_refresh. symmetry.
  apply refresh_other. intros ->. by apply (Hp l).
Qed.

Lemma news_collect_other (ls : list LocationDTO) (w : World) (p : string) :
  (forall l, In l ls -> NewsCollector.get_file_path (NewsCollector.filename_of l) <> p) ->
  files (fst (NewsCollector.collect (Some ls) w)) !! p = files w !! p.
Proof.
  intros Hp. rewrite news_collect_run. cbv zeta.
  rewrite <- (ensure_dir_files (MEDIA_PATH +:+ "/news") w).
  generalize (fst (ensure_dir (MEDIA_PATH +:+ "/news") w)). intros w0. symmetry.
  apply (for_each_maintains (fun a b => files a !! p = files b !! p)); [done | congruence |].
  intros l w1 Hl. rewrite news_location_refresh. symmetry.
  apply refresh_other. intros ->. by apply (Hp l).
Qed.

End Loops.

(** ** Cache keys of the per-location collectors *)

(** C4, as the code has it: for every location the Weather collector derives
    the one key [lower(capital + "_" + alpha2code)] and the News collector the
    one key [lower(country)]; collecting for that location leaves every other
    cache path as it was.  For ("Aland", "Mariehamn", "AX") the keys are
    [mariehamn_ax] and [aland]. *)
Theorem location_cache_keys `{Settings} `{Clients} (l : LocationDTO) (w : World) (p : string) :
  WeatherCollector.filename_of l = lower (capital l +:+ "_" +:+ alpha2code l) /\
  NewsCollector.filename_of l = lower (country l) /\
  (p <> WeatherCollector.get_file_path (WeatherCollector.filename_of l) ->
   files (fst (WeatherCollector.collect (Some [l]) w)) !! p = files w !! p) /\
  (p <> NewsCollector.get_file_path (NewsCollector.filename_of l) ->
   files (fst (NewsCollector.collect (Some [l]) w)) !! p = files w !! p) /\
  WeatherCollector.filename_of (Location "Aland" "Mariehamn" "AX") = "mariehamn_ax" /\
  NewsCollector.filename_of (Location "Aland" "Mariehamn" "AX") = "aland".
Proof.
  split; [reflexivity |]. split; [reflexivity |].
  split; [| split; [| split; reflexivity]].
  - intros Hp. apply weather_collect_other. intros l' [<- | []]. congruence.
  - intros Hp. apply news_collect_other. intros l' [<- | []]. congruence.
Qed.

Lemma location_cache_keys_witness :
  files (fst (@WeatherCollector.collect Examples.settings Examples.ok_clients
                (Some [Examples.aland]) (Examples.empty_world 0)))
    !! "media/news/aland.json" = None /\
  files (fst (@NewsCollector.collect Examples.settings Examples.ok_clients
                (Some [Examples.aland]) (Examples.empty_world 0)))
    !! "media/weather/mariehamn_ax.json" = None.
Proof.
  split.
  - rewrite (proj1 (proj2 (proj2 (@location_cache_keys Examples.settings Examples.ok_clients
               Examples.aland (Examples.empty_world 0) "media/news/aland.json")))).
    + reflexivity.
    + intros E. vm_compute in E. discriminate E.
  - rewrite (proj1 (proj2 (proj2 (proj2 (@location_cache_keys Examples.settings
               Examples.ok_clients Examples.aland (Examples.empty_world 0)
               "media/weather/mariehamn_ax.json"))))).
    + reflexivity.
    + intros E. vm_compute in E. discriminate E.
Defined.

(** The News key of ("Aland", "Mariehamn", "AX") is not the lower-cased
    "capital_alpha2code". *)
Lemma news_key_is_the_country :
  NewsCollector.filename_of Examples.aland = "aland" /\
  NewsCollector.filename_of Examples.aland
    <> lower (capital Examples.aland +:+ "_" +:+ alpha2code Examples.aland).
Proof. split; [reflexivity |]. intros E. vm_compute in E. discriminate E. Qed.

(** ** An empty set of locations *)

(** C8, as the code has it: with an empty set of locations [collect] of the
    Weather and News collectors returns without a remote call and without
    touching a cache file; its one effect is to create the directory of the
    category when that does not exist yet. *)
Theorem collect_empty_set `{Settings} `{Clients} (w : World) :
  WeatherCollector.collect (Some []) w =
    (if bool_decide (MEDIA_PATH +:+ "/weather" ∈ dirs w)
        || bool_decide (is_Some (files w !! (MEDIA_PATH +:+ "/weather")))
     then w else set_dirs w ({[MEDIA_PATH +:+ "/weather"]} ∪ dirs w), Return tt) /\
  NewsCollector.collect (Some []) w =
    (if bool_decide (MEDIA_PATH +:+ "/news" ∈ dirs w)
        || bool_decide (is_Some (files w !! (MEDIA_PATH +:+ "/news")))
     then w else set_dirs w ({[MEDIA_PATH +:+ "/news"]} ∪ dirs w), Return tt) /\
  calls (fst (WeatherCollector.collect (Some []) w)) = calls w /\
  calls (fst (NewsCollector.collect (Some []) w)) = calls w /\
  files (fst (WeatherCollector.collect (Some []) w)) = files w /\
  files (fst (NewsCollector.collect (Some []) w)) = files w.
Proof.
  rewrite weather_collect_run, news_collect_run. cbv zeta. cbn [for_each].
  unfold ret. rewrite !ensure_dir_run. cbn [fst].
  repeat split; by destruct (_ || _).
Qed.

(** On a cache root without the weather directory, collecting for no
    location changes durable storage: the directory now exists. *)
Lemma collect_empty_set_creates_directory :
  let w := Examples.empty_world 0 in
  ("media/weather" ∉ dirs w) /\
  ("media/weather" ∈ dirs (fst (@WeatherCollector.collect Examples.settings
                                  Examples.absent_clients (Some []) w))) /\
  fst (@WeatherCollector.collect Examples.settings Examples.absent_clients (Some []) w) <> w.
Proof.
  cbv zeta.
  assert (Hin : "media/weather" ∈ dirs (fst (@WeatherCollector.collect Examples.settings
                                 Examples.absent_clients (Some []) (Examples.empty_world 0)))).
  { rewrite weather_collect_run. cbv zeta. cbn [for_each]. unfold ret.
    rewrite ensure_dir_run. cbn. set_solver. }
  split; [cbn; set_solver |]. split; [exact Hin |].
  intros E. rewrite E in Hin. cbn in Hin. set_solver.
Qed.

(** ** Reading a news item *)

Section NewsRead.
Context `{Settings} `{Pydantic}.

Lemma news_read_run (l : LocationDTO) (number : Z) (w : World) :
  NewsCollector.read l number w =
  (w, match files w !! NewsCollector.get_file_path (NewsCollector.filename_of l) with
      | None => Raise FileNotFoundError
      | Some f =>
          match json_loads (data f) with
          | Raise e => Raise e
          | Return result =>
              if py_truthy result then
                match getitem_str result "articles" with
                | Raise e => Raise e
                | Return articles =>
                    match getitem_int articles number with
                    | Raise e => Raise e
                    | Return article =>
                        match NewsCollector.decode_article article with
                        | Raise e => Raise e
                        | Return dto => Return (Some dto)
                        end
                    end
                end
              else Return None
          end
      end).
Proof.
  unfold NewsCollector.read; run.
  destruct (files w !! _) as [f|]; [| reflexivity].
  destruct (json_loads (data f)) as [result|e]; [| reflexivity].
  destruct (py_truthy result); [| reflexivity].
  destruct (getitem_str result "articles") as [articles|e]; [| reflexivity].
  destruct (getitem_int articles number) as [article|e]; [| reflexivity].
  destruct (NewsCollector.decode_article article); reflexivity.
Qed.

End NewsRead.

Lemma py_index_out_of_range {A} (l : list A) (i : Z) :
  i < - Z.of_nat (length l) \/ Z.of_nat (length l) <= i -> py_index l i = Raise IndexError.
Proof.
  intros Hi. unfold py_index.
  destruct (0 <=? i) eqn:E1, (i <? Z.of_nat (length l)) eqn:E2,
           (- Z.of_nat (length l) <=? i) eqn:E3, (i <? 0) eqn:E4; cbn; try reflexivity; lia.
Qed.

Lemma py_index_in_range {A} (l : list A) (i : Z) :
  - Z.of_nat (length l) <= i < Z.of_nat (length l) ->
  exists x, nth_error l (Z.to_nat (i mod Z.of_nat (length l))) = Some x /\
            py_index l i = Return x.
Proof.
  intros Hi. set (n := Z.of_nat (length l)) in *.
  assert (Hn : 0 < n) by lia.
  assert (Hlt : (Z.to_nat (i mod n) < length l)%nat).
  { pose proof (Z.mod_pos_bound i n Hn). lia. }
  destruct (nth_error l (Z.to_nat (i mod n))) as [x|] eqn:E.
  2:{ apply nth_error_None in E. lia. }
  exists x. split; [reflexivity |]. unfold py_index. fold n.
  destruct (Z_lt_le_dec i 0) as [Hneg | Hpos].
  - replace (0 <=? i) with false by (symmetry; apply Z.leb_gt; lia).
    replace (- n <=? i) with true by (symmetry; apply Z.leb_le; lia).
    replace (i <? 0) with true by (symmetry; apply Z.ltb_lt; lia).
    cbn. replace (n + i) with (i mod n); [by rewrite E |].
    symmetry. apply (Z.mod_unique_pos i n (-1) (n + i)); lia.
  - replace (0 <=? i) with true by (symmetry; apply Z.leb_le; lia).
    replace (i <? n) with true by (symmetry; apply Z.ltb_lt; lia).
    cbn. rewrite Z.mod_small in E by lia. by rewrite E.
Qed.

(** C10, as the code has it: [NewsCollector.read(location, number)] indexes
    the cached list of articles without a bounds check, and a Python index
    may be negative.  For a cached non-empty payload whose "articles" is a
    list of n items, [read] raises IndexError when number < -n or n <= number;
    when -n <= number < n it decodes the article at position number mod n
    (negative numbers count from the end); and it returns a record only for
    a number in that range. *)
Theorem news_read_index `{Settings} `{Pydantic}
  (l : LocationDTO) (number : Z) (w : World) (f : file) (result : pyval)
  (articles : list pyval) :
  files w !! NewsCollector.get_file_path (NewsCollector.filename_of l) = Some f ->
  data f = Dumped result ->
  py_truthy result = true ->
  getitem_str result "articles" = Return (PyList articles) ->
  let n := Z.of_nat (length articles) in
  (number < - n \/ n <= number -> NewsCollector.read l number w = (w, Raise IndexError)) /\
  (- n <= number < n ->
   exists article,
     nth_error articles (Z.to_nat (number mod n)) = Some article /\
     NewsCollector.read l number w =
       (w, match NewsCollector.decode_article article with
           | Return dto => Return (Some dto)
           | Raise e => Raise e
           end)) /\
  (forall dto, NewsCollector.read l number w = (w, Return (Some dto)) -> - n <= number < n).
Proof.
  intros Hf Hd Ht Ha n.
  assert (Hrun : NewsCollector.read l number w =
                 (w, match py_index articles number with
                     | Raise e => Raise e
                     | Return article =>
                         match NewsCollector.decode_article article with
                         | Raise e => Raise e
                         | Return dto => Return (Some dto)
                         end
                     end)).
  { rewrite news_read_run, Hf, Hd. cbn [json_loads]. rewrite Ht, Ha. reflexivity. }
  split; [| split].
  - intros Hout. rewrite Hrun, (py_index_out_of_range articles number Hout). reflexivity.
  - intros Hin. destruct (py_index_in_range articles number Hin) as (x & Hx & Hi).
    exists x. split; [exact Hx |]. rewrite Hrun, Hi.
    destruct (NewsCollector.decode_article x); reflexivity.
  - intros dto Hr. destruct (Z_lt_le_dec number (- n)) as [Hlo|Hlo];
      [| destruct (Z_lt_le_dec number n) as [Hhi|Hhi]; [lia |]].
    + rewrite Hrun, (py_index_out_of_range articles number) in Hr by (left; exact Hlo).
      discriminate Hr.
    + rewrite Hrun, (py_index_out_of_range articles number) in Hr by (right; exact Hhi).
      discriminate Hr.
Qed.

Lemma news_read_index_witness :
  let w := Examples.news_world
             (Dumped (Examples.news_payload [Examples.article (PyStr "A"); Examples.article PyNone]))
             10 in
  @NewsCollector.read Examples.settings Examples.exact_pydantic Examples.aland 2 w
    = (w, Raise IndexError) /\
  @NewsCollector.read Examples.settings Examples.exact_pydantic Examples.aland (-3) w
    = (w, Raise IndexError) /\
  exists article,
    nth_error [Examples.article (PyStr "A"); Examples.article PyNone] (Z.to_nat ((-2) mod 2))
      = Some article /\
    @NewsCollector.read Examples.settings Examples.exact_pydantic Examples.aland (-2) w
      = (w, match @NewsCollector.decode_article Examples.exact_pydantic article with
            | Return dto => Return (Some dto)
            | Raise e => Raise e
            end).
Proof.
  cbv zeta.
  assert (Hw : forall number,
    let w := Examples.news_world
             (Dumped (Examples.news_payload [Examples.article (PyStr "A"); Examples.article PyNone]))
             10 in
    let n := Z.of_nat (length [Examples.article (PyStr "A"); Examples.article PyNone]) in
    (number < - n \/ n <= number ->
     @NewsCollector.read Examples.settings Examples.exact_pydantic Examples.aland number w
       = (w, Raise IndexError)) /\
    (- n <= number < n ->
     exists article,
       nth_error [Examples.article (PyStr "A"); Examples.article PyNone]
         (Z.to_nat (number mod n)) = Some article /\
       @NewsCollector.read Examples.settings Examples.exact_pydantic Examples.aland number w =
         (w, match @NewsCollector.decode_article Examples.exact_pydantic article with
             | Return dto => Return (Some dto)
             | Raise e => Raise e
             end)) /\
    (forall dto,
       @NewsCollector.read Examples.settings Examples.exact_pydantic Examples.aland number w
         = (w, Return (Some dto)) -> - n <= number < n)).
  { intros number.
    apply (@news_read_index Examples.settings Examples.exact_pydantic Examples.aland number _
             (File 0 (Dumped (Examples.news_payload
                        [Examples.article (PyStr "A"); Examples.article PyNone])))
             (Examples.news_payload [Examples.article (PyStr "A"); Examples.article PyNone]));
      reflexivity. }
  split; [apply (proj1 (Hw 2)); cbn; lia |].
  split; [apply (proj1 (Hw (-3))); cbn; lia |].
  apply (proj1 (proj2 (Hw (-2)))). cbn. lia.
Defined.

(** With one cached article, [number = -1] is outside [0, 1) and yet [read]
    returns a record: the last article. *)
Lemma news_read_negative_number :
  let w := Examples.news_world
             (Dumped (Examples.news_payload [Examples.article (PyStr "STEVE KARNOWSKI")])) 10 in
  ~ (0 <= -1 < 1) /\
  @NewsCollector.read Examples.settings Examples.exact_pydantic Examples.aland (-1) w
    = (w, Return (Some (mkNewsDTO "ABC News" "STEVE KARNOWSKI" 1677291760
                          "PolyMet mine in Minnesota" "sample text"))).
Proof. cbv zeta. split; [lia | reflexivity]. Qed.

(** ** Decoding cached payloads *)

Section Decoding.
Context `{Settings} `{Pydantic}.

Lemma author_field_default (v : pyval) (s : string) :
  author_field PyNone = Some "unknown" /\
  (v <> PyNone -> validate_str v = Some s ->
   author_field v = Some (if String.eqb s EmptyString then "unknown" else s)).
Proof.
  split; [reflexivity |]. intros Hv Hs.
  destruct v; try congruence; cbn; rewrite Hs; reflexivity.
Qed.

Lemma NewsDTO_new_inv (source author published_at title description : pyval) (dto : NewsDTO) :
  NewsDTO_new source author published_at title description = Return dto ->
  validate_str source = Some (news_source dto) /\
  author_field author = Some (news_author dto) /\
  validate_datetime published_at = Some (news_published_at dto) /\
  validate_str title = Some (news_title dto) /\
  validate_str description = Some (news_description dto).
Proof.
  unfold NewsDTO_new.
  destruct (validate_str source), (author_field author), (validate_datetime published_at),
    (validate_str title), (validate_str description); intros E; inversion E; subst; cbn; done.
Qed.

Lemma decode_article_inv (article : pyval) (dto : NewsDTO) :
  NewsCollector.decode_article article = Return dto ->
  exists source name author publishedAt title description,
    getitem_str article "source" = Return source /\
    getitem_str source "name" = Return name /\
    getitem_str article "author" = Return author /\
    getitem_str article "publishedAt" = Return publishedAt /\
    getitem_str article "title" = Return title /\
    getitem_str article "description" = Return description /\
    NewsDTO_new name author publishedAt title description = Return dto.
Proof.
  unfold NewsCollector.decode_article.
  destruct (getitem_str article "source") as [source|]; [| discriminate].
  destruct (getitem_str source "name") as [name|] eqn:Hname; [| discriminate].
  destruct (getitem_str article "author") as [author|]; [| discriminate].
  destruct (getitem_str article "publishedAt") as [publishedAt|]; [| discriminate].
  destruct (getitem_str article "title") as [title|]; [| discriminate].
  destruct (getitem_str article "description") as [description|]; [| discriminate].
  intros E. exists source, name, author, publishedAt, title, description.
  repeat split; first [reflexivity | assumption].
Qed.

Lemma read_not_json_weather (l : LocationDTO) (w : World) (f : file) (s : string) :
  files w !! WeatherCollector.get_file_path (WeatherCollector.filename_of l) = Some f ->
  data f = RawText s ->
  WeatherCollector.read l w = (w, Raise JSONDecodeError).
Proof.
  intros Hf Hd. unfold WeatherCollector.read; run. rewrite Hf, Hd. reflexivity.
Qed.

Lemma read_not_json_currency (w : World) (f : file) (s : string) :
  files w !! CurrencyRatesCollector.get_file_path = Some f ->
  data f = RawText s ->
  CurrencyRatesCollector.read w =
  (w, if String.eqb s EmptyString then Return None else Raise JSONDecodeError).
Proof.
  intros Hf Hd. unfold CurrencyRatesCollector.read; run. rewrite Hf, Hd. cbn.
  destruct (String.eqb s EmptyString); reflexivity.
Qed.

Lemma read_not_json_country (w : World) (f : file) (s : string) :
  files w !! CountryCollector.get_file_path = Some f ->
  data f = RawText s ->
  CountryCollector.read w =
  (w, if String.eqb s EmptyString then Return None else Raise JSONDecodeError).
Proof.
  intros Hf Hd. unfold CountryCollector.read; run. rewrite Hf, Hd. cbn.
  destruct (String.eqb s EmptyString); reflexivity.
Qed.

End Decoding.

(** C9, as the code has it.  A payload that is present but is not JSON makes
    [read] of every category raise (an empty file makes the Country and
    CurrencyRates [read] return None).  For News: a payload that parses to an
    empty value gives None; for a non-empty payload [read] never returns None,
    and it returns a record only if "articles", the indexed article and each
    of source.name, author, publishedAt, title and description are there and
    pass validation; the fields of the record are the validated values of the
    payload, except that a null or empty author becomes "unknown". *)
Theorem decode_errors_and_defaults `{Settings} `{Pydantic}
  (l : LocationDTO) (number : Z) (w : World) (f : file) :
  (forall s, data f = RawText s ->
     (files w !! NewsCollector.get_file_path (NewsCollector.filename_of l) = Some f ->
      NewsCollector.read l number w = (w, Raise JSONDecodeError)) /\
     (files w !! WeatherCollector.get_file_path (WeatherCollector.filename_of l) = Some f ->
      WeatherCollector.read l w = (w, Raise JSONDecodeError)) /\
     (files w !! CurrencyRatesCollector.get_file_path = Some f ->
      CurrencyRatesCollector.read w =
        (w, if String.eqb s EmptyString then Return None else Raise JSONDecodeError)) /\
     (files w !! CountryCollector.get_file_path = Some f ->
      CountryCollector.read w =
        (w, if String.eqb s EmptyString then Return None else Raise JSONDecodeError))) /\
  (forall result,
     files w !! NewsCollector.get_file_path (NewsCollector.filename_of l) = Some f ->
     data f = Dumped result ->
     (py_truthy result = false -> NewsCollector.read l number w = (w, Return None)) /\
     (py_truthy result = true -> NewsCollector.read l number w <> (w, Return None)) /\
     (forall dto,
        py_truthy result = true ->
        NewsCollector.read l number w = (w, Return (Some dto)) ->
        exists articles article source name author publishedAt title description,
          getitem_str result "articles" = Return articles /\
          getitem_int articles number = Return article /\
          getitem_str article "source" = Return source /\
          getitem_str source "name" = Return name /\
          getitem_str article "author" = Return author /\
          getitem_str article "publishedAt" = Return publishedAt /\
          getitem_str article "title" = Return title /\
          getitem_str article "description" = Return description /\
          validate_str name = Some (news_source dto) /\
          validate_datetime publishedAt = Some (news_published_at dto) /\
          validate_str title = Some (news_title dto) /\
          validate_str description = Some (news_description dto) /\
          (author = PyNone -> news_author dto = "unknown") /\
          (author <> PyNone ->
           exists s, validate_str author = Some s /\
                     news_author dto = if String.eqb s EmptyString then "unknown" else s))).
Proof.
  split.
  - intros s Hd. split; [| split; [| split]].
    + intros Hf. rewrite news_read_run, Hf, Hd. reflexivity.
    + intros Hf. by apply (read_not_json_weather l w f s).
    + intros Hf. by apply (read_not_json_currency w f s).
    + intros Hf. by apply (read_not_json_country w f s).
  - intros result Hf Hd. rewrite news_read_run, Hf, Hd. cbn [json_loads].
    split; [| split].
    + intros ->. reflexivity.
    + intros ->.
      destruct (getitem_str result "articles") as [articles|]; [| discriminate].
      destruct (getitem_int articles number) as [article|]; [| discriminate].
      destruct (NewsCollector.decode_article article); discriminate.
    + intros dto -> Hr.
      destruct (getitem_str result "articles") as [articles|] eqn:Harts; [| discriminate].
      destruct (getitem_int articles number) as [article|] eqn:Hart; [| discriminate].
      destruct (NewsCollector.decode_article article) as [dto'|] eqn:Hdec; [| discriminate].
      assert (dto' = dto) by congruence. subst dto'.
      destruct (decode_article_inv article dto Hdec)
        as (source & name & author & publishedAt & title & description
            & H1 & H2 & H3 & H4 & H5 & H6 & Hnew).
      destruct (NewsDTO_new_inv _ _ _ _ _ _ Hnew) as (V1 & V2 & V3 & V4 & V5).
      exists articles, article, source, name, author, publishedAt, title, description.
      repeat (split; [done |]). split.
      * intros ->. cbn in V2. congruence.
      * intros Hne. destruct (validate_str author) as [s|] eqn:Hs.
        -- exists s. split; [reflexivity |].
           destruct (author_field_default author s) as [_ Ha].
           rewrite (Ha Hne Hs) in V2. congruence.
        -- destruct author; try congruence; cbn in V2; rewrite Hs in V2; discriminate.
Qed.

Lemma decode_errors_and_defaults_witness :
  @NewsCollector.read Examples.settings Examples.exact_pydantic Examples.aland 0
    (Examples.news_world (RawText "<html>") 10)
  = (Examples.news_world (RawText "<html>") 10, Raise JSONDecodeError) /\
  @NewsCollector.read Examples.settings Examples.exact_pydantic Examples.aland 0
    (Examples.news_world (Dumped (PyDict [])) 10)
  = (Examples.news_world (Dumped (PyDict [])) 10, Return None) /\
  @NewsCollector.read Examples.settings Examples.exact_pydantic Examples.aland 0
    (Examples.news_world (Dumped (Examples.news_payload [Examples.article PyNone])) 10)
  <> (Examples.news_world (Dumped (Examples.news_payload [Examples.article PyNone])) 10,
      Return None).
Proof.
  split; [| split].
  - apply (proj1 (proj1 (@decode_errors_and_defaults Examples.settings Examples.exact_pydantic
             Examples.aland 0 (Examples.news_world (RawText "<html>") 10)
             (File 0 (RawText "<html>"))) "<html>" eq_refl)).
    reflexivity.
  - apply (proj1 (proj2 (@decode_errors_and_defaults Examples.settings Examples.exact_pydantic
             Examples.aland 0 (Examples.news_world (Dumped (PyDict [])) 10)
             (File 0 (Dumped (PyDict [])))) (PyDict []) eq_refl eq_refl)).
    reflexivity.
  - apply (proj1 (proj2 (proj2 (@decode_errors_and_defaults Examples.settings
             Examples.exact_pydantic Examples.aland 0
             (Examples.news_world (Dumped (Examples.news_payload [Examples.article PyNone])) 10)
             (File 0 (Dumped (Examples.news_payload [Examples.article PyNone]))))
             (Examples.news_payload [Examples.article PyNone]) eq_refl eq_refl))).
    reflexivity.
Defined.

(** A cached article whose author is null is decoded without an error, and
    the record carries the default "unknown" in place of the missing author. *)
Lemma null_author_becomes_unknown :
  let w := Examples.news_world (Dumped (Examples.news_payload [Examples.article PyNone])) 10 in
  getitem_str (Examples.article PyNone) "author" = Return PyNone /\
  @NewsCollector.read Examples.settings Examples.exact_pydantic Examples.aland 0 w
    = (w, Return (Some (mkNewsDTO "ABC News" "unknown" 1677291760
                          "PolyMet mine in Minnesota" "sample text"))).
Proof. cbv zeta. split; reflexivity. Qed.

(** ** Collecting when the provider has nothing *)

Lemma constant_ret {A} (a : A) : constant (ret a).
Proof. by exists (Return a). Qed.

Lemma constant_lift {A} (o : outcome A) : constant (lift o).
Proof. by exists o. Qed.

Lemma constant_bind {A B} (m : M A) (k : A -> M B) :
  constant m -> (forall a, constant (k a)) -> constant (bind m k).
Proof.
  intros [o Ho] Hk. destruct o as [a|e].
  - destruct (Hk a) as [o' Ho']. exists o'. intros w. unfold bind. by rewrite Ho, Ho'.
  - exists (Raise e). intros w. unfold bind. by rewrite Ho.
Qed.

Lemma constant_map_m {A B} (f : A -> M B) (xs : list A) :
  (forall x, constant (f x)) -> constant (map_m f xs).
Proof.
  intros Hf. induction xs as [|x xs IH]; cbn [map_m].
  - apply constant_ret.
  - apply constant_bind; [apply Hf |]. intros y.
    apply constant_bind; [apply IH |]. intros ys. apply constant_ret.
Qed.

Section EmptyAnswers.
Context `{Settings} `{Clients} `{Pydantic}.

Lemma constant_location_of_item (item : pyval) :
  constant (CountryCollector.location_of_item item).
Proof.
  unfold CountryCollector.location_of_item.
  repeat (apply constant_bind; [apply constant_lift | intros ?]). apply constant_lift.
Qed.

(** What the read-back of the Country collector yields is decided by the
    cache file alone. *)
Lemma read_back_file (w1 w2 : World) :
  files w1 !! CountryCollector.get_file_path = files w2 !! CountryCollector.get_file_path ->
  snd (CountryCollector.read_back w1) = snd (CountryCollector.read_back w2).
Proof.
  intros E. unfold CountryCollector.read_back. rewrite !bind_run. unfold file_read.
  rewrite E. destruct (files w2 !! CountryCollector.get_file_path) as [f|]; [| reflexivity].
  match goal with |- snd (?k w1) = snd (?k w2) => assert (Hc : constant k) end.
  { apply constant_bind; [apply constant_lift | intros result].
    destruct (py_truthy result); [| apply constant_ret].
    apply constant_bind; [apply constant_lift | intros items].
    apply constant_bind; [| intros ?; apply constant_ret].
    apply constant_map_m, constant_location_of_item. }
  destruct Hc as [o Ho]. by rewrite !Ho.
Qed.

Lemma read_back_absent (w : World) :
  files w !! CountryCollector.get_file_path = None ->
  CountryCollector.read_back w = (w, Raise FileNotFoundError).
Proof.
  intros E. unfold CountryCollector.read_back.
  rewrite bind_run, (file_read_absent _ _ E). reflexivity.
Qed.

(** The outcome of [CountryCollector.collect] is that of reading back the
    cache its refresh step leaves, unless the provider raises. *)
Lemma country_collect_outcome (w : World) :
  snd (CountryCollector.collect w) =
  match snd (refresh CountryCollector.get_file_path CountryCollector.get_cache_ttl
               GetCountries get_countries w) with
  | Return _ =>
      snd (CountryCollector.read_back
             (fst (refresh CountryCollector.get_file_path CountryCollector.get_cache_ttl
                     GetCountries get_countries w)))
  | Raise e => Raise e
  end.
Proof.
  rewrite country_collect_refresh, bind_run.
  destruct (refresh _ _ _ _ w) as [w' [[]|e]]; reflexivity.
Qed.

(** When the providers answer with nothing, no collector changes the cache
    entry of a key; the CurrencyRates, Weather and News collectors return,
    and the Country collector ends as reading back the old entry ends. *)
Lemma collect_empty_answer (w : World) (ls : list LocationDTO) (p : string) :
  (empty_answer (get_rates (length (calls w))) ->
   files (fst (CurrencyRatesCollector.collect w)) = files w /\
   snd (CurrencyRatesCollector.collect w) = Return tt) /\
  (empty_answer (get_countries (length (calls w))) ->
   files (fst (CountryCollector.collect w)) = files w /\
   snd (CountryCollector.collect w) = snd (CountryCollector.read_back w)) /\
  ((forall l n, In l ls ->
      WeatherCollector.get_file_path (WeatherCollector.filename_of l) = p ->
      empty_answer (get_weather n (capital l +:+ "," +:+ alpha2code l))) ->
   files (fst (WeatherCollector.collect (Some ls) w)) !! p = files w !! p) /\
  ((forall l n, In l ls -> empty_answer (get_weather n (capital l +:+ "," +:+ alpha2code l))) ->
   snd (WeatherCollector.collect (Some ls) w) = Return tt) /\
  ((forall l n, In l ls ->
      NewsCollector.get_file_path (NewsCollector.filename_of l) = p ->
      empty_answer (get_news n (country l))) ->
   files (fst (NewsCollector.collect (Some ls) w)) !! p = files w !! p) /\
  ((forall l n, In l ls -> empty_answer (get_news n (country l))) ->
   snd (NewsCollector.collect (Some ls) w) = Return tt).
Proof.
  split; [| split; [| split; [| split; [| split]]]].
  - intros He. rewrite currency_collect_refresh. by apply refresh_empty.
  - intros He.
    destruct (refresh_empty CountryCollector.get_file_path CountryCollector.get_cache_ttl
                GetCountries get_countries w He) as [Hfiles Hret].
    split; [by rewrite country_collect_world |].
    rewrite country_collect_outcome, Hret. apply read_back_file. by rewrite Hfiles.
  - intros He. rewrite weather_collect_run. cbv zeta.
    rewrite <- (ensure_dir_files (MEDIA_PATH +:+ "/weather") w).
    generalize (fst (ensure_dir (MEDIA_PATH +:+ "/weather") w)). intros w0. symmetry.
    apply (for_each_maintains (fun a b => files a !! p = files b !! p)); [done | congruence |].
    intros l w1 Hl. rewrite weather_location_refresh. symmetry.
    destruct (decide (WeatherCollector.get_file_path (WeatherCollector.filename_of l) = p))
      as [Hp|Hp].
    + f_equal. apply refresh_empty. by apply He.
    + apply refresh_other. congruence.
  - intros He. rewrite weather_collect_run. cbv zeta.
    apply for_each_returns. intros l w1 Hl. rewrite weather_location_refresh.
    apply refresh_empty. by apply He.
  - intros He. rewrite news_collect_run. cbv zeta.
    rewrite <- (ensure_dir_files (MEDIA_PATH +:+ "/news") w).
    generalize (fst (ensure_dir (MEDIA_PATH +:+ "/news") w)). intros w0. symmetry.
    apply (for_each_maintains (fun a b => files a !! p = files b !! p)); [done | congruence |].
    intros l w1 Hl. rewrite news_location_refresh. symmetry.
    destruct (decide (NewsCollector.get_file_path (NewsCollector.filename_of l) = p))
      as [Hp|Hp].
    + f_equal. apply refresh_empty. by apply He.
    + apply refresh_other. congruence.
  - intros He. rewrite news_collect_run. cbv zeta.
    apply for_each_returns. intros l w1 Hl. rewrite news_location_refresh.
    apply refresh_empty. by apply He.
Qed.

End EmptyAnswers.

(** C2 at its failing input: the cache root holds no country file and the
    provider answers with nothing.  The refresh step writes nothing, and the
    read-back that follows it opens a file that is not there:
    [CountryCollector.collect] raises FileNotFoundError.  On the same input
    the CurrencyRates collector returns. *)
Theorem country_collect_without_cache :
  let w := Examples.empty_world 0 in
  @get_countries Examples.absent_clients 0 = Return PyNone /\
  @CountryCollector.collect Examples.settings Examples.absent_clients Examples.exact_pydantic w
    = (set_calls w [("media/country.json", GetCountries)], Raise FileNotFoundError) /\
  @CurrencyRatesCollector.collect Examples.settings Examples.absent_clients w
    = (set_calls w [("media/currency_rates.json", GetRates)], Return tt).
Proof. cbv zeta. repeat split. Qed.

(** ** The orchestrator *)

Section Orchestrator.
Context `{Settings} `{Clients} `{Pydantic}.

Lemma currency_collect_trace (w : World) :
  trace (fst (CurrencyRatesCollector.collect w)) = trace w.
Proof. rewrite currency_collect_refresh. apply refresh_trace. Qed.

Lemma country_collect_trace (w : World) :
  trace (fst (CountryCollector.collect w)) = trace w.
Proof. rewrite country_collect_world. apply refresh_trace. Qed.

Lemma weather_collect_trace (ls : option (list LocationDTO)) (w : World) :
  trace (fst (WeatherCollector.collect ls w)) = trace w.
Proof.
  rewrite weather_collect_run. cbv zeta.
  rewrite <- (ensure_dir_trace (MEDIA_PATH +:+ "/weather") w).
  generalize (fst (ensure_dir (MEDIA_PATH +:+ "/weather") w)). intros w0.
  destruct ls as [ls|]; [| reflexivity]. symmetry.
  apply (for_each_maintains (fun a b => trace a = trace b)); [done | congruence |].
  intros l w1 _. rewrite weather_location_refresh. symmetry. apply refresh_trace.
Qed.

Lemma news_collect_trace (ls : option (list LocationDTO)) (w : World) :
  trace (fst (NewsCollector.collect ls w)) = trace w.
Proof.
  rewrite news_collect_run. cbv zeta.
  rewrite <- (ensure_dir_trace (MEDIA_PATH +:+ "/news") w).
  generalize (fst (ensure_dir (MEDIA_PATH +:+ "/news") w)). intros w0.
  destruct ls as [ls|]; [| reflexivity]. symmetry.
  apply (for_each_maintains (fun a b => trace a = trace b)); [done | congruence |].
  intros l w1 _. rewrite news_location_refresh. symmetry. apply refresh_trace.
Qed.

(** A call through [invoke] adds its two events to the trace. *)
Lemma invoke_trace {A} (c : category) (arg : option (list LocationDTO))
  (result_of : A -> option (list LocationDTO)) (m : M A) (w : World) :
  (forall w0, trace (fst (m w0)) = trace w0) ->
  trace (fst (Collectors.invoke c arg result_of m w)) =
  (trace w ++ [Invoked c arg; done_event c result_of (snd (Collectors.invoke c arg result_of m w))])%list.
Proof.
  intros Hm. unfold Collectors.invoke.
  specialize (Hm (set_trace w (trace w ++ [Invoked c arg]))).
  destruct (m _) as [w' [a|e]]; cbn in *; rewrite Hm, <- app_assoc; reflexivity.
Qed.

Lemma gather_run (w : World) :
  Collectors.gather w =
  let r0 := Collectors.invoke CurrencyRates None (fun _ => None)
              CurrencyRatesCollector.collect w in
  let r1 := Collectors.invoke Country None id CountryCollector.collect (fst r0) in
  (fst r1, match snd r0, snd r1 with
           | Return a, Return b => Return (a, b)
           | Raise e, _ => Raise e
           | Return _, Raise e => Raise e
           end).
Proof.
  unfold Collectors.gather. cbv zeta.
  destruct (Collectors.invoke CurrencyRates _ _ _ w) as [w1 r0]. cbn [fst snd].
  destruct (Collectors.invoke Country _ _ _ w1) as [w2 r1]. cbn [fst snd].
  destruct r0, r1; reflexivity.
Qed.

Lemma collect_run (w : World) :
  Collectors.collect w =
  match Collectors.gather w with
  | (w2, Return results) => second_stage (snd results) w2
  | (w2, Raise e) => (w2, Raise e)
  end.
Proof. reflexivity. Qed.

(** The events of the first stage. *)
Lemma gather_trace (w : World) :
  exists o0 o1,
    trace (fst (Collectors.gather w)) =
      (trace w ++ [Invoked CurrencyRates None; done_event CurrencyRates (fun _ => None) o0;
                   Invoked Country None; done_event Country id o1])%list /\
    snd (Collectors.gather w) =
      match o0, o1 with
      | Return a, Return b => Return (a, b)
      | Raise e, _ => Raise e
      | Return _, Raise e => Raise e
      end.
Proof.
  rewrite gather_run. cbv zeta. cbn [fst snd].
  set (r0 := Collectors.invoke CurrencyRates None (fun _ => None)
               CurrencyRatesCollector.collect w).
  set (r1 := Collectors.invoke Country None id CountryCollector.collect (fst r0)).
  exists (snd r0), (snd r1). split; [| reflexivity].
  unfold r1. rewrite (invoke_trace Country) by apply country_collect_trace.
  unfold r0. rewrite (invoke_trace CurrencyRates) by apply currency_collect_trace.
  rewrite <- app_assoc. reflexivity.
Qed.

(** The events of the second stage. *)
Lemma second_stage_trace (r : option (list LocationDTO)) (w : World) :
  exists o2 : outcome unit,
    forall tl,
      tl = match o2 with
           | Return _ => [Invoked News r;
                          done_event News (fun _ : unit => None)
                            (snd (Collectors.invoke News r (fun _ => None)
                                    (NewsCollector.collect r)
                                    (fst (Collectors.invoke Weather r (fun _ => None)
                                            (WeatherCollector.collect r) w))))]
           | Raise _ => []
           end ->
      trace (fst (second_stage r w)) =
      (trace w ++ Invoked Weather r :: done_event Weather (fun _ : unit => None) o2 :: tl)%list.
Proof.
  unfold second_stage. rewrite bind_run.
  pose proof (invoke_trace Weather r (fun _ : unit => None) (WeatherCollector.collect r) w
                (weather_collect_trace r)) as Hw.
  destruct (Collectors.invoke Weather r _ _ w) as [w3 o2] eqn:E3. cbn [fst snd] in *.
  exists o2. intros tl ->. destruct o2 as [[]|e]; [| exact Hw].
  rewrite bind_run.
  pose proof (invoke_trace News r (fun _ : unit => None) (NewsCollector.collect r) w3
                (news_collect_trace r)) as Hn.
  destruct (Collectors.invoke News r _ _ w3) as [w4 o3] eqn:E4. cbn [fst snd] in *.
  destruct o3 as [[]|e]; unfold ret; cbn [fst snd] in *;
    rewrite Hn, Hw, <- app_assoc; reflexivity.
Qed.

End Orchestrator.

Section OrchestratorEvents.
Context `{Settings} `{Clients} `{Pydantic}.

(** All the events of one orchestrated run. *)
Lemma collect_events (w : World) :
  exists (o0 : outcome unit) (o1 : outcome (option (list LocationDTO))) (evs2 : list event),
    trace (fst (Collectors.collect w)) =
      (trace w ++ [Invoked CurrencyRates None; done_event CurrencyRates (fun _ => None) o0;
                   Invoked Country None; done_event Country id o1] ++ evs2)%list /\
    match o0, o1 with
    | Return _, Return r =>
        exists (o2 : outcome unit) tl,
          evs2 = Invoked Weather r :: done_event Weather (fun _ => None) o2 :: tl /\
          (tl = [] \/
           exists o3 : outcome unit, tl = [Invoked News r; done_event News (fun _ => None) o3])
    | _, _ => evs2 = []
    end.
Proof.
  destruct (gather_trace w) as (o0 & o1 & Htr & Hres).
  rewrite collect_run.
  destruct (Collectors.gather w) as [w2 res]. cbn [fst snd] in *.
  exists o0, o1.
  destruct o0 as [[]|e0], o1 as [r|e1]; subst res.
  - destruct (second_stage_trace r w2) as (o2 & Hs).
    eexists. split.
    + cbn [snd]. rewrite (Hs _ eq_refl), Htr, <- app_assoc. reflexivity.
    + exists o2. eexists. split; [reflexivity |].
      destruct o2; [right; eexists; reflexivity | left; reflexivity].
  - exists []. split; [by rewrite app_nil_r | reflexivity].
  - exists []. split; [by rewrite app_nil_r | reflexivity].
  - exists []. split; [by rewrite app_nil_r | reflexivity].
Qed.

End OrchestratorEvents.

(** C3: in every orchestrated run, whenever [collect] of the Weather or News
    collector is invoked, [collect] of the CurrencyRates and of the Country
    collector have completed before, and the locations passed in are exactly
    the value the Country collector returned; and whenever the first stage
    returns, the Weather collector is invoked with that value. *)
Theorem orchestration_order `{Settings} `{Clients} `{Pydantic}
  (w : World) (c : category) (arg : option (list LocationDTO)) (pre post : list event) :
  (c = Weather \/ c = News ->
   trace (fst (Collectors.collect w)) = (trace w ++ pre ++ Invoked c arg :: post)%list ->
   In (Completed CurrencyRates None) pre /\ In (Completed Country arg) pre) /\
  (forall w2 r, Collectors.gather w = (w2, Return (tt, r)) ->
   exists rest, trace (fst (Collectors.collect w)) = (trace w2 ++ Invoked Weather r :: rest)%list).
Proof.
  split.
  - intros Hc Htr.
    destruct (collect_events w) as (o0 & o1 & evs2 & Hev & Hshape).
    rewrite Hev in Htr. apply app_inv_head in Htr.
    destruct o0 as [[]|e0], o1 as [r|e1]; cbn [done_event id] in *.
    + destruct Hshape as (o2 & tl & -> & Htl).
      assert (Hpre : forall ev, ev = Completed CurrencyRates None \/ ev = Completed Country r ->
                In ev [Invoked CurrencyRates None; Completed CurrencyRates None;
                       Invoked Country None; Completed Country r]).
      { intros ev [-> | ->]; cbn; auto. }
      destruct Htl as [-> | [o3 ->]]; cbn [app] in Htr;
        repeat (destruct pre as [|? pre];
                [ cbn [app] in Htr; inversion Htr; subst;
                  try (destruct o2; discriminate); try (destruct o3; discriminate);
                  try (destruct Hc; discriminate)
                | cbn [app] in Htr; inversion Htr; subst; clear Htr;
                  match goal with Hx : _ = (pre ++ _)%list |- _ => rename Hx into Htr end ]);
        try (split; cbn; auto 10);
        try (destruct pre; discriminate).
    + subst evs2. cbn [app] in Htr.
      repeat (destruct pre as [|? pre];
              [ cbn [app] in Htr; inversion Htr; subst; try (destruct Hc; discriminate)
              | cbn [app] in Htr; inversion Htr; subst; clear Htr;
                match goal with Hx : _ = (pre ++ _)%list |- _ => rename Hx into Htr end ]);
        try (destruct pre; discriminate).
    + subst evs2. cbn [app] in Htr.
      repeat (destruct pre as [|? pre];
              [ cbn [app] in Htr; inversion Htr; subst; try (destruct Hc; discriminate)
              | cbn [app] in Htr; inversion Htr; subst; clear Htr;
                match goal with Hx : _ = (pre ++ _)%list |- _ => rename Hx into Htr end ]);
        try (destruct pre; discriminate).
    + subst evs2. cbn [app] in Htr.
      repeat (destruct pre as [|? pre];
              [ cbn [app] in Htr; inversion Htr; subst; try (destruct Hc; discriminate)
              | cbn [app] in Htr; inversion Htr; subst; clear Htr;
                match goal with Hx : _ = (pre ++ _)%list |- _ => rename Hx into Htr end ]);
        try (destruct pre; discriminate).
  - intros w2 r Hg. rewrite collect_run, Hg. cbn [snd].
    destruct (second_stage_trace r w2) as (o2 & Hs).
    eexists. apply (Hs _ eq_refl).
Qed.

Lemma orchestration_order_witness :
  In (Completed CurrencyRates None)
     [Invoked CurrencyRates None; Completed CurrencyRates None;
      Invoked Country None; Completed Country (Some [Examples.aland]);
      Invoked Weather (Some [Examples.aland]); Completed Weather None] /\
  In (Completed Country (Some [Examples.aland]))
     [Invoked CurrencyRates None; Completed CurrencyRates None;
      Invoked Country None; Completed Country (Some [Examples.aland]);
      Invoked Weather (Some [Examples.aland]); Completed Weather None].
Proof.
  apply (proj1 (@orchestration_order Examples.settings Examples.ok_clients
                  Examples.exact_pydantic (Examples.empty_world 0) News
                  (Some [Examples.aland])
                  [Invoked CurrencyRates None; Completed CurrencyRates None;
                   Invoked Country None; Completed Country (Some [Examples.aland]);
                   Invoked Weather (Some [Examples.aland]); Completed Weather None]
                  [Completed News None])).
  - right. reflexivity.
  - vm_compute. reflexivity.
Defined.

(** ** A failing branch of the first stage *)

(** C6, as the code has it.  When the CurrencyRates provider answers with
    nothing, the CurrencyRates branch completes without touching a cache file
    and the Country branch runs on that state; when the first stage returns,
    the orchestrator goes on to the Weather and News collectors with the
    result of the Country collector; and when a branch of the first stage
    raises, the exception leaves the orchestrator and the second stage is not
    run. *)
Theorem first_stage_failure `{Settings} `{Clients} `{Pydantic} (w : World) :
  (empty_answer (get_rates (length (calls w))) ->
   exists w1,
     Collectors.invoke CurrencyRates None (fun _ => None) CurrencyRatesCollector.collect w
       = (w1, Return tt) /\
     files w1 = files w /\
     Collectors.gather w =
       (fst (Collectors.invoke Country None id CountryCollector.collect w1),
        match snd (Collectors.invoke Country None id CountryCollector.collect w1) with
        | Return r => Return (tt, r)
        | Raise e => Raise e
        end)) /\
  (forall w2 r, Collectors.gather w = (w2, Return (tt, r)) ->
   Collectors.collect w = second_stage r w2 /\
   In (Invoked Weather r) (trace (fst (Collectors.collect w)))) /\
  (forall w2 e, Collectors.gather w = (w2, Raise e) ->
   Collectors.collect w = (w2, Raise e)).
Proof.
  split; [| split].
  - intros He.
    set (w0 := set_trace w (trace w ++ [Invoked CurrencyRates None])).
    assert (He0 : empty_answer (get_rates (length (calls w0)))) by exact He.
    destruct (refresh_empty CurrencyRatesCollector.get_file_path
                CurrencyRatesCollector.get_cache_ttl GetRates get_rates w0 He0)
      as [Hfiles Hret].
    assert (Hinv : Collectors.invoke CurrencyRates None (fun _ : unit => None)
                     CurrencyRatesCollector.collect w
                   = (set_trace (fst (CurrencyRatesCollector.collect w0))
                        (trace (fst (CurrencyRatesCollector.collect w0))
                           ++ [Completed CurrencyRates None]), Return tt)).
    { unfold Collectors.invoke. fold w0. rewrite currency_collect_refresh in *.
      destruct (refresh _ _ _ _ w0) as [w' o]. cbn [fst snd] in *. subst o. reflexivity. }
    eexists. split; [exact Hinv |]. split.
    + cbn [files set_files set_trace]. rewrite currency_collect_refresh. exact Hfiles.
    + rewrite gather_run. cbv zeta. rewrite Hinv. cbn [fst snd]. reflexivity.
  - intros w2 r Hg. split.
    + rewrite collect_run, Hg. reflexivity.
    + rewrite collect_run, Hg. cbn [snd].
      destruct (second_stage_trace r w2) as (o2 & Hs). rewrite (Hs _ eq_refl).
      apply in_or_app. right. by left.
  - intros w2 e Hg. by rewrite collect_run, Hg.
Qed.

Lemma first_stage_failure_witness :
  exists w1,
    @Collectors.invoke unit CurrencyRates None (fun _ => None)
      (@CurrencyRatesCollector.collect Examples.settings Examples.absent_clients)
      (Examples.empty_world 0)
      = (w1, Return tt) /\
    files w1 = files (Examples.empty_world 0) /\
    @Collectors.gather Examples.settings Examples.absent_clients Examples.exact_pydantic
      (Examples.empty_world 0) =
      (fst (Collectors.invoke Country None id
              (@CountryCollector.collect Examples.settings Examples.absent_clients
                 Examples.exact_pydantic) w1),
       match snd (Collectors.invoke Country None id
                    (@CountryCollector.collect Examples.settings Examples.absent_clients
                       Examples.exact_pydantic) w1) with
       | Return r => Return (tt, r)
       | Raise e => Raise e
       end).
Proof.
  apply (proj1 (@first_stage_failure Examples.settings Examples.absent_clients
                  Examples.exact_pydantic (Examples.empty_world 0))).
  exists PyNone. split; reflexivity.
Defined.

(** A run on an empty cache root in which the currency provider cannot be
    reached: the Country branch completes, the orchestrator raises the
    client's error and invokes neither the Weather nor the News collector. *)
Lemma first_stage_exception_stops_the_run :
  @get_rates Examples.no_rates_clients 0 = Raise ClientError /\
  @Collectors.collect Examples.settings Examples.no_rates_clients Examples.exact_pydantic
    (Examples.empty_world 0)
  = (mkWorld {["media/country.json" := File 0 (Dumped (PyList [Examples.aland_item]))]} ∅ 0
       [("media/currency_rates.json", GetRates); ("media/country.json", GetCountries)]
       [Invoked CurrencyRates None; Failed CurrencyRates ClientError;
        Invoked Country None; Completed Country (Some [Examples.aland])],
     Raise ClientError).
Proof. split; reflexivity. Qed.

(** A run on an empty cache root in which every provider answers with
    nothing: the CurrencyRates branch completes, the Country branch raises,
    and so does the orchestrator. *)
Lemma orchestrator_without_cache :
  @Collectors.collect Examples.settings Examples.absent_clients Examples.exact_pydantic
    (Examples.empty_world 0)
  = (mkWorld ∅ ∅ 0
       [("media/currency_rates.json", GetRates); ("media/country.json", GetCountries)]
       [Invoked CurrencyRates None; Completed CurrencyRates None;
        Invoked Country None; Failed Country FileNotFoundError],
     Raise FileNotFoundError).
Proof. reflexivity. Qed.

(** ** Collecting twice in a row *)

Lemma calls_for_snoc (p path : string) (req : request) (cs : list (string * request)) :
  length (calls_for p (cs ++ [(path, req)])) =
  if decide (path = p) then S (length (calls_for p cs)) else length (calls_for p cs).
Proof.
  unfold calls_for. rewrite filter_app, length_app.
  destruct (decide (path = p)) as [Heq|Hne].
  - rewrite (filter_cons_True _ (path, req) []) by exact Heq. cbn. lia.
  - rewrite (filter_cons_False _ (path, req) []) by exact Hne. cbn. lia.
Qed.

Lemma asks_once_refresh (path : string) (ttl : Z) (req : request)
  (answer : nat -> outcome pyval) :
  0 < ttl -> (forall n, good_answer (answer n)) -> asks_once ttl (refresh path ttl req answer).
Proof.
  intros Httl Hgood c0 base w Hclock Hinv. split; [| apply refresh_clock].
  rewrite refresh_run.
  destruct (CacheStore.isStale w path ttl) eqn:Hstale; [| exact Hinv].
  destruct (Hgood (length (calls w))) as (v & -> & ->). cbn [fst].
  intros p. cbn [calls files set_calls set_files]. rewrite calls_for_snoc.
  destruct (decide (path = p)) as [<- | Hne].
  - right. destruct (Hinv path) as [Hsame | (Hone & f & Hf & Hm)].
    + split; [by rewrite Hsame |]. eexists. split; [apply lookup_insert_eq |]. cbn. lia.
    + rewrite (isStale_present _ _ _ _ Hf) in Hstale.
      apply bool_decide_eq_true in Hstale. lia.
  - rewrite lookup_insert_ne by exact Hne. apply Hinv.
Qed.

Lemma asks_once_bind {A B} (ttl : Z) (m : M A) (k : A -> M B) :
  asks_once ttl m -> (forall a, asks_once ttl (k a)) -> asks_once ttl (bind m k).
Proof.
  intros Hm Hk c0 base w Hclock Hinv. unfold bind.
  destruct (Hm c0 base w Hclock Hinv) as [Hinv' Hclock'].
  destruct (m w) as [w' [a|e]]; cbn [fst] in *; [| by split].
  destruct (Hk a c0 base w') as [Hinv'' Hclock'']; [lia | exact Hinv' |].
  split; [exact Hinv'' | lia].
Qed.

Lemma asks_once_observer {A} (ttl : Z) (m : M A) : observer m -> asks_once ttl m.
Proof. intros Hm c0 base w _ Hinv. by rewrite Hm. Qed.

Lemma asks_once_for_each {A} (ttl : Z) (xs : list A) (body : A -> M unit) :
  (forall x, asks_once ttl (body x)) -> asks_once ttl (for_each xs body).
Proof.
  intros Hbody. induction xs as [|x xs IH]; cbn [for_each].
  - apply asks_once_observer, observer_ret.
  - apply asks_once_bind; [apply Hbody | intros _; exact IH].
Qed.

Lemma asks_once_ensure_dir (ttl : Z) (d : string) : asks_once ttl (ensure_dir d).
Proof.
  intros c0 base w _ Hinv. split; [| apply ensure_dir_clock].
  intros p. rewrite ensure_dir_calls, ensure_dir_files. apply Hinv.
Qed.

(** Two calls in a row, the second within the TTL of the first, ask for
    every path at most once. *)
Lemma asks_once_twice {A} (ttl : Z) (m : M A) (t' : Z) (w : World) (p : string) :
  asks_once ttl m -> 0 < ttl -> clock w <= t' < clock w + ttl ->
  (length (calls_for p (calls (twice m t' w))) <= S (length (calls_for p (calls w))))%nat.
Proof.
  intros Hm Httl Ht. unfold twice.
  destruct (Hm (clock w) (calls w) w) as [Hinv1 Hclock1]; [lia | by left |].
  destruct (Hm (clock w) (calls w) (set_clock (fst (m w)) t')) as [Hinv2 _].
  - cbn. lia.
  - intros q. cbn [calls files set_clock]. apply Hinv1.
  - destruct (Hinv2 p) as [-> | [-> _]]; lia.
Qed.

Section Twice.
Context `{Settings} `{Clients} `{Pydantic}.

Lemma asks_once_country :
  0 < CACHE_TTL_COUNTRY -> (forall n, good_answer (get_countries n)) ->
  asks_once CACHE_TTL_COUNTRY CountryCollector.collect.
Proof.
  intros Httl Hgood. rewrite country_collect_refresh.
  apply asks_once_bind; [by apply asks_once_refresh |].
  intros _. apply asks_once_observer, observer_read_back.
Qed.

Lemma asks_once_currency :
  0 < CACHE_TTL_CURRENCY_RATES -> (forall n, good_answer (get_rates n)) ->
  asks_once CACHE_TTL_CURRENCY_RATES CurrencyRatesCollector.collect.
Proof. intros Httl Hgood. rewrite currency_collect_refresh. by apply asks_once_refresh. Qed.

Lemma asks_once_weather (ls : option (list LocationDTO)) :
  0 < CACHE_TTL_WEATHER -> (forall n q, good_answer (get_weather n q)) ->
  asks_once CACHE_TTL_WEATHER (WeatherCollector.collect ls).
Proof.
  intros Httl Hgood. unfold WeatherCollector.collect. cbv zeta.
  fold (ensure_dir (MEDIA_PATH +:+ "/weather")).
  apply asks_once_bind; [apply asks_once_ensure_dir | intros _].
  apply asks_once_bind; [apply asks_once_observer, observer_lift | intros locations].
  apply asks_once_for_each. intros l. rewrite weather_location_refresh.
  apply asks_once_refresh; [exact Httl | intros n; apply Hgood].
Qed.

Lemma asks_once_news (ls : option (list LocationDTO)) :
  0 < CACHE_TTL_NEWS -> (forall n q, good_answer (get_news n q)) ->
  asks_once CACHE_TTL_NEWS (NewsCollector.collect ls).
Proof.
  intros Httl Hgood. unfold NewsCollector.collect. cbv zeta.
  fold (ensure_dir (MEDIA_PATH +:+ "/news")).
  apply asks_once_bind; [apply asks_once_ensure_dir | intros _].
  apply asks_once_bind; [apply asks_once_observer, observer_lift | intros locations].
  apply asks_once_for_each. intros l. rewrite news_location_refresh.
  apply asks_once_refresh; [exact Httl | intros n; apply Hgood].
Qed.

End Twice.

(** C7, as the code has it: when the TTL of a collector is positive and its
    provider answers every call with a non-empty document, two calls of
    [collect] in a row (the second within the TTL of the first), from any
    cache state, make at most one remote call for each cache path: the write
    of the first call makes the entry fresh for the second. *)
Theorem collect_twice `{Settings} `{Clients} `{Pydantic}
  (w : World) (t' : Z) (ls : option (list LocationDTO)) (p : string) :
  (0 < CACHE_TTL_COUNTRY -> (forall n, good_answer (get_countries n)) ->
   clock w <= t' < clock w + CACHE_TTL_COUNTRY ->
   (length (calls_for p (calls (twice CountryCollector.collect t' w)))
    <= S (length (calls_for p (calls w))))%nat) /\
  (0 < CACHE_TTL_CURRENCY_RATES -> (forall n, good_answer (get_rates n)) ->
   clock w <= t' < clock w + CACHE_TTL_CURRENCY_RATES ->
   (length (calls_for p (calls (twice CurrencyRatesCollector.collect t' w)))
    <= S (length (calls_for p (calls w))))%nat) /\
  (0 < CACHE_TTL_WEATHER -> (forall n q, good_answer (get_weather n q)) ->
   clock w <= t' < clock w + CACHE_TTL_WEATHER ->
   (length (calls_for p (calls (twice (WeatherCollector.collect ls) t' w)))
    <= S (length (calls_for p (calls w))))%nat) /\
  (0 < CACHE_TTL_NEWS -> (forall n q, good_answer (get_news n q)) ->
   clock w <= t' < clock w + CACHE_TTL_NEWS ->
   (length (calls_for p (calls (twice (NewsCollector.collect ls) t' w)))
    <= S (length (calls_for p (calls w))))%nat).
Proof.
  split; [| split; [| split]]; intros Httl Hgood Ht.
  - by apply (asks_once_twice CACHE_TTL_COUNTRY); [apply asks_once_country | |].
  - by apply (asks_once_twice CACHE_TTL_CURRENCY_RATES); [apply asks_once_currency | |].
  - by apply (asks_once_twice CACHE_TTL_WEATHER); [apply asks_once_weather | |].
  - by apply (asks_once_twice CACHE_TTL_NEWS); [apply asks_once_news | |].
Qed.

Lemma collect_twice_witness :
  (length (calls_for "media/country.json"
             (calls (twice (@CountryCollector.collect Examples.settings Examples.ok_clients
                              Examples.exact_pydantic) 5 (Examples.empty_world 0))))
   <= 1)%nat /\
  (length (calls_for "media/weather/mariehamn_ax.json"
             (calls (twice (@WeatherCollector.collect Examples.settings Examples.ok_clients
                              (Some [Examples.aland; Examples.aland])) 5
                       (Examples.empty_world 0))))
   <= 1)%nat.
Proof.
  split.
  - apply (proj1 (@collect_twice Examples.settings Examples.ok_clients Examples.exact_pydantic
                    (Examples.empty_world 0) 5 None "media/country.json")).
    + reflexivity.
    + intros n. eexists. split; reflexivity.
    + cbn. lia.
  - apply (proj1 (proj2 (proj2 (@collect_twice Examples.settings Examples.ok_clients
                    Examples.exact_pydantic (Examples.empty_world 0) 5
                    (Some [Examples.aland; Examples.aland])
                    "media/weather/mariehamn_ax.json")))).
    + reflexivity.
    + intros n q. eexists. split; reflexivity.
    + cbn. lia.
Defined.

(** From an empty cache root, with a provider that answers with nothing, two
    calls of [CurrencyRatesCollector.collect] at the same instant make two
    remote calls for the one currency key. *)
Lemma collect_twice_calls_twice :
  @get_rates Examples.absent_clients 0 = Return PyNone /\
  @get_rates Examples.absent_clients 1 = Return PyNone /\
  calls_for "media/currency_rates.json"
    (calls (twice (@CurrencyRatesCollector.collect Examples.settings Examples.absent_clients)
              0 (Examples.empty_world 0)))
  = [("media/currency_rates.json", GetRates); ("media/currency_rates.json", GetRates)].
Proof. repeat split. Qed.

(** * Further properties of the collectors *)

(** ** A fresh cache is left alone *)

Lemma isStale_same (w1 w2 : World) (p : string) (ttl : Z) :
  files w1 !! p = files w2 !! p -> clock w1 = clock w2 ->
  CacheStore.isStale w1 p ttl = CacheStore.isStale w2 p ttl.
Proof.
  intros Hf Hc. unfold CacheStore.isStale, CacheStore.exists_, CacheStore.age.
  by rewrite Hf, Hc.
Qed.

Lemma refresh_fresh (path : string) (ttl : Z) (req : request)
  (answer : nat -> outcome pyval) (w : World) :
  CacheStore.isStale w path ttl = false -> refresh path ttl req answer w = (w, Return tt).
Proof. intros Hs. by rewrite refresh_run, Hs. Qed.

Lemma for_each_fresh {A} (xs : list A) (body : A -> M unit) (w : World) :
  (forall x, In x xs -> body x w = (w, Return tt)) ->
  for_each xs body w = (w, Return tt).
Proof.
  induction xs as [|x xs IH]; intros Hb; cbn [for_each]; [reflexivity |].
  rewrite bind_run, (Hb x (or_introl eq_refl)). apply IH. intros y Hy. apply Hb. by right.
Qed.

(** X1: A cache hit: a collector whose entry is not stale makes no remote call
    and writes nothing.  The CurrencyRates collector returns at once, the
    Country collector returns what the cached entry holds, and the Weather
    and News collectors, when the entries of all their locations are fresh,
    leave every cache file and the log of remote calls as they were. *)
Theorem collect_cache_hit `{Settings} `{Clients} `{Pydantic}
  (w : World) (ls : list LocationDTO) :
  (CacheStore.isStale w CurrencyRatesCollector.get_file_path CACHE_TTL_CURRENCY_RATES = false ->
   CurrencyRatesCollector.collect w = (w, Return tt)) /\
  (CacheStore.isStale w CountryCollector.get_file_path CACHE_TTL_COUNTRY = false ->
   CountryCollector.collect w = CountryCollector.read_back w /\
   fst (CountryCollector.collect w) = w) /\
  ((forall l, In l ls ->
      CacheStore.isStale w (WeatherCollector.get_file_path (WeatherCollector.filename_of l))
        CACHE_TTL_WEATHER = false) ->
   snd (WeatherCollector.collect (Some ls) w) = Return tt /\
   files (fst (WeatherCollector.collect (Some ls) w)) = files w /\
   calls (fst (WeatherCollector.collect (Some ls) w)) = calls w) /\
  ((forall l, In l ls ->
      CacheStore.isStale w (NewsCollector.get_file_path (NewsCollector.filename_of l))
        CACHE_TTL_NEWS = false) ->
   snd (NewsCollector.collect (Some ls) w) = Return tt /\
   files (fst (NewsCollector.collect (Some ls) w)) = files w /\
   calls (fst (NewsCollector.collect (Some ls) w)) = calls w).
Proof.
  split; [| split; [| split]].
  - intros Hs. rewrite currency_collect_refresh. by apply refresh_fresh.
  - intros Hs.
    assert (E : CountryCollector.collect w = CountryCollector.read_back w).
    { rewrite country_collect_refresh, bind_run, (refresh_fresh _ _ _ _ _ Hs). reflexivity. }
    split; [exact E |]. rewrite E. apply observer_read_back.
  - intros Hs. rewrite weather_collect_run. cbv zeta.
    rewrite for_each_fresh.
    + cbn [fst snd]. by rewrite ensure_dir_files, ensure_dir_calls.
    + intros l Hl. rewrite weather_location_refresh. apply refresh_fresh.
      rewrite <- (Hs l Hl). apply isStale_same; [by rewrite ensure_dir_files |].
      apply ensure_dir_clock.
  - intros Hs. rewrite news_collect_run. cbv zeta.
    rewrite for_each_fresh.
    + cbn [fst snd]. by rewrite ensure_dir_files, ensure_dir_calls.
    + intros l Hl. rewrite news_location_refresh. apply refresh_fresh.
      rewrite <- (Hs l Hl). apply isStale_same; [by rewrite ensure_dir_files |].
      apply ensure_dir_clock.
Qed.

Lemma collect_cache_hit_witness :
  @CurrencyRatesCollector.collect Examples.settings Examples.absent_clients
    (Examples.full_world 10) = (Examples.full_world 10, Return tt) /\
  fst (@CountryCollector.collect Examples.settings Examples.absent_clients
         Examples.exact_pydantic (Examples.full_world 10)) = Examples.full_world 10 /\
  calls (fst (@WeatherCollector.collect Examples.settings Examples.absent_clients
                (Some [Examples.aland]) (Examples.full_world 10))) = [] /\
  calls (fst (@NewsCollector.collect Examples.settings Examples.absent_clients
                (Some [Examples.aland]) (Examples.full_world 10))) = [].
Proof.
  pose proof (@collect_cache_hit Examples.settings Examples.absent_clients
                Examples.exact_pydantic (Examples.full_world 10) [Examples.aland])
    as (H1 & H2 & H3 & H4).
  split; [apply H1; reflexivity |].
  split; [apply H2; reflexivity |].
  split.
  - apply H3. intros l [<- | []]. reflexivity.
  - apply H4. intros l [<- | []]. reflexivity.
Defined.

(** ** Nothing is ever deleted *)

Lemma grows_refl (w : World) : grows w w.
Proof. split; [auto | set_solver]. Qed.

Lemma grows_trans (a b c : World) : grows a b -> grows b c -> grows a c.
Proof. intros [H1 H2] [H3 H4]. split; [auto | set_solver]. Qed.

Lemma grows_same (a b : World) : files a = files b -> dirs a = dirs b -> grows a b.
Proof. intros Hf Hd. split; [by rewrite Hf | by rewrite Hd]. Qed.

Lemma grows_refresh (path : string) (ttl : Z) (req : request)
  (answer : nat -> outcome pyval) (w : World) :
  grows w (fst (refresh path ttl req answer w)).
Proof.
  rewrite refresh_run.
  destruct (CacheStore.isStale w path ttl); [| apply grows_refl].
  destruct (answer (length (calls w))) as [v|e]; [| by apply grows_same].
  destruct (py_truthy v); [| by apply grows_same].
  split; [| cbn; set_solver]. intros p Hp. cbn.
  destruct (decide (path = p)) as [<- | Hne].
  - rewrite lookup_insert_eq. eauto.
  - by rewrite lookup_insert_ne.
Qed.

Lemma grows_ensure_dir (d : string) (w : World) : grows w (fst (ensure_dir d w)).
Proof.
  rewrite ensure_dir_run. cbn [fst]. destruct (_ || _); [apply grows_refl |].
  split; [by cbn | cbn; set_solver].
Qed.

Lemma grows_invoke {A} (c : category) (arg : option (list LocationDTO))
  (result_of : A -> option (list LocationDTO)) (m : M A) (w : World) :
  (forall w0, grows w0 (fst (m w0))) ->
  grows w (fst (Collectors.invoke c arg result_of m w)).
Proof.
  intros Hm. unfold Collectors.invoke.
  specialize (Hm (set_trace w (trace w ++ [Invoked c arg]))).
  destruct (m _) as [w' [a|e]]; exact Hm.
Qed.

Section Grows.
Context `{Settings} `{Clients} `{Pydantic}.

Lemma grows_currency (w : World) : grows w (fst (CurrencyRatesCollector.collect w)).
Proof. rewrite currency_collect_refresh. apply grows_refresh. Qed.

Lemma grows_country (w : World) : grows w (fst (CountryCollector.collect w)).
Proof. rewrite country_collect_world. apply grows_refresh. Qed.

Lemma grows_weather (ls : option (list LocationDTO)) (w : World) :
  grows w (fst (WeatherCollector.collect ls w)).
Proof.
  rewrite weather_collect_run. cbv zeta.
  eapply grows_trans; [apply (grows_ensure_dir (MEDIA_PATH +:+ "/weather")) |].
  destruct ls as [ls|]; [| apply grows_refl].
  apply (for_each_maintains grows); [apply grows_refl | apply grows_trans |].
  intros l w1 _. rewrite weather_location_refresh. apply grows_refresh.
Qed.

Lemma grows_news (ls : option (list LocationDTO)) (w : World) :
  grows w (fst (NewsCollector.collect ls w)).
Proof.
  rewrite news_collect_run. cbv zeta.
  eapply grows_trans; [apply (grows_ensure_dir (MEDIA_PATH +:+ "/news")) |].
  destruct ls as [ls|]; [| apply grows_refl].
  apply (for_each_maintains grows); [apply grows_refl | apply grows_trans |].
  intros l w1 _. rewrite news_location_refresh. apply grows_refresh.
Qed.

Lemma grows_gather (w : World) : grows w (fst (Collectors.gather w)).
Proof.
  rewrite gather_run. cbv zeta. cbn [fst].
  eapply grows_trans.
  - apply (grows_invoke CurrencyRates None (fun _ : unit => None)). apply grows_currency.
  - apply (grows_invoke Country None id). apply grows_country.
Qed.

Lemma grows_second_stage (r : option (list LocationDTO)) (w : World) :
  grows w (fst (second_stage r w)).
Proof.
  unfold second_stage. rewrite bind_run.
  pose proof (grows_invoke Weather r (fun _ : unit => None) (WeatherCollector.collect r) w
                (grows_weather r)) as Hw.
  destruct (Collectors.invoke Weather r _ _ w) as [w3 [[]|e]]; cbn [fst] in *; [| exact Hw].
  rewrite bind_run.
  pose proof (grows_invoke News r (fun _ : unit => None) (NewsCollector.collect r) w3
                (grows_news r)) as Hn.
  destruct (Collectors.invoke News r _ _ w3) as [w4 [[]|e]]; cbn [fst] in *;
    eapply grows_trans; eauto.
Qed.

End Grows.

(** X2: no collector and no orchestrated run ever removes a cache file or a
    directory: whatever was stored before is still stored afterwards, also
    when the call raises. *)
Theorem collect_never_deletes `{Settings} `{Clients} `{Pydantic}
  (w : World) (ls : option (list LocationDTO)) :
  grows w (fst (CountryCollector.collect w)) /\
  grows w (fst (CurrencyRatesCollector.collect w)) /\
  grows w (fst (WeatherCollector.collect ls w)) /\
  grows w (fst (NewsCollector.collect ls w)) /\
  grows w (fst (Collectors.gather w)) /\
  grows w (fst (Collectors.collect w)).
Proof.
  split; [apply grows_country |]. split; [apply grows_currency |].
  split; [apply grows_weather |]. split; [apply grows_news |].
  split; [apply grows_gather |].
  rewrite collect_run. pose proof (grows_gather w) as Hg.
  destruct (Collectors.gather w) as [w2 [results|e]]; cbn [fst] in *; [| exact Hg].
  eapply grows_trans; [exact Hg | apply grows_second_stage].
Qed.

(** ** What a successful refresh leaves behind *)

Lemma refresh_establishes (path : string) (ttl : Z) (req : request)
  (answer : nat -> outcome pyval) (w : World) :
  0 < ttl -> good_answer (answer (length (calls w))) ->
  CacheStore.isStale (fst (refresh path ttl req answer w)) path ttl = false /\
  snd (refresh path ttl req answer w) = Return tt.
Proof.
  intros Httl (v & Hv & Ht). rewrite refresh_run.
  destruct (CacheStore.isStale w path ttl) eqn:Hs; [| by split].
  rewrite Hv, Ht. cbn [fst snd]. split; [| reflexivity].
  rewrite (isStale_present _ _ _ (File (clock w) (json_dumps v))).
  - cbn. apply bool_decide_eq_false. lia.
  - cbn. apply lookup_insert_eq.
Qed.

Lemma refresh_keeps_fresh (path : string) (ttl : Z) (req : request)
  (answer : nat -> outcome pyval) (w : World) (p : string) :
  CacheStore.isStale w p ttl = false ->
  CacheStore.isStale (fst (refresh path ttl req answer w)) p ttl = false.
Proof.
  intros Hp. destruct (decide (p = path)) as [-> | Hne].
  - by rewrite (refresh_fresh _ _ _ _ _ Hp).
  - rewrite <- Hp. apply isStale_same; [by apply refresh_other | apply refresh_clock].
Qed.

(** A loop of refresh steps whose providers all answer with a document
    returns, and leaves the entry of every element fresh. *)
Lemma for_each_establishes {A} (path_of : A -> string) (ttl : Z) (req_of : A -> request)
  (answer_of : A -> nat -> outcome pyval) (body : A -> M unit) (xs : list A) :
  (forall x, body x = refresh (path_of x) ttl (req_of x) (answer_of x)) ->
  0 < ttl ->
  (forall x n, In x xs -> good_answer (answer_of x n)) ->
  forall w,
    snd (for_each xs body w) = Return tt /\
    forall x, In x xs -> CacheStore.isStale (fst (for_each xs body w)) (path_of x) ttl = false.
Proof.
  intros Hbody Httl. induction xs as [|x xs IH]; intros Hgood w; cbn [for_each].
  - split; [reflexivity | intros ? []].
  - rewrite bind_run, Hbody.
    destruct (refresh_establishes (path_of x) ttl (req_of x) (answer_of x) w Httl
                (Hgood x _ (or_introl eq_refl))) as [Hfresh Hret].
    destruct (refresh _ _ _ _ w) as [w' o]. cbn [fst snd] in *. subst o.
    destruct (IH (fun y n Hy => Hgood y n (or_intror Hy)) w') as [Hret' Hrest].
    split; [exact Hret' |]. intros y [<- | Hy]; [| by apply Hrest].
    revert Hfresh.
    apply (for_each_maintains
             (fun a b => CacheStore.isStale a (path_of x) ttl = false ->
                         CacheStore.isStale b (path_of x) ttl = false)); [auto | auto |].
    intros z w1 _ Hz. rewrite Hbody. by apply refresh_keeps_fresh.
Qed.

Lemma isStale_false_exists (w : World) (p : string) (ttl : Z) :
  CacheStore.isStale w p ttl = false -> is_Some (files w !! p).
Proof.
  intros Hs. destruct (files w !! p) as [f|] eqn:E; [eauto |].
  rewrite (isStale_absent _ _ _ E) in Hs. discriminate.
Qed.

(** X3: when the TTL is positive and the provider answers every call with a
    document, [collect] of the Weather and of the News collector returns, and
    afterwards every location it was given has a cache entry that is fresh. *)
Theorem collect_establishes_freshness `{Settings} `{Clients}
  (w : World) (ls : list LocationDTO) :
  (0 < CACHE_TTL_WEATHER ->
   (forall l n, In l ls -> good_answer (get_weather n (capital l +:+ "," +:+ alpha2code l))) ->
   snd (WeatherCollector.collect (Some ls) w) = Return tt /\
   forall l, In l ls ->
     is_Some (files (fst (WeatherCollector.collect (Some ls) w))
                !! WeatherCollector.get_file_path (WeatherCollector.filename_of l)) /\
     CacheStore.isStale (fst (WeatherCollector.collect (Some ls) w))
       (WeatherCollector.get_file_path (WeatherCollector.filename_of l))
       CACHE_TTL_WEATHER = false) /\
  (0 < CACHE_TTL_NEWS ->
   (forall l n, In l ls -> good_answer (get_news n (country l))) ->
   snd (NewsCollector.collect (Some ls) w) = Return tt /\
   forall l, In l ls ->
     is_Some (files (fst (NewsCollector.collect (Some ls) w))
                !! NewsCollector.get_file_path (NewsCollector.filename_of l)) /\
     CacheStore.isStale (fst (NewsCollector.collect (Some ls) w))
       (NewsCollector.get_file_path (NewsCollector.filename_of l))
       CACHE_TTL_NEWS = false).
Proof.
  split; intros Httl Hgood.
  - rewrite weather_collect_run. cbv zeta.
    destruct (for_each_establishes
                (fun l => WeatherCollector.get_file_path (WeatherCollector.filename_of l))
                CACHE_TTL_WEATHER
                (fun l => GetWeather (capital l +:+ "," +:+ alpha2code l))
                (fun l n => get_weather n (capital l +:+ "," +:+ alpha2code l))
                WeatherCollector.collect_location ls weather_location_refresh Httl
                (fun l n Hl => Hgood l n Hl)
                (fst (ensure_dir (MEDIA_PATH +:+ "/weather") w))) as [Hret Hfresh].
    split; [exact Hret |]. intros l Hl.
    split; [eapply isStale_false_exists |]; by apply Hfresh.
  - rewrite news_collect_run. cbv zeta.
    destruct (for_each_establishes
                (fun l => NewsCollector.get_file_path (NewsCollector.filename_of l))
                CACHE_TTL_NEWS
                (fun l => GetNews (country l))
                (fun l n => get_news n (country l))
                NewsCollector.collect_location ls news_location_refresh Httl
                (fun l n Hl => Hgood l n Hl)
                (fst (ensure_dir (MEDIA_PATH +:+ "/news") w))) as [Hret Hfresh].
    split; [exact Hret |]. intros l Hl.
    split; [eapply isStale_false_exists |]; by apply Hfresh.
Qed.

Lemma collect_establishes_freshness_witness :
  snd (@WeatherCollector.collect Examples.settings Examples.full_clients
         (Some [Examples.aland]) (Examples.empty_world 7)) = Return tt /\
  snd (@NewsCollector.collect Examples.settings Examples.full_clients
         (Some [Examples.aland]) (Examples.empty_world 7)) = Return tt.
Proof.
  pose proof (@collect_establishes_freshness Examples.settings Examples.full_clients
                (Examples.empty_world 7) [Examples.aland]) as [Hw Hn].
  split.
  - apply Hw; [reflexivity |]. intros l n _. eexists. split; reflexivity.
  - apply Hn; [reflexivity |]. intros l n _. eexists. split; reflexivity.
Defined.

(** ** Partial refreshes *)

Lemma refresh_returns (path : string) (ttl : Z) (req : request)
  (answer : nat -> outcome pyval) (w : World) :
  (exists u, answer (length (calls w)) = Return u) ->
  snd (refresh path ttl req answer w) = Return tt.
Proof.
  intros [u Hu]. rewrite refresh_run.
  destruct (CacheStore.isStale w path ttl); [| reflexivity].
  rewrite Hu. by destruct (py_truthy u).
Qed.

Lemma refresh_writes (path : string) (ttl : Z) (req : request)
  (answer : nat -> outcome pyval) (w : World) (v : pyval) :
  answer (length (calls w)) = Return v -> py_truthy v = true ->
  files w !! path = Some (File (clock w) (json_dumps v)) \/
  CacheStore.isStale w path ttl = true ->
  files (fst (refresh path ttl req answer w)) !! path = Some (File (clock w) (json_dumps v)).
Proof.
  intros Hv Ht Hpre. rewrite refresh_run.
  destruct (CacheStore.isStale w path ttl) eqn:Hs.
  - rewrite Hv, Ht. cbn. apply lookup_insert_eq.
  - destruct Hpre as [Hw | Hw]; [exact Hw | discriminate].
Qed.

Lemma for_each_writes {A} (path_of : A -> string) (ttl : Z) (req_of : A -> request)
  (answer_of : A -> nat -> outcome pyval) (body : A -> M unit) (xs : list A)
  (p : string) (v : pyval) (c : Z) :
  (forall x, body x = refresh (path_of x) ttl (req_of x) (answer_of x)) ->
  (forall x n, In x xs -> exists u, answer_of x n = Return u) ->
  (forall x n, In x xs -> path_of x = p -> answer_of x n = Return v) ->
  py_truthy v = true ->
  forall w, clock w = c ->
    (files w !! p = Some (File c (json_dumps v)) ->
     files (fst (for_each xs body w)) !! p = Some (File c (json_dumps v))) /\
    (CacheStore.isStale w p ttl = true -> (exists x, In x xs /\ path_of x = p) ->
     files (fst (for_each xs body w)) !! p = Some (File c (json_dumps v))).
Proof.
  intros Hbody. induction xs as [|x xs IH]; intros Hret Hans Ht w Hc; cbn [for_each].
  - split; [auto | intros _ (x & [] & _)].
  - rewrite bind_run, Hbody.
    pose proof (refresh_returns (path_of x) ttl (req_of x) (answer_of x) w
                  (Hret x _ (or_introl eq_refl))) as Hr.
    pose proof (refresh_clock (path_of x) ttl (req_of x) (answer_of x) w) as Hck.
    destruct (IH (fun y n Hy => Hret y n (or_intror Hy))
                 (fun y n Hy => Hans y n (or_intror Hy)) Ht
                 (fst (refresh (path_of x) ttl (req_of x) (answer_of x) w)))
      as [IH2 IH1]; [lia |].
    destruct (decide (path_of x = p)) as [Hp | Hp].
    + assert (Hw : files w !! p = Some (File c (json_dumps v)) \/
                   CacheStore.isStale w p ttl = true ->
                   files (fst (refresh (path_of x) ttl (req_of x) (answer_of x) w)) !! p
                   = Some (File c (json_dumps v))).
      { intros Hpre. rewrite <- Hp in *. rewrite <- Hc in *.
        apply refresh_writes; [by apply Hans; [left |] | exact Ht | exact Hpre]. }
      destruct (refresh _ _ _ _ w) as [w' o]. cbn [fst snd] in *. subst o.
      split; [intros H2 | intros H1 _]; apply IH2, Hw; auto.
    + pose proof (refresh_other (path_of x) ttl (req_of x) (answer_of x) w p
                    (not_eq_sym Hp)) as Ho.
      assert (Hst : CacheStore.isStale
                      (fst (refresh (path_of x) ttl (req_of x) (answer_of x) w)) p ttl
                    = CacheStore.isStale w p ttl) by (by apply isStale_same).
      destruct (refresh _ _ _ _ w) as [w' o]. cbn [fst snd] in *. subst o.
      split.
      * intros H2. apply IH2. by rewrite Ho.
      * intros H1 (y & [<- | Hy] & Hyp); [done |].
        apply IH1; [by rewrite Hst | eauto].
Qed.

(** X4: A refresh may succeed for one location and fail for another in the same
    call.  If the entry of location [a] is stale and the provider answers for
    it with the document [va], while for location [b] it answers with
    nothing, then after [collect] the entry of [a] holds [va], written now,
    the entry of [b] is as it was, and [collect] has returned. *)
Theorem partial_refresh `{Settings} `{Clients}
  (w : World) (ls : list LocationDTO) (a b : LocationDTO) (va : pyval) :
  let wpath l := WeatherCollector.get_file_path (WeatherCollector.filename_of l) in
  let npath l := NewsCollector.get_file_path (NewsCollector.filename_of l) in
  In a ls -> In b ls -> py_truthy va = true ->
  ((forall l n, In l ls -> exists u, get_weather n (capital l +:+ "," +:+ alpha2code l) = Return u) ->
   (forall l n, In l ls -> wpath l = wpath a ->
      get_weather n (capital l +:+ "," +:+ alpha2code l) = Return va) ->
   (forall l n, In l ls -> wpath l = wpath b ->
      empty_answer (get_weather n (capital l +:+ "," +:+ alpha2code l))) ->
   CacheStore.isStale w (wpath a) CACHE_TTL_WEATHER = true ->
   snd (WeatherCollector.collect (Some ls) w) = Return tt /\
   files (fst (WeatherCollector.collect (Some ls) w)) !! wpath a
     = Some (File (clock w) (Dumped va)) /\
   files (fst (WeatherCollector.collect (Some ls) w)) !! wpath b = files w !! wpath b) /\
  ((forall l n, In l ls -> exists u, get_news n (country l) = Return u) ->
   (forall l n, In l ls -> npath l = npath a -> get_news n (country l) = Return va) ->
   (forall l n, In l ls -> npath l = npath b -> empty_answer (get_news n (country l))) ->
   CacheStore.isStale w (npath a) CACHE_TTL_NEWS = true ->
   snd (NewsCollector.collect (Some ls) w) = Return tt /\
   files (fst (NewsCollector.collect (Some ls) w)) !! npath a
     = Some (File (clock w) (Dumped va)) /\
   files (fst (NewsCollector.collect (Some ls) w)) !! npath b = files w !! npath b).
Proof.
  intros wpath npath Ha Hb Ht. split; intros Hret Hans Hemp Hstale.
  - split; [| split].
    + rewrite weather_collect_run. cbv zeta. apply for_each_returns.
      intros l w1 Hl. rewrite weather_location_refresh. apply refresh_returns. by apply Hret.
    + rewrite weather_collect_run. cbv zeta.
      set (w0 := fst (ensure_dir (MEDIA_PATH +:+ "/weather") w)).
      destruct (for_each_writes wpath CACHE_TTL_WEATHER
                  (fun l => GetWeather (capital l +:+ "," +:+ alpha2code l))
                  (fun l n => get_weather n (capital l +:+ "," +:+ alpha2code l))
                  WeatherCollector.collect_location ls (wpath a) va (clock w)
                  weather_location_refresh
                  (fun l n Hl => Hret l n Hl) (fun l n Hl Hp => Hans l n Hl Hp) Ht w0)
        as [_ Hw]; [apply ensure_dir_clock |].
      apply Hw; [| eauto].
      rewrite <- Hstale. apply isStale_same; [by unfold w0; rewrite ensure_dir_files |].
      apply ensure_dir_clock.
    + by apply (proj1 (proj2 (proj2 (@collect_empty_answer _ _ Examples.exact_pydantic
                                         w ls (wpath b))))).
  - split; [| split].
    + rewrite news_collect_run. cbv zeta. apply for_each_returns.
      intros l w1 Hl. rewrite news_location_refresh. apply refresh_returns. by apply Hret.
    + rewrite news_collect_run. cbv zeta.
      set (w0 := fst (ensure_dir (MEDIA_PATH +:+ "/news") w)).
      destruct (for_each_writes npath CACHE_TTL_NEWS
                  (fun l => GetNews (country l))
                  (fun l n => get_news n (country l))
                  NewsCollector.collect_location ls (npath a) va (clock w)
                  news_location_refresh
                  (fun l n Hl => Hret l n Hl) (fun l n Hl Hp => Hans l n Hl Hp) Ht w0)
        as [_ Hw]; [apply ensure_dir_clock |].
      apply Hw; [| eauto].
      rewrite <- Hstale. apply isStale_same; [by unfold w0; rewrite ensure_dir_files |].
      apply ensure_dir_clock.
    + by apply (proj1 (proj2 (proj2 (proj2 (proj2 (@collect_empty_answer _ _
                                         Examples.exact_pydantic w ls (npath b))))))).
Qed.

Lemma partial_refresh_witness :
  let ls := [Examples.sweden; Examples.aland] in
  let w := Examples.empty_world 3 in
  (snd (@WeatherCollector.collect Examples.settings Examples.partial_clients (Some ls) w)
     = Return tt /\
   files (fst (@WeatherCollector.collect Examples.settings Examples.partial_clients (Some ls) w))
     !! "media/weather/mariehamn_ax.json" = Some (File 3 (Dumped Examples.weather_payload)) /\
   files (fst (@WeatherCollector.collect Examples.settings Examples.partial_clients (Some ls) w))
     !! "media/weather/stockholm_se.json" = None) /\
  (snd (@NewsCollector.collect Examples.settings Examples.partial_clients (Some ls) w)
     = Return tt /\
   files (fst (@NewsCollector.collect Examples.settings Examples.partial_clients (Some ls) w))
     !! "media/news/aland.json" = Some (File 3 (Dumped Examples.weather_payload)) /\
   files (fst (@NewsCollector.collect Examples.settings Examples.partial_clients (Some ls) w))
     !! "media/news/sweden.json" = None).
Proof.
  cbv zeta.
  pose proof (@partial_refresh Examples.settings Examples.partial_clients
                (Examples.empty_world 3) [Examples.sweden; Examples.aland]
                Examples.aland Examples.sweden Examples.weather_payload) as Hp.
  cbv zeta in Hp.
  destruct Hp as [Hw Hn]; [right; left; reflexivity | left; reflexivity | reflexivity |].
  split.
  - apply Hw.
    + intros l n [<- | [<- | []]]; eexists; reflexivity.
    + intros l n [<- | [<- | []]] E; [vm_compute in E; discriminate E | reflexivity].
    + intros l n [<- | [<- | []]] E; [| vm_compute in E; discriminate E].
      exists PyNone. split; reflexivity.
    + reflexivity.
  - apply Hn.
    + intros l n [<- | [<- | []]]; eexists; reflexivity.
    + intros l n [<- | [<- | []]] E; [vm_compute in E; discriminate E | reflexivity].
    + intros l n [<- | [<- | []]] E; [| vm_compute in E; discriminate E].
      exists PyNone. split; reflexivity.
    + reflexivity.
Defined.

(** ** The locations the Country collector returns *)

Lemma map_m_constant_inv {A B} (f : A -> M B) (xs : list A) (w w' : World) (ys : list B) :
  (forall x, constant (f x)) ->
  map_m f xs w = (w', Return ys) ->
  Forall2 (fun x y => forall w0, f x w0 = (w0, Return y)) xs ys.
Proof.
  intros Hc. revert w w' ys. induction xs as [|x xs IH]; intros w w' ys; cbn [map_m].
  - unfold ret. intros E. inversion E. constructor.
  - rewrite bind_run. destruct (Hc x) as [o Ho]. rewrite Ho.
    destruct o as [y|e]; [| discriminate]. rewrite bind_run.
    destruct (map_m f xs w) as [w1 [ys0|e]] eqn:Em; [| discriminate].
    unfold ret. intros E. inversion E; subst. constructor; [exact Ho | by eapply IH].
Qed.

Section CountryResult.
Context `{Settings} `{Clients} `{Pydantic}.

Lemma location_of_item_inv (item : pyval) (l : LocationDTO) (w w' : World) :
  CountryCollector.location_of_item item w = (w', Return l) -> item_location item l.
Proof.
  unfold CountryCollector.location_of_item, item_location; run.
  destruct (getitem_str item "name") as [name|]; [| discriminate].
  destruct (getitem_str item "capital") as [capital|]; [| discriminate].
  destruct (getitem_str item "alpha2code") as [alpha2code|]; [| discriminate].
  intros E. exists name, capital, alpha2code. repeat split; congruence.
Qed.

Lemma item_location_run (item : pyval) (l : LocationDTO) (w : World) :
  item_location item l -> CountryCollector.location_of_item item w = (w, Return l).
Proof.
  intros (name & cap & a2 & E1 & E2 & E3 & E4).
  unfold CountryCollector.location_of_item; run. by rewrite E1, E2, E3, E4.
Qed.

Lemma LocationDTO_new_alpha2 (name cap a2 : pyval) (l : LocationDTO) :
  LocationDTO_new name cap a2 = Return l ->
  validate_str name = Some (country l) /\
  validate_str cap = Some (capital l) /\
  validate_str a2 = Some (alpha2code l) /\
  String.length (alpha2code l) = 2%nat.
Proof.
  unfold LocationDTO_new.
  destruct (validate_str name) as [c|]; [| discriminate].
  destruct (validate_str cap) as [k|]; [| destruct (validate_str a2); discriminate].
  destruct (validate_str a2) as [a|]; [| discriminate].
  destruct ((2 <=? String.length a)%nat && (String.length a <=? 2)%nat) eqn:E; [| discriminate].
  intros Hl. inversion Hl; subst; cbn. repeat split.
  apply andb_true_iff in E as [E1 E2].
  apply Nat.leb_le in E1, E2. lia.
Qed.

Lemma read_back_run (w : World) :
  CountryCollector.read_back w =
  (w, match files w !! CountryCollector.get_file_path with
      | None => Raise FileNotFoundError
      | Some f =>
          match json_loads (data f) with
          | Raise e => Raise e
          | Return result =>
              if py_truthy result then
                match py_iter result with
                | Raise e => Raise e
                | Return items =>
                    match snd (map_m CountryCollector.location_of_item items w) with
                    | Raise e => Raise e
                    | Return locations => Return (Some (frozenset locations))
                    end
                end
              else Return None
          end
      end).
Proof.
  unfold CountryCollector.read_back. rewrite bind_run. unfold file_read.
  destruct (files w !! CountryCollector.get_file_path) as [f|]; [| reflexivity].
  unfold lift at 1. rewrite bind_run.
  destruct (json_loads (data f)) as [result|e]; [| reflexivity].
  destruct (py_truthy result); [| reflexivity].
  unfold lift at 1. rewrite bind_run.
  destruct (py_iter result) as [items|e]; [| reflexivity].
  rewrite bind_run.
  pose proof (observer_map_m CountryCollector.location_of_item items
                observer_location_of_item w) as Hw.
  destruct (map_m CountryCollector.location_of_item items w) as [w1 [locs|e]];
    cbn [fst snd] in *; subst w1; reflexivity.
Qed.

End CountryResult.

Lemma Forall2_In_r {A B} (R : A -> B -> Prop) (xs : list A) (ys : list B) (y : B) :
  Forall2 R xs ys -> In y ys -> exists x, In x xs /\ R x y.
Proof.
  induction 1 as [|x y0 xs ys HR _ IH]; intros Hy; [destruct Hy |].
  destruct Hy as [<- | Hy]; [exists x; split; [by left | exact HR] |].
  destruct (IH Hy) as (x' & Hx' & HR'). exists x'. split; [by right | exact HR'].
Qed.

Lemma Forall2_In_l {A B} (R : A -> B -> Prop) (xs : list A) (ys : list B) (x : A) :
  Forall2 R xs ys -> In x xs -> exists y, In y ys /\ R x y.
Proof.
  induction 1 as [|x0 y xs ys HR _ IH]; intros Hx; [destruct Hx |].
  destruct Hx as [<- | Hx]; [exists y; split; [by left | exact HR] |].
  destruct (IH Hx) as (y' & Hy' & HR'). exists y'. split; [by right | exact HR'].
Qed.

(** X5: what [CountryCollector.collect] returns.  It returns None exactly when
    the cached value is empty.  When it returns a set of locations, the cache
    file holds a non-empty list of items, the set is not empty and has no
    duplicates, its members are exactly the locations the items decode to,
    and every member has an alpha-2 code of two characters. *)
Theorem country_collect_result `{Settings} `{Clients} `{Pydantic}
  (w w' : World) (r : option (list LocationDTO)) :
  CountryCollector.collect w = (w', Return r) ->
  exists f v,
    files w' !! CountryCollector.get_file_path = Some f /\
    data f = Dumped v /\
    match r with
    | None => py_truthy v = false
    | Some locations =>
        exists items,
          v = PyList items /\ items <> [] /\ locations <> [] /\ NoDup locations /\
          (forall l, In l locations <-> exists item, In item items /\ item_location item l) /\
          (forall l, In l locations -> String.length (alpha2code l) = 2%nat)
    end.
Proof.
  rewrite country_collect_refresh, bind_run.
  destruct (refresh _ _ _ _ w) as [w1 [[]|e]]; [| discriminate].
  rewrite read_back_run. intros E. inversion E as [[Hw Hr]]. subst w'. clear E.
  destruct (files w1 !! CountryCollector.get_file_path) as [f|]; [| discriminate].
  exists f. destruct (data f) as [v|s] eqn:Hd; [| discriminate]. exists v.
  split; [reflexivity |]. split; [reflexivity |]. cbn [json_loads] in Hr.
  destruct (py_truthy v) eqn:Ht; [| by inversion Hr].
  destruct (py_iter v) as [items|e] eqn:Hi; [| discriminate].
  destruct (map_m CountryCollector.location_of_item items w1) as [w2 [locs0|e]] eqn:Hm;
    cbn [snd] in Hr; [| discriminate].
  inversion Hr; subst r. clear Hr.
  pose proof (map_m_constant_inv _ _ _ _ _ constant_location_of_item Hm) as HF.
  assert (Hv : v = PyList items /\ items <> []).
  { destruct v as [| | | | s | l | kvs]; try discriminate.
    - destruct s as [|c s]; [discriminate |]. cbn in Hi. inversion Hi; subst items.
      inversion HF as [|? ? ? ? Hhd _]; subst. specialize (Hhd w1). discriminate.
    - cbn in Hi. inversion Hi; subst items. split; [reflexivity |].
      by destruct l.
    - destruct kvs as [|[k x] kvs]; [discriminate |]. cbn in Hi. inversion Hi; subst items.
      inversion HF as [|? ? ? ? Hhd _]; subst. specialize (Hhd w1). discriminate. }
  destruct Hv as [-> Hne]. exists items.
  split; [reflexivity |]. split; [exact Hne |].
  assert (Hmem : forall l, In l (frozenset locs0) <-> In l locs0).
  { intros l. unfold frozenset. rewrite <- !list_elem_of_In. apply elem_of_remove_dups. }
  split; [| split; [apply NoDup_remove_dups | split]].
  - destruct items as [|item items]; [done |].
    inversion HF as [|? y ? ys _ _]; subst. intros Hnil.
    assert (Hy : In y (frozenset (y :: ys))) by (apply Hmem; by left).
    rewrite Hnil in Hy. destruct Hy.
  - intros l. rewrite Hmem. split.
    + intros Hl. destruct (Forall2_In_r _ _ _ _ HF Hl) as (item & Hitem & Hrun).
      exists item. split; [exact Hitem |].
      exact (location_of_item_inv item l w1 w1 (Hrun w1)).
    + intros (item & Hitem & Hloc).
      destruct (Forall2_In_l _ _ _ _ HF Hitem) as (l' & Hl' & Hrun).
      pose proof (item_location_run item l w1 Hloc) as Hrun'.
      rewrite Hrun in Hrun'. inversion Hrun'; subst. exact Hl'.
  - intros l Hl. apply Hmem in Hl.
    destruct (Forall2_In_r _ _ _ _ HF Hl) as (item & _ & Hrun).
    destruct (location_of_item_inv _ _ _ _ (Hrun w1)) as (n & c & a & _ & _ & _ & Hnew).
    by destruct (LocationDTO_new_alpha2 _ _ _ _ Hnew) as (_ & _ & _ & Hlen).
Qed.

Lemma country_collect_result_witness :
  exists f v,
    files (Examples.full_world 10) !! "media/country.json" = Some f /\
    data f = Dumped v /\
    exists items,
      v = PyList items /\ items <> [] /\ [Examples.aland] <> [] /\ NoDup [Examples.aland] /\
      (forall l, In l [Examples.aland] <->
         exists item, In item items /\ @item_location Examples.exact_pydantic item l) /\
      (forall l, In l [Examples.aland] -> String.length (alpha2code l) = 2%nat).
Proof.
  apply (@country_collect_result Examples.settings Examples.absent_clients
           Examples.exact_pydantic (Examples.full_world 10) (Examples.full_world 10)
           (Some [Examples.aland])).
  reflexivity.
Defined.

(** ** The author of a news item *)

Lemma validate_author_not_empty (v : option string) : validate_author v <> EmptyString.
Proof.
  destruct v as [s|]; cbn; [| discriminate].
  destruct (String.eqb s EmptyString) eqn:E; [discriminate |].
  by apply String.eqb_neq in E.
Qed.

(** X6: [NewsDTO.validate_author] never yields an empty author and changes
    nothing when applied a second time; so the author of every record that
    [NewsDTO(...)] builds, and of every record [NewsCollector.read] returns,
    is a non-empty string. *)
Theorem news_author_never_empty `{Settings} `{Pydantic}
  (v : option string) (source author published_at title description : pyval)
  (l : LocationDTO) (number : Z) (w w' : World) (dto : NewsDTO) :
  validate_author v <> EmptyString /\
  validate_author (Some (validate_author v)) = validate_author v /\
  (NewsDTO_new source author published_at title description = Return dto ->
   news_author dto <> EmptyString) /\
  (NewsCollector.read l number w = (w', Return (Some dto)) ->
   news_author dto <> EmptyString).
Proof.
  assert (Hfield : forall a s, author_field a = Some s -> s <> EmptyString).
  { intros a s. unfold author_field.
    destruct a;
      [ intros [= <-]; exact (validate_author_not_empty None)
      | destruct (validate_str _) as [vs|];
        [intros [= <-]; exact (validate_author_not_empty (Some vs)) | discriminate] .. ]. }
  assert (Hnew : forall s a p t d dto0,
             NewsDTO_new s a p t d = Return dto0 -> news_author dto0 <> EmptyString).
  { intros s a p t d dto0 E.
    destruct (NewsDTO_new_inv _ _ _ _ _ _ E) as (_ & Ha & _). by eapply Hfield. }
  split; [apply validate_author_not_empty |]. split.
  - pose proof (validate_author_not_empty v) as Hne.
    cbn. destruct (String.eqb (validate_author v) EmptyString) eqn:E; [| reflexivity].
    apply String.eqb_eq in E. contradiction.
  - split; [apply Hnew |].
    rewrite news_read_run. intros E. inversion E as [[Hw Hr]]. clear E.
    destruct (files _ !! _) as [f|]; [| discriminate].
    destruct (json_loads (data f)) as [result|]; [| discriminate].
    destruct (py_truthy result); [| discriminate].
    destruct (getitem_str result "articles") as [articles|]; [| discriminate].
    destruct (getitem_int articles number) as [article|]; [| discriminate].
    destruct (NewsCollector.decode_article article) as [dto'|] eqn:Hdec; [| discriminate].
    inversion Hr; subst dto'.
    destruct (decode_article_inv article dto Hdec) as (? & ? & ? & ? & ? & ? & _ & _ & _ & _ & _ & _ & E).
    by eapply Hnew.
Qed.

Lemma news_author_never_empty_witness :
  news_author (mkNewsDTO "ABC News" "unknown" 1677291760
                 "PolyMet mine in Minnesota" "sample text") <> EmptyString.
Proof.
  refine (proj2 (proj2 (proj2 (@news_author_never_empty Examples.settings
            Examples.exact_pydantic None PyNone PyNone PyNone PyNone PyNone Examples.aland 0
            (Examples.news_world (Dumped (Examples.news_payload [Examples.article PyNone])) 10)
            (Examples.news_world (Dumped (Examples.news_payload [Examples.article PyNone])) 10)
            _))) _).
  reflexivity.
Defined.

(** ** An orchestrated run without locations *)

(** X7: when the first stage returns and the Country collector has returned None
    (its cache holds an empty value), the orchestrator passes None on to the
    Weather collector, whose loop over None raises TypeError; the exception
    leaves the orchestrator, the News collector is never invoked, and no cache
    file or remote call is added after the first stage. *)
Theorem collect_without_locations `{Settings} `{Clients} `{Pydantic} (w w2 : World) :
  Collectors.gather w = (w2, Return (tt, None)) ->
  snd (Collectors.collect w) = Raise TypeError /\
  files (fst (Collectors.collect w)) = files w2 /\
  calls (fst (Collectors.collect w)) = calls w2 /\
  trace (fst (Collectors.collect w)) =
    (trace w2 ++ [Invoked Weather None; Failed Weather TypeError])%list.
Proof.
  intros Hg. rewrite collect_run, Hg. cbn [snd]. unfold second_stage.
  rewrite bind_run.
  set (r := Collectors.invoke Weather None (fun _ : unit => None)
              (WeatherCollector.collect None) w2).
  assert (Hr : snd r = Raise TypeError /\ files (fst r) = files w2 /\
               calls (fst r) = calls w2 /\
               trace (fst r) =
                 (trace w2 ++ [Invoked Weather None; Failed Weather TypeError])%list).
  { unfold r, Collectors.invoke. rewrite weather_collect_run. cbv zeta.
    cbn [fst snd trace files calls set_trace].
    rewrite ensure_dir_files, ensure_dir_calls, ensure_dir_trace. cbn.
    by rewrite <- app_assoc. }
  destruct r as [w3 o]. cbn [fst snd] in Hr. destruct Hr as (-> & Hf & Hc & Ht).
  cbn [fst snd]. done.
Qed.

Lemma collect_without_locations_witness :
  snd (@Collectors.collect Examples.settings Examples.absent_clients Examples.exact_pydantic
         (Examples.no_countries_world 10)) = Raise TypeError.
Proof.
  eapply (@collect_without_locations Examples.settings Examples.absent_clients
            Examples.exact_pydantic (Examples.no_countries_world 10)).
  reflexivity.
Defined.

(** ** Cache keys and cache paths *)

Lemma lower_ascii_idem (c : ascii) : lower_ascii (lower_ascii c) = lower_ascii c.
Proof. destruct c as [[] [] [] [] [] [] [] []]; reflexivity. Qed.

Lemma lower_idem (s : string) : lower (lower s) = lower s.
Proof. induction s as [|c s IH]; cbn; [reflexivity |]. by rewrite lower_ascii_idem, IH. Qed.

Lemma lower_app (s t : string) : lower (s +:+ t) = lower s +:+ lower t.
Proof. induction s as [|c s IH]; simpl; [reflexivity |]. by rewrite IH. Qed.

Lemma append_length (s t : string) :
  String.length (s +:+ t) = (String.length s + String.length t)%nat.
Proof. induction s as [|c s IH]; simpl; [reflexivity |]. by rewrite IH. Qed.

Lemma append_inj_r (s a b : string) : a +:+ s = b +:+ s -> a = b.
Proof.
  revert b. induction a as [|c a IH]; intros b E.
  - destruct b as [|d b]; [reflexivity |].
    apply (f_equal String.length) in E. rewrite !append_length in E. simpl in E. lia.
  - destruct b as [|d b].
    + apply (f_equal String.length) in E. rewrite !append_length in E. simpl in E. lia.
    + change (String c (a +:+ s) = String d (b +:+ s)) in E.
      inversion E; subst. f_equal. by apply IH.
Qed.

(** X8: the key of a location is already in lower case and does not depend on
    the case of the names it is built from: two locations whose capital and
    alpha-2 code (for News: whose country name) differ in case only share one
    cache key. *)
Theorem cache_key_case_insensitive (l1 l2 : LocationDTO) :
  lower (WeatherCollector.filename_of l1) = WeatherCollector.filename_of l1 /\
  lower (NewsCollector.filename_of l1) = NewsCollector.filename_of l1 /\
  (lower (capital l1) = lower (capital l2) ->
   lower (alpha2code l1) = lower (alpha2code l2) ->
   WeatherCollector.filename_of l1 = WeatherCollector.filename_of l2) /\
  (lower (country l1) = lower (country l2) ->
   NewsCollector.filename_of l1 = NewsCollector.filename_of l2).
Proof.
  unfold WeatherCollector.filename_of, NewsCollector.filename_of.
  split; [apply lower_idem |]. split; [apply lower_idem |]. split.
  - intros Hc Ha. rewrite !lower_app. by rewrite Hc, Ha.
  - auto.
Qed.

Lemma cache_key_case_insensitive_witness :
  WeatherCollector.filename_of (Location "Aland" "MARIEHAMN" "ax")
    = WeatherCollector.filename_of Examples.aland /\
  NewsCollector.filename_of (Location "ALAND" "Mariehamn" "AX")
    = NewsCollector.filename_of Examples.aland.
Proof.
  split.
  - apply (proj1 (proj2 (proj2 (cache_key_case_insensitive
                                  (Location "Aland" "MARIEHAMN" "ax") Examples.aland))));
      reflexivity.
  - apply (proj2 (proj2 (proj2 (cache_key_case_insensitive
                                  (Location "ALAND" "Mariehamn" "AX") Examples.aland))));
      reflexivity.
Defined.

(** X9: the cache files of the four categories never coincide: the country file
    and the currency file are different paths, neither is a weather or news
    file, no weather file is a news file, and within the Weather and the News
    category different keys give different files. *)
Theorem cache_paths_distinct `{Settings} (f g : string) :
  CountryCollector.get_file_path <> CurrencyRatesCollector.get_file_path /\
  CountryCollector.get_file_path <> WeatherCollector.get_file_path f /\
  CountryCollector.get_file_path <> NewsCollector.get_file_path f /\
  CurrencyRatesCollector.get_file_path <> WeatherCollector.get_file_path f /\
  CurrencyRatesCollector.get_file_path <> NewsCollector.get_file_path f /\
  WeatherCollector.get_file_path f <> NewsCollector.get_file_path g /\
  (f <> g -> WeatherCollector.get_file_path f <> WeatherCollector.get_file_path g) /\
  (f <> g -> NewsCollector.get_file_path f <> NewsCollector.get_file_path g).
Proof.
  unfold CountryCollector.get_file_path, CurrencyRatesCollector.get_file_path,
    WeatherCollector.get_file_path, NewsCollector.get_file_path.
  repeat split; try (intros E; apply String.app_inj in E; cbn in E; discriminate E).
  - intros Hne E. apply String.app_inj in E. apply (String.app_inj "/weather/") in E.
    by apply append_inj_r in E.
  - intros Hne E. apply String.app_inj in E. apply (String.app_inj "/news/") in E.
    by apply append_inj_r in E.
Qed.

Lemma cache_paths_distinct_witness :
  @WeatherCollector.get_file_path Examples.settings "mariehamn_ax"
    <> @WeatherCollector.get_file_path Examples.settings "stockholm_se" /\
  @NewsCollector.get_file_path Examples.settings "aland"
    <> @NewsCollector.get_file_path Examples.settings "sweden".
Proof.
  split.
  - apply (proj1 (proj2 (proj2 (proj2 (proj2 (proj2 (proj2
             (@cache_paths_distinct Examples.settings "mariehamn_ax" "stockholm_se")))))))).
    discriminate.
  - apply (proj2 (proj2 (proj2 (proj2 (proj2 (proj2 (proj2
             (@cache_paths_distinct Examples.settings "aland" "sweden")))))))).
    discriminate.
Defined.

(** ** Each collector writes its own files only *)

(** X10: A cache file that differs after [collect] belongs to the collector that
    ran: the Country and CurrencyRates collectors can change their one file
    only, and the Weather and News collectors only the file of one of the
    locations they were given. *)
Theorem collect_writes_own_files `{Settings} `{Clients} `{Pydantic}
  (w : World) (ls : option (list LocationDTO)) (p : string) :
  (files (fst (CountryCollector.collect w)) !! p <> files w !! p ->
   p = CountryCollector.get_file_path) /\
  (files (fst (CurrencyRatesCollector.collect w)) !! p <> files w !! p ->
   p = CurrencyRatesCollector.get_file_path) /\
  (files (fst (WeatherCollector.collect ls w)) !! p <> files w !! p ->
   exists ls' l, ls = Some ls' /\ In l ls' /\
     p = WeatherCollector.get_file_path (WeatherCollector.filename_of l)) /\
  (files (fst (NewsCollector.collect ls w)) !! p <> files w !! p ->
   exists ls' l, ls = Some ls' /\ In l ls' /\
     p = NewsCollector.get_file_path (NewsCollector.filename_of l)).
Proof.
  split; [| split; [| split]].
  - intros Hd. destruct (decide (p = CountryCollector.get_file_path)) as [|Hne]; [done |].
    exfalso. apply Hd. rewrite country_collect_world. by apply refresh_other.
  - intros Hd. destruct (decide (p = CurrencyRatesCollector.get_file_path)) as [|Hne]; [done |].
    exfalso. apply Hd. rewrite currency_collect_refresh. by apply refresh_other.
  - intros Hd. destruct ls as [ls'|].
    + destruct (decide (Exists (fun l => WeatherCollector.get_file_path
                                           (WeatherCollector.filename_of l) = p) ls'))
        as [Hex | Hnex].
      * apply Exists_exists in Hex as (l & Hl & <-). exists ls', l. by rewrite <- list_elem_of_In.
      * exfalso. apply Hd. apply weather_collect_other. intros l Hl E.
        apply Hnex, Exists_exists. exists l. by rewrite list_elem_of_In.
    + exfalso. apply Hd. rewrite weather_collect_run. cbv zeta. cbn [fst].
      by rewrite ensure_dir_files.
  - intros Hd. destruct ls as [ls'|].
    + destruct (decide (Exists (fun l => NewsCollector.get_file_path
                                           (NewsCollector.filename_of l) = p) ls'))
        as [Hex | Hnex].
      * apply Exists_exists in Hex as (l & Hl & <-). exists ls', l. by rewrite <- list_elem_of_In.
      * exfalso. apply Hd. apply news_collect_other. intros l Hl E.
        apply Hnex, Exists_exists. exists l. by rewrite list_elem_of_In.
    + exfalso. apply Hd. rewrite news_collect_run. cbv zeta. cbn [fst].
      by rewrite ensure_dir_files.
Qed.

Lemma collect_writes_own_files_witness :
  "media/country.json" = @CountryCollector.get_file_path Examples.settings /\
  "media/currency_rates.json" = @CurrencyRatesCollector.get_file_path Examples.settings.
Proof.
  split.
  - apply (proj1 (@collect_writes_own_files Examples.settings Examples.full_clients
                    Examples.exact_pydantic (Examples.empty_world 0) None
                    "media/country.json")).
    vm_compute. discriminate.
  - apply (proj1 (proj2 (@collect_writes_own_files Examples.settings Examples.full_clients
                    Examples.exact_pydantic (Examples.empty_world 0) None
                    "media/currency_rates.json"))).
    vm_compute. discriminate.
Defined.

(** ** Collecting and reading back *)

Lemma getitem_str_truthy (v : pyval) (key : string) (x : pyval) :
  getitem_str v key = Return x -> py_truthy v = true.
Proof.
  destruct v as [| | | | | |kvs]; try discriminate.
  destruct kvs as [|kv kvs]; [discriminate | reflexivity].
Qed.

(** X11: the round trip of the currency rates: when the cache is stale and the
    provider answers with a document that has "base", "date" and "rates"
    entries passing validation, [collect] stores that document, stamped with
    the current time, and [read] then returns the record built from exactly
    these three values. *)
Theorem currency_round_trip `{Settings} `{Clients} `{Pydantic}
  (w : World) (v base date rates : pyval) (b d : string) (r : list (string * float)) :
  CacheStore.isStale w CurrencyRatesCollector.get_file_path CACHE_TTL_CURRENCY_RATES = true ->
  get_rates (length (calls w)) = Return v ->
  getitem_str v "base" = Return base ->
  getitem_str v "date" = Return date ->
  getitem_str v "rates" = Return rates ->
  validate_str base = Some b ->
  validate_str date = Some d ->
  rates_field rates = Some r ->
  files (fst (CurrencyRatesCollector.collect w)) !! CurrencyRatesCollector.get_file_path
    = Some (File (clock w) (Dumped v)) /\
  CurrencyRatesCollector.read (fst (CurrencyRatesCollector.collect w))
    = (fst (CurrencyRatesCollector.collect w), Return (Some (mkCurrencyRatesDTO b d r))).
Proof.
  intros Hs Hv Hb Hd Hr Vb Vd Vr.
  pose proof (getitem_str_truthy _ _ _ Hb) as Ht.
  assert (Hfile : files (fst (CurrencyRatesCollector.collect w))
                    !! CurrencyRatesCollector.get_file_path
                  = Some (File (clock w) (Dumped v))).
  { rewrite currency_collect_refresh. apply refresh_writes; auto. }
  split; [exact Hfile |].
  unfold CurrencyRatesCollector.read; run. rewrite Hfile. cbn.
  rewrite Hb, Hd, Hr. unfold CurrencyRatesDTO_new. by rewrite Vb, Vd, Vr.
Qed.

Lemma currency_round_trip_witness :
  @CurrencyRatesCollector.read Examples.settings Examples.exact_pydantic
    (fst (@CurrencyRatesCollector.collect Examples.settings Examples.full_clients
            (Examples.empty_world 5)))
  = (fst (@CurrencyRatesCollector.collect Examples.settings Examples.full_clients
            (Examples.empty_world 5)),
     Return (Some (mkCurrencyRatesDTO "RUB" "2022-09-14" [("EUR", (16503, -6))]))).
Proof.
  apply (proj2 (@currency_round_trip Examples.settings Examples.full_clients
                  Examples.exact_pydantic (Examples.empty_world 5) Examples.rates_payload
                  (PyStr "RUB") (PyStr "2022-09-14") (PyDict [("EUR", PyFloat (16503, -6))])
                  "RUB" "2022-09-14" [("EUR", (16503, -6))]
                  eq_refl eq_refl eq_refl eq_refl eq_refl eq_refl eq_refl eq_refl)).
Defined.

(** ** Reading the weather *)

Lemma WeatherInfoDTO_new_inv `{Pydantic}
  (dt tz temp pressure humidity speed description visibility : pyval)
  (dto : WeatherInfoDTO) :
  WeatherInfoDTO_new dt tz temp pressure humidity speed description visibility = Return dto ->
  validate_datetime dt = Some (weather_date_time dto) /\
  validate_int tz = Some (weather_utc_timezone dto) /\
  validate_float temp = Some (weather_temp dto) /\
  validate_int pressure = Some (weather_pressure dto) /\
  validate_int humidity = Some (weather_humidity dto) /\
  validate_float speed = Some (weather_wind_speed dto) /\
  validate_str description = Some (weather_description dto) /\
  validate_int visibility = Some (weather_visibility dto).
Proof.
  unfold WeatherInfoDTO_new.
  destruct (validate_datetime dt), (validate_int tz), (validate_float temp),
    (validate_int pressure), (validate_int humidity), (validate_float speed),
    (validate_str description), (validate_int visibility);
    intros E; inversion E; subst; cbn; done.
Qed.

(** X12: what [WeatherCollector.read] returns.  It never changes the world.  It
    returns None exactly when the cached value is empty.  When it returns a
    record, the cached value has the entries "dt", "timezone", "main" (with
    "temp", "pressure", "humidity"), "wind" (with "speed"), "weather" (a
    sequence whose first element has "description") and "visibility", and
    each field of the record is the validated value of its entry. *)
Theorem weather_read_fields `{Settings} `{Pydantic}
  (l : LocationDTO) (w w' : World) (r : option WeatherInfoDTO) :
  WeatherCollector.read l w = (w', Return r) ->
  w' = w /\
  exists f v,
    files w !! WeatherCollector.get_file_path (WeatherCollector.filename_of l) = Some f /\
    data f = Dumped v /\
    match r with
    | None => py_truthy v = false
    | Some dto =>
        py_truthy v = true /\
        exists dt tz main temp pressure humidity wind speed weather weather0
               description visibility,
          getitem_str v "dt" = Return dt /\
          getitem_str v "timezone" = Return tz /\
          getitem_str v "main" = Return main /\
          getitem_str main "temp" = Return temp /\
          getitem_str main "pressure" = Return pressure /\
          getitem_str main "humidity" = Return humidity /\
          getitem_str v "wind" = Return wind /\
          getitem_str wind "speed" = Return speed /\
          getitem_str v "weather" = Return weather /\
          getitem_int weather 0 = Return weather0 /\
          getitem_str weather0 "description" = Return description /\
          getitem_str v "visibility" = Return visibility /\
          validate_datetime dt = Some (weather_date_time dto) /\
          validate_int tz = Some (weather_utc_timezone dto) /\
          validate_float temp = Some (weather_temp dto) /\
          validate_int pressure = Some (weather_pressure dto) /\
          validate_int humidity = Some (weather_humidity dto) /\
          validate_float speed = Some (weather_wind_speed dto) /\
          validate_str description = Some (weather_description dto) /\
          validate_int visibility = Some (weather_visibility dto)
    end.
Proof.
  intros E.
  pose proof (observer_weather_read l w) as Hobs. rewrite E in Hobs. cbn in Hobs. subst w'.
  split; [reflexivity |]. revert E.
  unfold WeatherCollector.read; run.
  destruct (files w !! _) as [f|]; [| discriminate].
  destruct (data f) as [v|s] eqn:Hd; [| discriminate]. cbn [json_loads].
  destruct (py_truthy v) eqn:Ht;
    [| intros E; inversion E; exists f, v; by rewrite Hd].
  destruct (getitem_str v "dt") as [dt|] eqn:E1; [| discriminate].
  destruct (getitem_str v "timezone") as [tz|] eqn:E2; [| discriminate].
  destruct (getitem_str v "main") as [main|] eqn:E3; [| discriminate].
  destruct (getitem_str main "temp") as [temp|] eqn:E4; [| discriminate].
  destruct (getitem_str main "pressure") as [pressure|] eqn:E5; [| discriminate].
  destruct (getitem_str main "humidity") as [humidity|] eqn:E6; [| discriminate].
  destruct (getitem_str v "wind") as [wind|] eqn:E7; [| discriminate].
  destruct (getitem_str wind "speed") as [speed|] eqn:E8; [| discriminate].
  destruct (getitem_str v "weather") as [weather|] eqn:E9; [| discriminate].
  destruct (getitem_int weather 0) as [weather0|] eqn:E10; [| discriminate].
  destruct (getitem_str weather0 "description") as [description|] eqn:E11; [| discriminate].
  destruct (getitem_str v "visibility") as [visibility|] eqn:E12; [| discriminate].
  destruct (WeatherInfoDTO_new dt tz temp pressure humidity speed description visibility)
    as [dto|] eqn:Hnew; [| discriminate].
  intros E. inversion E; subst r. exists f, v.
  split; [reflexivity |]. split; [exact Hd |]. split; [exact Ht |].
  exists dt, tz, main, temp, pressure, humidity, wind, speed, weather, weather0,
    description, visibility.
  pose proof (WeatherInfoDTO_new_inv _ _ _ _ _ _ _ _ _ Hnew) as Hv.
  repeat (split; [assumption |]). exact Hv.
Qed.

Lemma weather_read_fields_witness :
  exists f v,
    files (Examples.full_world 10) !! "media/weather/mariehamn_ax.json" = Some f /\
    data f = Dumped v /\ py_truthy v = true.
Proof.
  destruct (@weather_read_fields Examples.settings Examples.exact_pydantic Examples.aland
              (Examples.full_world 10) (Examples.full_world 10)
              (Some (mkWeatherInfoDTO 1677332220 3600 (1392, -2) 1023 54 (463, -2)
                       "scattered clouds" 10000)) eq_refl)
    as (_ & f & v & Hf & Hd & Ht & _).
  exists f, v. repeat split; assumption.
Defined.

(** ** Reading the countries *)

Section CountryRead.
Context `{Settings} `{Pydantic}.

Lemma constant_currency_of_item (c : pyval) : constant (CountryCollector.currency_of_item c).
Proof.
  unfold CountryCollector.currency_of_item.
  apply constant_bind; [apply constant_lift | intros ?]. apply constant_lift.
Qed.

Lemma constant_country_of_item (item : pyval) :
  constant (CountryCollector.country_of_item item).
Proof.
  unfold CountryCollector.country_of_item.
  repeat first
    [ apply constant_lift
    | apply constant_bind; [first [apply constant_lift
                                  | apply constant_map_m, constant_currency_of_item] | intros ?] ].
Qed.

End CountryRead.

(** X13: what [CountryCollector.read] returns.  It never changes the world.  It
    returns None exactly when the cache file is empty text.  Otherwise the
    file holds a JSON value that can be iterated, and the result has one
    record per item, in the order of the items, each the decoding of its
    item.  (A cached empty list so gives an empty list of records, where
    [collect] gives None.) *)
Theorem country_read_records `{Settings} `{Pydantic}
  (w w' : World) (r : option (list CountryDTO)) :
  CountryCollector.read w = (w', Return r) ->
  w' = w /\
  exists f,
    files w !! CountryCollector.get_file_path = Some f /\
    match r with
    | None => data f = RawText EmptyString
    | Some records =>
        exists v items,
          data f = Dumped v /\
          py_iter v = Return items /\
          length records = length items /\
          Forall2 (fun item record =>
                     forall w0, CountryCollector.country_of_item item w0 = (w0, Return record))
                  items records
    end.
Proof.
  intros E.
  pose proof (observer_country_read w) as Hobs. rewrite E in Hobs. cbn in Hobs. subst w'.
  split; [reflexivity |]. revert E.
  unfold CountryCollector.read. rewrite bind_run. unfold file_read.
  destruct (files w !! CountryCollector.get_file_path) as [f|]; [| discriminate].
  intros E. exists f. split; [reflexivity |].
  destruct (data f) as [v|s] eqn:Hd.
  - cbn [content_truthy] in E. unfold lift at 1 in E. rewrite bind_run in E.
    cbn [json_loads] in E. unfold lift at 1 in E. rewrite bind_run in E.
    destruct (py_iter v) as [items|] eqn:Hi; [| discriminate].
    rewrite bind_run in E.
    destruct (map_m CountryCollector.country_of_item items w) as [w1 [records|]] eqn:Hm;
      [| discriminate].
    unfold ret in E. inversion E; subst.
    pose proof (map_m_constant_inv _ _ _ _ _ constant_country_of_item Hm) as HF.
    exists v, items. split; [reflexivity |]. split; [exact Hi |].
    split; [symmetry; by eapply Forall2_length | exact HF].
  - cbn [content_truthy] in E.
    destruct (String.eqb s EmptyString) eqn:Es; cbn [negb] in E.
    + apply String.eqb_eq in Es. subst s. unfold ret in E. by inversion E.
    + unfold lift at 1 in E. rewrite bind_run in E. discriminate.
Qed.

Lemma country_read_records_witness :
  exists f,
    files (Examples.country_world 10) !! "media/country.json" = Some f /\
    exists v items,
      data f = Dumped v /\ py_iter v = Return items /\
      length [Examples.aland_country] = length items /\
      Forall2 (fun item record =>
                 forall w0, @CountryCollector.country_of_item Examples.exact_pydantic item w0
                            = (w0, Return record))
              items [Examples.aland_country].
Proof.
  apply (proj2 (@country_read_records Examples.settings Examples.exact_pydantic
                  (Examples.country_world 10) (Examples.country_world 10)
                  (Some [Examples.aland_country]) eq_refl)).
Defined.

(** ** The population in the report *)

Lemma append_cons (c : ascii) (s t : string) : String c s +:+ t = String c (s +:+ t).
Proof. reflexivity. Qed.

Lemma append_nil_l (t : string) : EmptyString +:+ t = t.
Proof. reflexivity. Qed.

Lemma is_digit_not_sep (c : ascii) :
  is_digit c = true -> Ascii.eqb c "," = false /\ Ascii.eqb c "." = false.
Proof.
  destruct c as [[] [] [] [] [] [] [] []]; cbn; intros E;
    first [discriminate E | split; reflexivity].
Qed.

Lemma all_digits_uint (d : Decimal.uint) :
  all_digits (DecimalString.NilEmpty.string_of_uint d) = true.
Proof. induction d; cbn; auto. Qed.

Lemma all_digits_numeral (d : Decimal.uint) :
  all_digits (DecimalString.NilZero.string_of_uint d) = true.
Proof. destruct d; try reflexivity; apply (all_digits_uint (_ d)). Qed.

Lemma replace_char_app (old new : ascii) (s t : string) :
  replace_char old new (s +:+ t) = replace_char old new s +:+ replace_char old new t.
Proof.
  induction s as [|c s IH]; [reflexivity |].
  rewrite append_cons. cbn [replace_char]. by rewrite IH.
Qed.

Lemma replace_char_digits (s : string) :
  all_digits s = true -> replace_char "," "." s = s.
Proof.
  induction s as [|c s IH]; [reflexivity |]. cbn [all_digits replace_char].
  intros [Hc Hs]%andb_true_iff. destruct (is_digit_not_sep c Hc) as [-> _]. by rewrite IH.
Qed.

Lemma no_comma_left (s : string) : count_char "," (replace_char "," "." s) = 0%nat.
Proof.
  induction s as [|c s IH]; [reflexivity |]. cbn [replace_char count_char].
  rewrite IH. destruct (Ascii.eqb c ",") eqn:E; [reflexivity |]. by rewrite E.
Qed.

Lemma strip_group (s : string) :
  all_digits s = true ->
  remove_char "." (replace_char "," "." (group_thousands s)) = s.
Proof.
  induction s as [|c s IH]; [reflexivity |]. cbn [all_digits group_thousands].
  intros [Hc Hs]%andb_true_iff. destruct (is_digit_not_sep c Hc) as [Hc1 Hc2].
  cbn [replace_char remove_char]. rewrite Hc1, Hc2.
  destruct (_ && _)%nat; cbn [replace_char remove_char]; by rewrite ?IH.
Qed.

Lemma count_group (s : string) :
  all_digits s = true ->
  count_char "." (replace_char "," "." (group_thousands s)) = ((String.length s - 1) / 3)%nat.
Proof.
  induction s as [|c s IH]; [reflexivity |]. cbn [all_digits group_thousands].
  intros [Hc Hs]%andb_true_iff. destruct (is_digit_not_sep c Hc) as [Hc1 Hc2].
  cbn [replace_char count_char String.length]. rewrite Hc1, Hc2.
  specialize (IH Hs). set (k := String.length s) in *.
  replace (S k - 1)%nat with k by lia.
  destruct (0 <? k)%nat eqn:Ek.
  - apply Nat.ltb_lt in Ek.
    pose proof (Nat.div_mod_eq k 3) as Hk.
    pose proof (Nat.mod_upper_bound k 3 ltac:(lia)) as Hm.
    pose proof (Nat.div_mod_eq (k - 1) 3) as Hk1.
    pose proof (Nat.mod_upper_bound (k - 1) 3 ltac:(lia)) as Hm1.
    destruct (k mod 3 =? 0)%nat eqn:Em; cbn [andb replace_char count_char];
      [apply Nat.eqb_eq in Em | apply Nat.eqb_neq in Em]; rewrite IH;
      repeat match goal with
             | |- context [Ascii.eqb ?a ?b] =>
                 let r := eval vm_compute in (Ascii.eqb a b) in
                 change (Ascii.eqb a b) with r; cbv iota
             end;
      lia.
  - apply Nat.ltb_ge in Ek. assert (k = 0%nat) as Hk0 by lia.
    cbn [andb]. rewrite IH, Hk0. reflexivity.
Qed.

Lemma group_short (s : string) :
  (String.length s <= 3)%nat -> group_thousands s = s.
Proof.
  destruct s as [|a [|b [|c [|d s]]]]; cbn; try reflexivity. lia.
Qed.

Lemma group_app (a b : string) :
  a <> EmptyString -> String.length b = 3%nat ->
  group_thousands (a +:+ b) = group_thousands a +:+ String "," b.
Proof.
  intros Ha Hb. induction a as [|c a IH]; [done |].
  rewrite append_cons. cbn [group_thousands]. rewrite append_length, Hb.
  destruct a as [|c' a].
  - rewrite append_nil_l, (group_short b) by lia. reflexivity.
  - rewrite IH by discriminate.
    set (k := String.length (String c' a)).
    assert (0 < k)%nat by (unfold k; cbn; lia).
    replace (0 <? k + 3)%nat with true by (symmetry; apply Nat.ltb_lt; lia).
    replace (0 <? k)%nat with true by (symmetry; apply Nat.ltb_lt; lia).
    replace ((k + 3) mod 3)%nat with (k mod 3)%nat
      by (symmetry; apply (Nat.Div0.mod_add k 1 3)).
    cbn [andb]. destruct (k mod 3 =? 0)%nat; reflexivity.
Qed.

Lemma all_digits_app (a b : string) :
  all_digits (a +:+ b) = all_digits a && all_digits b.
Proof.
  induction a as [|c a IH]; [reflexivity |].
  rewrite append_cons. cbn [all_digits]. by rewrite IH, andb_assoc.
Qed.

Lemma to_int_cases (n : Z) :
  (0 <= n /\ exists d, Z.to_int n = Decimal.Pos d /\ Z.to_int (Z.abs n) = Decimal.Pos d) \/
  (n < 0 /\ exists d, Z.to_int n = Decimal.Neg d /\ Z.to_int (Z.abs n) = Decimal.Pos d).
Proof.
  destruct n as [|p|p]; [left | left | right]; (split; [lia |]); eexists; split; reflexivity.
Qed.

Lemma py_int_str (n : Z) : py_int (py_str_int n) = Some n.
Proof.
  unfold py_int, py_str_int. rewrite DecimalString.NilZero.isi.
  - cbn. by rewrite DecimalZ.of_to.
  - destruct n as [|p|p]; cbn; try discriminate.
    intros [= E]. by apply DecimalPos.Unsigned.to_uint_nonnil in E.
  - destruct n as [|p|p]; cbn; try discriminate.
    intros [= E]. by apply DecimalPos.Unsigned.to_uint_nonnil in E.
Qed.

(** X14: [Renderer._format_population] writes the population with a dot between
    groups of three digits.  No digit is lost or altered: deleting the dots
    gives the decimal numeral again, from which the number is read back.  No
    comma remains; the number of dots is that of the complete groups of three
    below the leading group; a number of at most three digits is written as
    it is; and a longer one is the head of its numeral, formatted the same
    way, then a dot, then its last three digits. *)
Theorem format_population_numeral (n : Z) (a b : string) :
  remove_char "." (Renderer._format_population n) = py_str_int n /\
  py_int (remove_char "." (Renderer._format_population n)) = Some n /\
  count_char "," (Renderer._format_population n) = 0%nat /\
  count_char "." (Renderer._format_population n)
    = ((String.length (py_str_int (Z.abs n)) - 1) / 3)%nat /\
  (0 <= n -> (String.length (py_str_int n) <= 3)%nat ->
   Renderer._format_population n = py_str_int n) /\
  (0 <= n -> py_str_int n = a +:+ b -> a <> EmptyString -> String.length b = 3%nat ->
   Renderer._format_population n
   = replace_char "," "." (group_thousands a) +:+ String "." b).
Proof.
  assert (Hstrip : remove_char "." (Renderer._format_population n) = py_str_int n).
  { unfold Renderer._format_population, format_comma, py_str_int.
    destruct (Z.to_int n) as [d|d]; cbn [DecimalString.NilZero.string_of_int].
    - apply strip_group, all_digits_numeral.
    - cbn [replace_char remove_char].
      change (Ascii.eqb "-" ",") with false. cbv iota.
      change (Ascii.eqb "-" ".") with false. cbv iota.
      f_equal. apply strip_group, all_digits_numeral. }
  split; [exact Hstrip |]. split; [rewrite Hstrip; apply py_int_str |].
  split; [apply no_comma_left |]. split; [| split].
  - unfold Renderer._format_population, format_comma, py_str_int.
    destruct (to_int_cases n) as [(_ & d & -> & ->) | (_ & d & -> & ->)];
      cbn [DecimalString.NilZero.string_of_int].
    + apply count_group, all_digits_numeral.
    + cbn [replace_char count_char].
      change (Ascii.eqb "-" ",") with false. cbv iota.
      change (Ascii.eqb "-" ".") with false. cbv iota.
      rewrite Nat.add_0_l. apply count_group, all_digits_numeral.
  - intros Hn Hlen. unfold Renderer._format_population, format_comma, py_str_int in *.
    destruct (to_int_cases n) as [(_ & d & Hd & _) | (Hneg & _)]; [| lia].
    rewrite Hd in *. cbn [DecimalString.NilZero.string_of_int] in *.
    rewrite group_short by exact Hlen. apply replace_char_digits, all_digits_numeral.
  - intros Hn Hab Ha Hb. unfold Renderer._format_population, format_comma, py_str_int in *.
    destruct (to_int_cases n) as [(_ & d & Hd & _) | (Hneg & _)]; [| lia].
    rewrite Hd in *. cbn [DecimalString.NilZero.string_of_int] in *.
    pose proof (all_digits_numeral d) as Hdig. rewrite Hab, all_digits_app in Hdig.
    apply andb_true_iff in Hdig as [_ Hdb].
    rewrite Hab, group_app, replace_char_app by assumption.
    cbn [replace_char]. change (Ascii.eqb "," ",") with true. cbv iota.
    by rewrite (replace_char_digits b Hdb).
Qed.

Lemma format_population_numeral_witness :
  Renderer._format_population 28875 = "28.875" /\
  Renderer._format_population 999 = "999".
Proof.
  split.
  - rewrite (proj2 (proj2 (proj2 (proj2 (proj2
              (format_population_numeral 28875 "28" "875")))))); [reflexivity | lia | | |];
      first [reflexivity | discriminate].
  - apply (proj1 (proj2 (proj2 (proj2 (proj2 (format_population_numeral 999 "" ""))))));
      [lia | cbn; lia].
Defined.

(** ** The news client *)

(** X15: the request of [NewsClient.get_news] names its country: different
    countries give different endpoints.  And a response whose status is not
    200 OK never reaches the cache: [get_news] then returns None whatever the
    body says, so that [NewsCollector.collect], run with this client, returns
    and leaves every cache file as it was. *)
Theorem news_client_non_ok `{Settings} (cl : Clients) (key : string)
  (http : nat -> string -> outcome (Z * outcome pyval))
  (w : World) (ls : list LocationDTO) (c1 c2 : string) :
  (c1 <> c2 -> NewsClient.endpoint_of key c1 <> NewsClient.endpoint_of key c2) /\
  (forall n status json,
     http n (NewsClient.endpoint_of key c1) = Return (status, json) -> status <> 200 ->
     NewsClient.get_news key http n c1 = Return PyNone) /\
  ((forall n c, @get_news cl n c = NewsClient.get_news key http n c) ->
   (forall l n, In l ls ->
      exists status json,
        http n (NewsClient.endpoint_of key (country l)) = Return (status, json) /\
        status <> 200) ->
   files (fst (@NewsCollector.collect _ cl (Some ls) w)) = files w /\
   snd (@NewsCollector.collect _ cl (Some ls) w) = Return tt).
Proof.
  assert (Hnone : forall n c status json,
            http n (NewsClient.endpoint_of key c) = Return (status, json) -> status <> 200 ->
            NewsClient.get_news key http n c = Return PyNone).
  { intros n c status json Hh Hs. unfold NewsClient.get_news, NewsClient._request.
    rewrite Hh. unfold NewsClient.OK.
    destruct (status =? 200) eqn:E; [apply Z.eqb_eq in E; contradiction | reflexivity]. }
  split; [| split].
  - intros Hne E. unfold NewsClient.endpoint_of in E.
    apply String.app_inj in E. apply (String.app_inj "?q=") in E.
    apply append_inj_r in E. contradiction.
  - intros n status json. apply Hnone.
  - intros Hcl Hhttp.
    assert (Hemp : forall l n, In l ls -> empty_answer (@get_news cl n (country l))).
    { intros l n Hl. destruct (Hhttp l n Hl) as (status & json & Hh & Hs).
      exists PyNone. split; [| reflexivity]. rewrite Hcl. by eapply Hnone. }
    split.
    + apply map_eq. intros p.
      apply (proj1 (proj2 (proj2 (proj2 (proj2 (@collect_empty_answer _ cl
                      Examples.exact_pydantic w ls p)))))).
      intros l n Hl _. by apply Hemp.
    + by apply (proj2 (proj2 (proj2 (proj2 (proj2 (@collect_empty_answer _ cl
                      Examples.exact_pydantic w ls EmptyString)))))).
Qed.

Lemma news_client_non_ok_witness :
  NewsClient.endpoint_of "key" "Aland" <> NewsClient.endpoint_of "key" "Sweden" /\
  NewsClient.get_news "key" NewsExamples.not_found 0 "Aland" = Return PyNone /\
  files (fst (@NewsCollector.collect Examples.settings NewsExamples.not_found_clients
                (Some [Examples.aland]) (Examples.empty_world 0))) = ∅.
Proof.
  pose proof (@news_client_non_ok Examples.settings NewsExamples.not_found_clients "key"
                NewsExamples.not_found (Examples.empty_world 0) [Examples.aland]
                "Aland" "Sweden") as (H1 & H2 & H3).
  split; [apply H1; discriminate |].
  split; [apply (H2 0%nat 404 (Return (PyDict [("status", PyStr "error")]))); [reflexivity | lia] |].
  apply H3; [reflexivity |].
  intros l n _. exists 404, (Return (PyDict [("status", PyStr "error")])).
  split; [reflexivity | lia].
Defined.

(** ** An orchestrated run that succeeds *)

Lemma invoke_result {A} (c : category) (arg : option (list LocationDTO))
  (result_of : A -> option (list LocationDTO)) (m : M A) (w : World) :
  files (fst (Collectors.invoke c arg result_of m w))
    = files (fst (m (set_trace w (trace w ++ [Invoked c arg])))) /\
  snd (Collectors.invoke c arg result_of m w)
    = snd (m (set_trace w (trace w ++ [Invoked c arg]))).
Proof.
  unfold Collectors.invoke. destruct (m _) as [w' [a|e]]; split; reflexivity.
Qed.

Section FullRun.
Context `{Settings} `{Clients} `{Pydantic}.

Lemma country_collect_returns_exists (w w' : World) (r : option (list LocationDTO)) :
  CountryCollector.collect w = (w', Return r) ->
  is_Some (files w' !! CountryCollector.get_file_path).
Proof.
  rewrite country_collect_refresh, bind_run.
  destruct (refresh _ _ _ _ w) as [w1 [[]|e]]; [| discriminate].
  rewrite read_back_run. intros E. inversion E as [[Hw Hr]]. subst w'.
  destruct (files w1 !! CountryCollector.get_file_path); [eauto | discriminate].
Qed.

Lemma weather_collect_fills (ls : list LocationDTO) (w : World) :
  0 < CACHE_TTL_WEATHER ->
  (forall l n, In l ls -> good_answer (get_weather n (capital l +:+ "," +:+ alpha2code l))) ->
  snd (WeatherCollector.collect (Some ls) w) = Return tt /\
  forall l, In l ls ->
    is_Some (files (fst (WeatherCollector.collect (Some ls) w))
               !! WeatherCollector.get_file_path (WeatherCollector.filename_of l)).
Proof.
  intros Httl Hgood. rewrite weather_collect_run. cbv zeta.
  destruct (for_each_establishes
              (fun l => WeatherCollector.get_file_path (WeatherCollector.filename_of l))
              CACHE_TTL_WEATHER
              (fun l => GetWeather (capital l +:+ "," +:+ alpha2code l))
              (fun l n => get_weather n (capital l +:+ "," +:+ alpha2code l))
              WeatherCollector.collect_location ls weather_location_refresh Httl
              (fun l n Hl => Hgood l n Hl)
              (fst (ensure_dir (MEDIA_PATH +:+ "/weather") w))) as [Hret Hfresh].
  split; [exact Hret |]. intros l Hl. eapply isStale_false_exists. by apply Hfresh.
Qed.

Lemma news_collect_fills (ls : list LocationDTO) (w : World) :
  0 < CACHE_TTL_NEWS ->
  (forall l n, In l ls -> good_answer (get_news n (country l))) ->
  snd (NewsCollector.collect (Some ls) w) = Return tt /\
  forall l, In l ls ->
    is_Some (files (fst (NewsCollector.collect (Some ls) w))
               !! NewsCollector.get_file_path (NewsCollector.filename_of l)).
Proof.
  intros Httl Hgood. rewrite news_collect_run. cbv zeta.
  destruct (for_each_establishes
              (fun l => NewsCollector.get_file_path (NewsCollector.filename_of l))
              CACHE_TTL_NEWS
              (fun l => GetNews (country l))
              (fun l n => get_news n (country l))
              NewsCollector.collect_location ls news_location_refresh Httl
              (fun l n Hl => Hgood l n Hl)
              (fst (ensure_dir (MEDIA_PATH +:+ "/news") w))) as [Hret Hfresh].
  split; [exact Hret |]. intros l Hl. eapply isStale_false_exists. by apply Hfresh.
Qed.

Lemma gather_country_exists (w w2 : World) (r : option (list LocationDTO)) :
  Collectors.gather w = (w2, Return (tt, r)) ->
  is_Some (files w2 !! CountryCollector.get_file_path).
Proof.
  rewrite gather_run. cbv zeta.
  set (r0 := Collectors.invoke CurrencyRates None (fun _ : unit => None)
               CurrencyRatesCollector.collect w).
  destruct (invoke_result Country None id CountryCollector.collect (fst r0)) as [Hf Hs].
  destruct (Collectors.invoke Country None id CountryCollector.collect (fst r0))
    as [w2' o1]. cbn [fst snd] in *.
  intros E. inversion E as [[Hw Ho]]. subst w2'.
  destruct (snd r0) as [[]|]; [| discriminate].
  destruct o1 as [r1|]; [| discriminate].
  rewrite Hf.
  destruct (CountryCollector.collect _) as [wx ox] eqn:Ec. cbn [fst snd] in *. subst ox.
  by eapply country_collect_returns_exists.
Qed.

End FullRun.

(** X16: when the first stage returns a set of locations and the weather and news
    providers answer every call for these locations with a document (TTLs
    positive), the whole orchestrated run returns, and afterwards the cache
    holds the country file and, for every location of the set, a weather
    file and a news file: no later [read] for such a location can miss its
    cache file. *)
Theorem orchestrated_run_fills_cache `{Settings} `{Clients} `{Pydantic}
  (w w2 : World) (locations : list LocationDTO) :
  0 < CACHE_TTL_WEATHER -> 0 < CACHE_TTL_NEWS ->
  (forall l n, In l locations ->
     good_answer (get_weather n (capital l +:+ "," +:+ alpha2code l))) ->
  (forall l n, In l locations -> good_answer (get_news n (country l))) ->
  Collectors.gather w = (w2, Return (tt, Some locations)) ->
  snd (Collectors.collect w) = Return tt /\
  is_Some (files (fst (Collectors.collect w)) !! CountryCollector.get_file_path) /\
  forall l, In l locations ->
    is_Some (files (fst (Collectors.collect w))
               !! WeatherCollector.get_file_path (WeatherCollector.filename_of l)) /\
    is_Some (files (fst (Collectors.collect w))
               !! NewsCollector.get_file_path (NewsCollector.filename_of l)).
Proof.
  intros Hw Hn Hgw Hgn Hg.
  pose proof (gather_country_exists w w2 _ Hg) as Hc.
  rewrite collect_run, Hg. cbn [snd]. unfold second_stage. rewrite bind_run.
  destruct (invoke_result Weather (Some locations) (fun _ : unit => None)
              (WeatherCollector.collect (Some locations)) w2) as [Hf3 Hs3].
  pose proof (grows_invoke Weather (Some locations) (fun _ : unit => None)
                (WeatherCollector.collect (Some locations)) w2 (grows_weather (Some locations))) as Hg3.
  destruct (weather_collect_fills locations
              (set_trace w2 (trace w2 ++ [Invoked Weather (Some locations)])) Hw Hgw) as [Hr3 He3].
  destruct (Collectors.invoke Weather (Some locations) _ _ w2) as [w3 o3]. cbn [fst snd] in *.
  rewrite Hr3 in Hs3. subst o3. rewrite bind_run.
  destruct (invoke_result News (Some locations) (fun _ : unit => None)
              (NewsCollector.collect (Some locations)) w3) as [Hf4 Hs4].
  pose proof (grows_invoke News (Some locations) (fun _ : unit => None)
                (NewsCollector.collect (Some locations)) w3 (grows_news (Some locations))) as Hg4.
  destruct (news_collect_fills locations
              (set_trace w3 (trace w3 ++ [Invoked News (Some locations)])) Hn Hgn) as [Hr4 He4].
  destruct (Collectors.invoke News (Some locations) _ _ w3) as [w4 o4]. cbn [fst snd] in *.
  rewrite Hr4 in Hs4. subst o4. unfold ret. cbn [fst snd].
  split; [reflexivity |]. split.
  - apply Hg4, Hg3, Hc.
  - intros l Hl. split.
    + apply Hg4. rewrite Hf3. by apply He3.
    + rewrite Hf4. by apply He4.
Qed.

Lemma orchestrated_run_fills_cache_witness :
  snd (@Collectors.collect Examples.settings Examples.full_clients Examples.exact_pydantic
         (Examples.empty_world 0)) = Return tt.
Proof.
  refine (proj1 (@orchestrated_run_fills_cache Examples.settings Examples.full_clients
                   Examples.exact_pydantic (Examples.empty_world 0) _ [Examples.aland]
                   _ _ _ _ _)).
  - reflexivity.
  - reflexivity.
  - intros l n _. eexists. split; reflexivity.
  - intros l n _. eexists. split; reflexivity.
  - reflexivity.
Defined.
